(** * CV ranker: scoring, batch analysis, CSV export and persistence

    A shallow embedding of the client logic of the recruiting assistant:
    - [types.ts]: the records [ScoringWeights], [AIResponseRaw],
      [CandidateAnalysis] and [ProcessingFile];
    - [App.tsx]: [calculateFinalScore], the score recomputation effect, the
      two persistence effects, [clearAllData] and the [startAnalysis] loop;
    - [services/gemini.ts]: [analyzeCandidate];
    - [services/fileUtils.ts]: [fileToBase64] and [generateCSV];
    - [components/Dashboard.tsx]: [handleDownload].

    Modelling conventions.
    - A JavaScript [number] is a binary64 float.  [Double.calculateFinalScore]
      is the scoring function on the primitive floats of the kernel, with the
      rounding, the infinities and NaN of the source; the properties of the
      score are stated on it.  The model of the application (state, effects,
      batch run, report) carries numbers as exact rationals ([Q]) and reads
      the arithmetic of the source as exact: what is stated there is which
      branch runs, which records are kept, their order and their text.
    - A JavaScript string is a [string]; an array is a [list]; an array that
      is shared and mutated in place lives in a heap of arrays.
    - A promise that rejects, and a [throw], are the [Throw] outcome of a
      small exception monad; [try]/[catch] is [try_catch].
    - React state is an explicit record; a [useEffect] is a function on that
      record that runs after the state it depends on has changed. *)

From Stdlib Require Import ZArith QArith Qabs Qround Lia Lqa.
From Stdlib Require Import String Ascii List Permutation Sorted DecimalString.
From Stdlib Require Import Floats Uint63.
From stdpp Require Import base option gmap strings list.
Import ListNotations.

Local Open Scope string_scope.

(** ** types.ts *)

Module ScoringWeights.
Record t : Type := mk {
  skillsMatch : Q;
  experienceRelevance : Q;
  qualifications : Q;
  seniority : Q;
  clarity : Q
}.
End ScoringWeights.

Module Ratings.
Record t : Type := mk {
  skillsMatch : Q;
  experienceRelevance : Q;
  qualifications : Q;
  seniority : Q;
  clarity : Q
}.
End Ratings.

Inductive FitLabel : Type := High | Medium | Low.

Record AIResponseRaw : Type := mkRaw {
  candidateName : string;
  skillsFound : list string;
  skillsMissing : list string;
  qualifications : list string;
  achievements : list string;
  experienceSummary : string;
  strengths : list string;
  weaknesses : list string;
  ratings : Ratings.t;
  reasoning : string
}.

(** [CandidateAnalysis extends AIResponseRaw]: the inherited fields are the
    [raw] component, so that the object spread [{...candidate, f: v}] is a
    record update that keeps [raw]. *)
Record CandidateAnalysis : Type := mkCandidate {
  raw : AIResponseRaw;
  id : string;
  finalScore : Q;
  fitLabel : FitLabel
}.

(** ** App.tsx: the scoring function *)

Definition DEFAULT_WEIGHTS : ScoringWeights.t :=
  ScoringWeights.mk 35 30 15 10 10.

(** [Object.values(w)]: the five weights in key order. *)
Definition Object_values (w : ScoringWeights.t) : list Q :=
  [ ScoringWeights.skillsMatch w;
    ScoringWeights.experienceRelevance w;
    ScoringWeights.qualifications w;
    ScoringWeights.seniority w;
    ScoringWeights.clarity w ].

(** [xs.reduce((a, b) => a + b, 0)]. *)
Definition reduce_sum (xs : list Q) : Q :=
  fold_left (fun a b => (a + b)%Q) xs 0%Q.

(** Lines 83-101, with the arithmetic read as exact.  The same function on
    doubles is [Double.calculateFinalScore]. *)
Definition calculateFinalScore
    (candidate : CandidateAnalysis) (w : ScoringWeights.t) : CandidateAnalysis :=
  let totalWeight := reduce_sum (Object_values w) in
  if Qeq_bool totalWeight 0 then candidate
  else
    let r := ratings (raw candidate) in
    let rawScore :=
      (Ratings.skillsMatch r * ScoringWeights.skillsMatch w +
       Ratings.experienceRelevance r * ScoringWeights.experienceRelevance w +
       Ratings.qualifications r * ScoringWeights.qualifications w +
       Ratings.seniority r * ScoringWeights.seniority w +
       Ratings.clarity r * ScoringWeights.clarity w)%Q in
    let finalScore := (rawScore / totalWeight)%Q in
    let fitLabel :=
      if Qle_bool 80 finalScore then High
      else if Qle_bool 50 finalScore then Medium
      else Low in
    {| raw := raw candidate; id := id candidate;
       finalScore := finalScore; fitLabel := fitLabel |}.

(** *** The sum of the weights in the statements *)

Fixpoint sum_list_Q (xs : list Q) : Q :=
  match xs with
  | [] => 0%Q
  | x :: xs' => (x + sum_list_Q xs')%Q
  end.

Definition weights_nonneg (w : ScoringWeights.t) : Prop :=
  Forall (fun x => (0 <= x)%Q) (Object_values w).

Definition weight_sum (w : ScoringWeights.t) : Q := sum_list_Q (Object_values w).

(** ** Strings and numbers of the host *)

Definition dquote : ascii := "034"%char.
Definition comma : ascii := ","%char.
Definition newline : ascii := "010"%char.

(** [xs.join(sep)]. *)
Fixpoint join (sep : string) (xs : list string) : string :=
  match xs with
  | [] => ""
  | x :: xs' =>
      match xs' with
      | [] => x
      | _ :: _ => x ++ sep ++ join sep xs'
      end
  end.

(** The escaping [replace] of the three quoted columns: every double-quote
    character is written twice. *)
Fixpoint replace_quotes (s : string) : string :=
  match s with
  | EmptyString => EmptyString
  | String c s' =>
      if Ascii.eqb c dquote
      then String dquote (String dquote (replace_quotes s'))
      else String c (replace_quotes s')
  end.

(** The template literal that wraps an escaped string in double quotes. *)
Definition quoted (s : string) : string :=
  String dquote (replace_quotes s ++ String dquote EmptyString).

(** Decimal digits of an integer, with a leading minus sign when negative. *)
Definition string_of_Z (z : Z) : string := NilZero.string_of_int (Z.to_int z).

Definition is_integer (x : Q) : bool := Qeq_bool x (inject_Z (Qfloor x)).

Definition ten_pow_21 : Z := 1000000000000000000000.

(** [x.toString()] for a number.  An integer below 10^21 in absolute value
    prints as its decimal digits.  For every other value the host prints the
    shortest decimal that reads back as the same double, which is not a
    function of the rational alone: it is the parameter [shortest_decimal]. *)
Definition Number_toString (shortest_decimal : Q -> string) (x : Q) : string :=
  if is_integer x && (Z.abs (Qfloor x) <? ten_pow_21)%Z
  then string_of_Z (Qfloor x)
  else shortest_decimal x.

(** [x.toFixed(1)], after ECMA-262 21.1.3.3 with one fraction digit: the
    sign is split off, a magnitude of 10^21 or more prints as [toString]
    does, and otherwise [n] is the integer nearest to [10 x] (the larger one
    on a tie), printed with a point before its last digit. *)
Definition Number_toFixed_1 (shortest_decimal : Q -> string) (x : Q) : string :=
  let s := if Qle_bool 0 x then "" else "-" in
  let ax := Qabs x in
  if Qle_bool (inject_Z ten_pow_21) ax
  then s ++ Number_toString shortest_decimal ax
  else
    let n := Qfloor (ax * 10 + (1 # 2))%Q in
    s ++ string_of_Z (n / 10)%Z ++ "." ++ string_of_Z (n mod 10)%Z.

Definition FitLabel_string (l : FitLabel) : string :=
  match l with
  | High => "High"
  | Medium => "Medium"
  | Low => "Low"
  end.

(** ** Arrays *)

(** [xs.sort(cmp)] for a comparator that is a consistent ordering: the
    result is the stable sorted permutation, computed here by insertion.
    [cmp a b <= 0] keeps [a] before [b]. *)
Fixpoint sort_insert {A : Type} (cmp : A -> A -> Q) (x : A) (l : list A) : list A :=
  match l with
  | [] => [x]
  | y :: l' =>
      if Qle_bool (cmp x y) 0 then x :: y :: l'
      else y :: sort_insert cmp x l'
  end.

Fixpoint Array_sort {A : Type} (cmp : A -> A -> Q) (l : list A) : list A :=
  match l with
  | [] => []
  | x :: l' => sort_insert cmp x (Array_sort cmp l')
  end.

(** [xs.map((x, index) => f x index)]. *)
Fixpoint map_index_from {A B : Type} (f : A -> nat -> B) (i : nat) (l : list A) : list B :=
  match l with
  | [] => []
  | x :: l' => f x i :: map_index_from f (S i) l'
  end.

Definition Array_map_index {A B : Type} (f : A -> nat -> B) (l : list A) : list B :=
  map_index_from f 0 l.

(** A heap of arrays of candidate records, addressed by reference: the
    array held in the [results] state is the one the Dashboard receives as
    its [candidates] prop. *)
Abbreviation Heap := (gmap nat (list CandidateAnalysis)).

(** ** services/fileUtils.ts: generateCSV *)

Definition headers : list string :=
  [ "Rank"; "Name"; "Total Score"; "Fit Label"; "Skills Match (0-100)";
    "Experience (0-100)"; "Qualifications (0-100)"; "Strengths"; "Weaknesses" ].

(** The comparator [(a, b) => b.finalScore - a.finalScore]. *)
Definition by_score_desc (a b : CandidateAnalysis) : Q :=
  (finalScore b - finalScore a)%Q.

(** The array literal built for one candidate in [.map((c, index) => ...)]. *)
Definition csv_row (shortest_decimal : Q -> string)
    (c : CandidateAnalysis) (index : nat) : list string :=
  [ string_of_Z (Z.of_nat index + 1);
    quoted (candidateName (raw c));
    Number_toFixed_1 shortest_decimal (finalScore c);
    FitLabel_string (fitLabel c);
    Number_toString shortest_decimal (Ratings.skillsMatch (ratings (raw c)));
    Number_toString shortest_decimal (Ratings.experienceRelevance (ratings (raw c)));
    Number_toString shortest_decimal (Ratings.qualifications (ratings (raw c)));
    quoted (join "; " (strengths (raw c)));
    quoted (join "; " (weaknesses (raw c))) ].

(** [generateCSV(candidates)]: [candidates.sort] reorders the array that the
    reference denotes and returns that same array; [.map] and the joins
    build fresh values.  The result is the text and the heap afterwards;
    [None] only for a reference that denotes no array. *)
Definition generateCSV (shortest_decimal : Q -> string)
    (h : Heap) (candidates : nat) : option (string * Heap) :=
  match h !! candidates with
  | None => None
  | Some cs =>
      let sorted := Array_sort by_score_desc cs in
      let h' := <[candidates := sorted]> h in
      let rows := Array_map_index (csv_row shortest_decimal) sorted in
      Some (join (String newline EmptyString)
              (join "," headers :: map (join ",") rows),
            h')
  end.

(** [downloadCSV] hands the text to the browser; it touches no array. *)
Definition downloadCSV (content filename : string) (h : Heap) : Heap := h.

(** ** components/Dashboard.tsx: handleDownload *)

Definition handleDownload (shortest_decimal : Q -> string) (today : string)
    (h : Heap) (candidates : nat) : option Heap :=
  match generateCSV shortest_decimal h candidates with
  | None => None
  | Some (csv, h') =>
      Some (downloadCSV csv ("cv_ranking_results_" ++ today ++ ".csv") h')
  end.

(** Descending order of score: [a] may stand before [b]. *)
Definition score_desc (a b : CandidateAnalysis) : Prop :=
  (finalScore b <= finalScore a)%Q.

(** *** Reading a comma-separated text back (the reader of the report)

    Fields are separated by commas and records by line feeds; a field that
    starts with a double quote runs to the matching closing quote, a doubled
    quote inside it standing for one quote character.  The reader returns
    the records of the remaining input; the first field of the first record
    is the rest of the field being read. *)

Inductive reader_state : Type := FieldStart | Unquoted | InQuotes | QuoteSeen.

Definition cons_char (c : ascii) (r : option (list (list string)))
    : option (list (list string)) :=
  match r with
  | Some ((f :: fs) :: rs) => Some ((String c f :: fs) :: rs)
  | _ => None
  end.

Definition new_field (r : option (list (list string)))
    : option (list (list string)) :=
  match r with
  | Some (fs :: rs) => Some (("" :: fs) :: rs)
  | _ => None
  end.

Definition new_record (r : option (list (list string)))
    : option (list (list string)) :=
  match r with
  | Some rs => Some ([""] :: rs)
  | None => None
  end.

Fixpoint read_csv_from (st : reader_state) (s : string)
    : option (list (list string)) :=
  match s with
  | EmptyString =>
      match st with
      | InQuotes => None
      | _ => Some [[""]]
      end
  | String c s' =>
      match st with
      | FieldStart =>
          if Ascii.eqb c dquote then read_csv_from InQuotes s'
          else if Ascii.eqb c comma then new_field (read_csv_from FieldStart s')
          else if Ascii.eqb c newline then new_record (read_csv_from FieldStart s')
          else cons_char c (read_csv_from Unquoted s')
      | Unquoted =>
          if Ascii.eqb c dquote then None
          else if Ascii.eqb c comma then new_field (read_csv_from FieldStart s')
          else if Ascii.eqb c newline then new_record (read_csv_from FieldStart s')
          else cons_char c (read_csv_from Unquoted s')
      | InQuotes =>
          if Ascii.eqb c dquote then read_csv_from QuoteSeen s'
          else cons_char c (read_csv_from InQuotes s')
      | QuoteSeen =>
          if Ascii.eqb c dquote then cons_char dquote (read_csv_from InQuotes s')
          else if Ascii.eqb c comma then new_field (read_csv_from FieldStart s')
          else if Ascii.eqb c newline then new_record (read_csv_from FieldStart s')
          else None
      end
  end.

Definition read_csv (s : string) : option (list (list string)) :=
  read_csv_from FieldStart s.

(** The values a reader is expected to find in the row of one candidate. *)
Definition csv_fields (shortest_decimal : Q -> string)
    (c : CandidateAnalysis) (index : nat) : list string :=
  [ string_of_Z (Z.of_nat index + 1);
    candidateName (raw c);
    Number_toFixed_1 shortest_decimal (finalScore c);
    FitLabel_string (fitLabel c);
    Number_toString shortest_decimal (Ratings.skillsMatch (ratings (raw c)));
    Number_toString shortest_decimal (Ratings.experienceRelevance (ratings (raw c)));
    Number_toString shortest_decimal (Ratings.qualifications (ratings (raw c)));
    join "; " (strengths (raw c));
    join "; " (weaknesses (raw c)) ].

(** A string that can stand unquoted in a record. *)
Fixpoint plain (s : string) : bool :=
  match s with
  | EmptyString => true
  | String c s' =>
      negb (Ascii.eqb c dquote) && negb (Ascii.eqb c comma)
      && negb (Ascii.eqb c newline) && plain s'
  end.

(** A field as written, against the value a reader should find: either
    the plain value itself or the value wrapped and escaped. *)
Inductive renders : string -> string -> Prop :=
  | renders_plain v : plain v = true -> renders v v
  | renders_quoted v : renders (quoted v) v.

(** The text after a field: the end, a comma or a line feed. *)
Definition delimited (rest : string) : bool :=
  match rest with
  | EmptyString => true
  | String c _ => Ascii.eqb c comma || Ascii.eqb c newline
  end.

(** The text after the last field of a record: the end or a line feed. *)
Definition line_end (rest : string) : bool :=
  match rest with
  | EmptyString => true
  | String c _ => Ascii.eqb c newline
  end.

(** The records that follow the end of a record. *)
Definition read_line_end (rest : string) : option (list (list string)) :=
  match rest with
  | EmptyString => Some []
  | String c more =>
      if Ascii.eqb c newline then read_csv_from FieldStart more else None
  end.

(** [v] put in front of the field being read. *)
Definition prepend (v : string) (r : option (list (list string)))
    : option (list (list string)) :=
  match r with
  | Some ((f :: fs) :: rs) => Some (((v ++ f)%string :: fs) :: rs)
  | _ => None
  end.

(** ** Exceptions and promises *)

(** The outcome of a computation that may throw, or of an awaited promise
    that may reject. *)
Inductive result (A : Type) : Type :=
  | Ok (value : A)
  | Throw (message : string).
Arguments Ok {A} value.
Arguments Throw {A} message.

#[export] Instance result_ret : MRet result := fun A x => Ok x.
#[export] Instance result_bind : MBind result := fun A B f m =>
  match m with
  | Ok x => f x
  | Throw e => Throw e
  end.

(** [try { body } catch (error) { handler }]. *)
Definition try_catch {A : Type} (body : result A) (handler : string -> result A)
    : result A :=
  match body with
  | Ok x => Ok x
  | Throw e => handler e
  end.

(** A JavaScript value used as a condition: [undefined] and the empty
    string are falsy. *)
Definition truthy (v : option string) : bool :=
  match v with
  | None => false
  | Some s => negb (String.eqb s "")
  end.

(** ** services/fileUtils.ts: fileToBase64 *)

(** A browser [File]: its name, its media type and what a [FileReader]
    gets when it reads it as a data URL ([None] is the [onerror] event). *)
Module File.
Record t : Type := mk {
  name : string;
  type : string;
  readAsDataURL : option string
}.
End File.

(** [s.split(',')]. *)
Fixpoint split_comma (s : string) : list string :=
  match s with
  | EmptyString => [""]
  | String c s' =>
      if Ascii.eqb c comma then "" :: split_comma s'
      else
        match split_comma s' with
        | f :: fs => String c f :: fs
        | [] => [String c ""]
        end
  end.

(** The promise resolves with [result.split(',')[1]], which is [undefined]
    ([None]) for a text without a comma, and rejects on a read error. *)
Definition fileToBase64 (file : File.t) : result (option string) :=
  match File.readAsDataURL file with
  | Some result => Ok (nth_error (split_comma result) 1)
  | None => Throw "read error"
  end.

(** [s.endsWith(suffix)]. *)
Definition endsWith (s suffix : string) : bool :=
  (String.length suffix <=? String.length s)%nat
  && String.eqb
       (substring (String.length s - String.length suffix)
                  (String.length suffix) s)
       suffix.

(** [file.type || (file.name.endsWith('.pdf') ? 'application/pdf' : 'text/plain')]. *)
Definition mime_of (file : File.t) : string :=
  if truthy (Some (File.type file)) then File.type file
  else if endsWith (File.name file) ".pdf" then "application/pdf"
  else "text/plain".

(** ** services/gemini.ts: analyzeCandidate *)

(** What [JSON.parse(response.text) as AIResponseRaw] lets through.  The
    cast checks nothing: the value is either an object of the declared shape
    or some other JSON value.  Of the latter, those without a [ratings]
    object (such as [{}] or [null]) are the ones on which the scoring that
    follows throws: they are [Unshaped].  A value that has a ratings object
    and lacks something else passes through the loop like an object of the
    declared shape and is not told apart from one. *)
Inductive Reply : Type :=
  | Shaped (data : AIResponseRaw)
  | Unshaped.
Coercion Shaped : AIResponseRaw >-> Reply.

(** What the function takes from outside: the configured key, the request
    to the model (the awaited promise rejects, or resolves with a response
    whose [text] may be missing) and [JSON.parse] on the response text. *)
Record Collaborator : Type := mkCollaborator {
  API_KEY : option string;
  generateContent :
    string -> option string -> string -> option string -> string ->
    result (option string);
  JSON_parse : string -> result Reply
}.

(** The record returned from the [catch] block. *)
Definition placeholder : AIResponseRaw :=
  {| candidateName := "Unknown Candidate (Parse Error)";
     skillsFound := [];
     skillsMissing := [];
     qualifications := [];
     achievements := [];
     experienceSummary := "Failed to process this file.";
     strengths := [];
     weaknesses := ["File could not be analyzed by AI"];
     ratings := Ratings.mk 0 0 0 0 0;
     reasoning :=
       "An error occurred during AI processing. Please check the file format or try again." |}.

(** The body of the [try] block. *)
Definition analyzeCandidate_try (ai : Collaborator)
    (jdBase64 : option string) (jdMimeType : string)
    (cvBase64 : option string) (cvMimeType : string) : result Reply :=
  apiKey ← (match API_KEY ai with
            | Some k => if truthy (Some k) then Ok k else Throw "API Key not found"
            | None => Throw "API Key not found"
            end);
  response_text ← generateContent ai apiKey jdBase64 jdMimeType cvBase64 cvMimeType;
  text ← (match response_text with
          | Some t => if truthy (Some t) then Ok t else Throw "No response from AI"
          | None => Throw "No response from AI"
          end);
  data ← JSON_parse ai text;
  Ok data.

Definition analyzeCandidate (ai : Collaborator)
    (jdBase64 : option string) (jdMimeType : string)
    (cvBase64 : option string) (cvMimeType : string) : result Reply :=
  try_catch
    (analyzeCandidate_try ai jdBase64 jdMimeType cvBase64 cvMimeType)
    (fun error => Ok (Shaped placeholder)).

(** The ways in which the collaborator fails the call: no usable key, a
    request that rejects, a response without text, a text that does not
    parse. *)
Inductive collaborator_fails (ai : Collaborator)
    (jdBase64 : option string) (jdMimeType : string)
    (cvBase64 : option string) (cvMimeType : string) : Prop :=
  | missing_api_key :
      truthy (API_KEY ai) = false ->
      collaborator_fails ai jdBase64 jdMimeType cvBase64 cvMimeType
  | request_rejected k e :
      API_KEY ai = Some k -> truthy (Some k) = true ->
      generateContent ai k jdBase64 jdMimeType cvBase64 cvMimeType = Throw e ->
      collaborator_fails ai jdBase64 jdMimeType cvBase64 cvMimeType
  | no_response_text k t :
      API_KEY ai = Some k -> truthy (Some k) = true ->
      generateContent ai k jdBase64 jdMimeType cvBase64 cvMimeType = Ok t ->
      truthy t = false ->
      collaborator_fails ai jdBase64 jdMimeType cvBase64 cvMimeType
  | parse_failure k t e :
      API_KEY ai = Some k -> truthy (Some k) = true ->
      generateContent ai k jdBase64 jdMimeType cvBase64 cvMimeType = Ok (Some t) ->
      truthy (Some t) = true ->
      JSON_parse ai t = Throw e ->
      collaborator_fails ai jdBase64 jdMimeType cvBase64 cvMimeType.

(** ** types.ts: ProcessingFile *)

Module Status.
Inductive t : Type := pending | processing | completed | error.
End Status.

Module ProcessingFile.
Record t : Type := mk {
  id : string;
  file : File.t;
  status : Status.t;
  error : option string;
  result : option CandidateAnalysis
}.

(** [{ ...f, status: s }] *)
Definition with_status (s : Status.t) (f : t) : t :=
  mk (id f) (file f) s (error f) (result f).

(** [{ ...f, status: s, error: e }] *)
Definition with_status_error (s : Status.t) (e : string) (f : t) : t :=
  mk (id f) (file f) s (Some e) (result f).
End ProcessingFile.

(** ** App.tsx: state, local storage and effects *)

(** The text stored under a key of [localStorage].  [JSON.stringify] of a
    value is represented by the value itself, so that [JSON.parse] of what
    an effect wrote gives the value back; [OtherJSON] is a JSON text of any
    other shape (such as [null] or [{}]), which [JSON.parse] accepts, and
    [OtherText] a text that it rejects. *)
Inductive Blob : Type :=
  | WeightsJSON (w : ScoringWeights.t)
  | ResultsJSON (rs : list CandidateAnalysis)
  | OtherJSON (s : string)
  | OtherText (s : string).

Definition weights_key : string := "cv_ranker_weights".
Definition results_key : string := "cv_ranker_results".

(** The [useState] cells of [App] that the analysis uses, and the
    [localStorage] of the browser profile. *)
Record AppState : Type := mkApp {
  jdFile : option File.t;
  cvFiles : list ProcessingFile.t;
  weights : ScoringWeights.t;
  isProcessing : bool;
  results : list CandidateAnalysis;
  currentProcessingIndex : Z;
  localStorage : gmap string Blob
}.

Definition with_jdFile (v : option File.t) (st : AppState) : AppState :=
  mkApp v (cvFiles st) (weights st) (isProcessing st) (results st)
        (currentProcessingIndex st) (localStorage st).

Definition with_cvFiles (v : list ProcessingFile.t) (st : AppState) : AppState :=
  mkApp (jdFile st) v (weights st) (isProcessing st) (results st)
        (currentProcessingIndex st) (localStorage st).

Definition with_weights (v : ScoringWeights.t) (st : AppState) : AppState :=
  mkApp (jdFile st) (cvFiles st) v (isProcessing st) (results st)
        (currentProcessingIndex st) (localStorage st).

Definition with_isProcessing (v : bool) (st : AppState) : AppState :=
  mkApp (jdFile st) (cvFiles st) (weights st) v (results st)
        (currentProcessingIndex st) (localStorage st).

Definition with_results (v : list CandidateAnalysis) (st : AppState) : AppState :=
  mkApp (jdFile st) (cvFiles st) (weights st) (isProcessing st) v
        (currentProcessingIndex st) (localStorage st).

Definition with_currentProcessingIndex (v : Z) (st : AppState) : AppState :=
  mkApp (jdFile st) (cvFiles st) (weights st) (isProcessing st) (results st)
        v (localStorage st).

Definition with_localStorage (v : gmap string Blob) (st : AppState) : AppState :=
  mkApp (jdFile st) (cvFiles st) (weights st) (isProcessing st) (results st)
        (currentProcessingIndex st) v.

(** The effect on [[weights]]:
    [localStorage.setItem('cv_ranker_weights', JSON.stringify(weights))]. *)
Definition effect_save_weights (st : AppState) : AppState :=
  with_localStorage (<[weights_key := WeightsJSON (weights st)]> (localStorage st)) st.

(** The effect on [[results]]: the item is written only when
    [results.length > 0]. *)
Definition effect_save_results (st : AppState) : AppState :=
  if (0 <? length (results st))%nat
  then with_localStorage
         (<[results_key := ResultsJSON (results st)]> (localStorage st)) st
  else st.

(** [rs.map(r => r.finalScore).join(',')]. *)
Definition scores_text (shortest_decimal : Q -> string)
    (rs : list CandidateAnalysis) : string :=
  join "," (map (fun r => Number_toString shortest_decimal (finalScore r)) rs).

(** The effect on [[weights, results.length]]: all stored candidates are
    scored again, and the state is replaced when the joined scores differ.
    The replacement changes [results] but not its length, so it is followed
    by the saving effect alone. *)
Definition effect_recalculate (shortest_decimal : Q -> string)
    (st : AppState) : AppState :=
  if (0 <? length (results st))%nat then
    let updatedResults := map (fun r => calculateFinalScore r (weights st)) (results st) in
    let currentScores := scores_text shortest_decimal (results st) in
    let newScores := scores_text shortest_decimal updatedResults in
    if negb (String.eqb currentScores newScores)
    then effect_save_results (with_results updatedResults st)
    else st
  else st.

(** [setResults(v)] with the effects that follow the render: the saving
    effect always (a new array is a new dependency), the recomputation when
    the length has changed. *)
Definition setResults (shortest_decimal : Q -> string)
    (v : list CandidateAnalysis) (st : AppState) : AppState :=
  let st' := effect_save_results (with_results v st) in
  if (length v =? length (results st))%nat then st'
  else effect_recalculate shortest_decimal st'.

(** [setWeights(w)] with the effects that follow the render. *)
Definition setWeights (shortest_decimal : Q -> string)
    (w : ScoringWeights.t) (st : AppState) : AppState :=
  effect_recalculate shortest_decimal (effect_save_weights (with_weights w st)).

(** The loading effect on one item: [if (saved) { try { set(JSON.parse(saved)) } catch ... }].
    The outer [Some] carries what the setter is called with, if it is called:
    a missing item and a text that does not parse set nothing.  The setter
    takes whatever [JSON.parse] returns, so a JSON text of another shape puts
    a value into the state that the declared state type does not have (the
    next render throws on it): that is [None]. *)
Definition parse_weights (item : option Blob) : option (option ScoringWeights.t) :=
  match item with
  | None => Some None
  | Some (OtherText _) => Some None
  | Some (WeightsJSON w) => Some (Some w)
  | Some (ResultsJSON _) => None
  | Some (OtherJSON _) => None
  end.

Definition parse_results (item : option Blob)
    : option (option (list CandidateAnalysis)) :=
  match item with
  | None => Some None
  | Some (OtherText _) => Some None
  | Some (ResultsJSON rs) => Some (Some rs)
  | Some (WeightsJSON _) => None
  | Some (OtherJSON _) => None
  end.

(** The first render and its effects, in the order of the source, for the
    values the loading effect hands to the two setters: the saving effects
    run on the initial state, and the render that follows applies the loaded
    values and runs the effects whose dependencies changed. *)
Definition first_render (shortest_decimal : Q -> string)
    (storage : gmap string Blob)
    (savedWeights : option ScoringWeights.t)
    (savedResults : option (list CandidateAnalysis)) : AppState :=
  let st0 := mkApp None [] DEFAULT_WEIGHTS false [] (-1) storage in
  let st1 := effect_recalculate shortest_decimal
               (effect_save_results (effect_save_weights st0)) in
  let st2 :=
    match savedWeights with
    | Some w => effect_save_weights (with_weights w st1)
    | None => st1
    end in
  let st3 :=
    match savedResults with
    | Some rs => effect_save_results (with_results rs st2)
    | None => st2
    end in
  match savedWeights, savedResults with
  | Some _, _ => effect_recalculate shortest_decimal st3
  | None, Some rs =>
      if (length rs =? 0)%nat then st3 else effect_recalculate shortest_decimal st3
  | None, None => st3
  end.

(** Loading the page on a given storage. *)
Definition mount (shortest_decimal : Q -> string)
    (storage : gmap string Blob) : option AppState :=
  savedWeights ← parse_weights (storage !! weights_key);
  savedResults ← parse_results (storage !! results_key);
  Some (first_render shortest_decimal storage savedWeights savedResults).

(** [clearAllData], given the answer to [window.confirm]. *)
Definition clearAllData (shortest_decimal : Q -> string)
    (confirmed : bool) (st : AppState) : AppState :=
  if confirmed then
    let st := setResults shortest_decimal [] st in
    let st := with_cvFiles [] st in
    let st := with_jdFile None st in
    with_localStorage (delete results_key (localStorage st)) st
  else st.

(** [handleJdUpload]: the first selected file, when there is one. *)
Definition handleJdUpload (files : list File.t) (st : AppState) : AppState :=
  match files with
  | f :: _ => with_jdFile (Some f) st
  | [] => st
  end.

(** [processFiles]: every file enters as [pending]; the identifiers come
    from [Math.random] and are given with the files. *)
Definition processFiles (files : list (string * File.t)) (st : AppState) : AppState :=
  let newFiles :=
    map (fun '(i, f) => ProcessingFile.mk i f Status.pending None None) files in
  with_cvFiles (cvFiles st ++ newFiles) st.

Definition removeCv (i : string) (st : AppState) : AppState :=
  with_cvFiles
    (List.filter (fun f => negb (String.eqb (ProcessingFile.id f) i)) (cvFiles st))
    st.

(** [setCvFiles(prev => prev.map((f, idx) => idx === i ? g f : f))]. *)
Definition update_file (i : nat) (g : ProcessingFile.t -> ProcessingFile.t)
    (st : AppState) : AppState :=
  with_cvFiles
    (Array_map_index (fun f idx => if (idx =? i)%nat then g f else f) (cvFiles st))
    st.

(** The record [startAnalysis] hands to the scoring function:
    [{ ...rawAnalysis, id: cv.id, finalScore: 0, fitLabel: 'Low' }]. *)
Definition unscored (r : AIResponseRaw) (i : string) : CandidateAnalysis :=
  {| raw := r; id := i; finalScore := 0; fitLabel := Low |}.

(** The fields read off a value that has none of them: each read gives
    [undefined], shown here by the empty value of the field's type. *)
Definition hollow : AIResponseRaw :=
  {| candidateName := "";
     skillsFound := [];
     skillsMissing := [];
     qualifications := [];
     achievements := [];
     experienceSummary := "";
     strengths := [];
     weaknesses := [];
     ratings := Ratings.mk 0 0 0 0 0;
     reasoning := "" |}.

(** [calculateFinalScore({ ...rawAnalysis, id, finalScore: 0, fitLabel: 'Low' }, weights)]
    on what the cast let through.  For a value without a ratings object the
    read [candidate.ratings.skillsMatch] throws a TypeError; when the weights
    sum to zero the function has returned its argument before that read. *)
Definition score_reply (rawAnalysis : Reply) (i : string) (w : ScoringWeights.t)
    : result CandidateAnalysis :=
  match rawAnalysis with
  | Shaped data => Ok (calculateFinalScore (unscored data i) w)
  | Unshaped =>
      if Qeq_bool (reduce_sum (Object_values w)) 0
      then Ok (unscored hollow i)
      else Throw "TypeError"
  end.

(** The inner [try] block of the loop for one file, up to the scored
    record: reading the file, the analysis call and the first scoring. *)
Definition analyse_file (ai : Collaborator) (w : ScoringWeights.t)
    (jdBase64 : option string) (jdMime : string) (cv : ProcessingFile.t)
    : result CandidateAnalysis :=
  cvBase64 ← fileToBase64 (ProcessingFile.file cv);
  let cvMime := mime_of (ProcessingFile.file cv) in
  rawAnalysis ← analyzeCandidate ai jdBase64 jdMime cvBase64 cvMime;
  score_reply rawAnalysis (ProcessingFile.id cv) w.

(** One iteration of the [for] loop of [startAnalysis], for the file [cv]
    at index [i] of the list captured when the run started. *)
Definition loop_body (shortest_decimal : Q -> string) (ai : Collaborator)
    (w : ScoringWeights.t) (jdBase64 : option string) (jdMime : string)
    (st : AppState) (item : nat * ProcessingFile.t) : AppState :=
  let '(i, cv) := item in
  let st := with_currentProcessingIndex (Z.of_nat i) st in
  let st := update_file i (ProcessingFile.with_status Status.processing) st in
  match analyse_file ai w jdBase64 jdMime cv with
  | Ok fullResult =>
      let st := setResults shortest_decimal (results st ++ [fullResult]) st in
      update_file i (ProcessingFile.with_status Status.completed) st
  | Throw _ =>
      update_file i
        (ProcessingFile.with_status_error Status.error "Failed to analyze") st
  end.

(** The files with their indices, [i = 0 .. cvFiles.length - 1]. *)
Definition indexed {A : Type} (l : list A) : list (nat * A) :=
  Array_map_index (fun x i => (i, x)) l.

(** The state after the first [k] iterations of the loop. *)
Definition loop_prefix (shortest_decimal : Q -> string) (ai : Collaborator)
    (w : ScoringWeights.t) (jdBase64 : option string) (jdMime : string)
    (files : list ProcessingFile.t) (k : nat) (st : AppState) : AppState :=
  fold_left (loop_body shortest_decimal ai w jdBase64 jdMime)
            (firstn k (indexed files)) st.

(** The state in which the loop starts: after the guard, [setIsProcessing]
    and [setResults([])]. *)
Definition run_start (shortest_decimal : Q -> string) (st : AppState) : AppState :=
  setResults shortest_decimal [] (with_isProcessing true st).

Definition startAnalysis (shortest_decimal : Q -> string) (ai : Collaborator)
    (st : AppState) : AppState :=
  match jdFile st with
  | None => st
  | Some jd =>
      if (length (cvFiles st) =? 0)%nat then st
      else
        let files := cvFiles st in
        let w := weights st in
        let st := run_start shortest_decimal st in
        let st :=
          match fileToBase64 jd with
          | Ok jdBase64 =>
              let jdMime := mime_of jd in
              loop_prefix shortest_decimal ai w jdBase64 jdMime
                          files (length files) st
          | Throw _ => st
          end in
        with_currentProcessingIndex (-1) (with_isProcessing false st)
  end.

(** The export button of the Dashboard, which is rendered while the result
    list is not empty.  [<Dashboard candidates={results} />] hands over the
    array of the [results] state itself, so the sort inside [generateCSV]
    reorders the state's array.  No setter is called: no effect runs. *)
Definition exportCSV (shortest_decimal : Q -> string) (today : string)
    (st : AppState) : AppState :=
  if (0 <? length (results st))%nat then
    let candidates := 0%nat in
    match handleDownload shortest_decimal today {[ candidates := results st ]}
                         candidates with
    | Some h => with_results (default (results st) (h !! candidates)) st
    | None => st
    end
  else st.

(** What the user and the browser can do to the application.  The cells
    for dragging and for the preview dialog are not part of [AppState]; the
    events that only touch them are left out. *)
Inductive Event : Type :=
  | ChangeWeights (w : ScoringWeights.t)
  | ClearAllData (confirmed : bool)
  | UploadJd (files : list File.t)
  | RemoveJd
  | UploadCvs (files : list (string * File.t))
  | RemoveCv (i : string)
  | StartAnalysis (ai : Collaborator)
  | Download (today : string).

Definition handle (shortest_decimal : Q -> string) (ev : Event)
    (st : AppState) : AppState :=
  match ev with
  | ChangeWeights w => setWeights shortest_decimal w st
  | ClearAllData confirmed => clearAllData shortest_decimal confirmed st
  | UploadJd files => handleJdUpload files st
  | RemoveJd => with_jdFile None st
  | UploadCvs files => processFiles files st
  | RemoveCv i => removeCv i st
  | StartAnalysis ai => startAnalysis shortest_decimal ai st
  | Download today => exportCSV shortest_decimal today st
  end.

(** *** What a batch run leaves *)

(** [tempResults] of the loop over [files]: the records pushed by the
    iterations whose [try] block ran to its end, in the order of the loop. *)
Fixpoint appended (ai : Collaborator) (w : ScoringWeights.t)
    (jdBase64 : option string) (jdMime : string)
    (files : list ProcessingFile.t) : list CandidateAnalysis :=
  match files with
  | [] => []
  | cv :: files' =>
      match analyse_file ai w jdBase64 jdMime cv with
      | Ok c => c :: appended ai w jdBase64 jdMime files'
      | Throw _ => appended ai w jdBase64 jdMime files'
      end
  end.

(** What the loop leaves of the file [cv]: [completed] when its [try] block
    ran to its end, [error] with its message when the [catch] block ran. *)
Definition processed (ai : Collaborator) (w : ScoringWeights.t)
    (jdBase64 : option string) (jdMime : string) (cv : ProcessingFile.t)
    : ProcessingFile.t :=
  match analyse_file ai w jdBase64 jdMime cv with
  | Ok _ =>
      ProcessingFile.with_status Status.completed
        (ProcessingFile.with_status Status.processing cv)
  | Throw _ =>
      ProcessingFile.with_status_error Status.error "Failed to analyze"
        (ProcessingFile.with_status Status.processing cv)
  end.

(** The states one iteration goes through, one per setter call: the index,
    the status [processing], then either the appended record and the status
    [completed], or the status [error]. *)
Definition loop_body_states (shortest_decimal : Q -> string) (ai : Collaborator)
    (w : ScoringWeights.t) (jdBase64 : option string) (jdMime : string)
    (st : AppState) (item : nat * ProcessingFile.t) : list AppState :=
  let '(i, cv) := item in
  let st1 := with_currentProcessingIndex (Z.of_nat i) st in
  let st2 := update_file i (ProcessingFile.with_status Status.processing) st1 in
  match analyse_file ai w jdBase64 jdMime cv with
  | Ok fullResult =>
      let st3 := setResults shortest_decimal (results st2 ++ [fullResult]) st2 in
      [st1; st2; st3;
       update_file i (ProcessingFile.with_status Status.completed) st3]
  | Throw _ =>
      [st1; st2;
       update_file i
         (ProcessingFile.with_status_error Status.error "Failed to analyze") st2]
  end.

(** The states the loop goes through from [st] on. *)
Fixpoint loop_states (shortest_decimal : Q -> string) (ai : Collaborator)
    (w : ScoringWeights.t) (jdBase64 : option string) (jdMime : string)
    (items : list (nat * ProcessingFile.t)) (st : AppState) : list AppState :=
  match items with
  | [] => []
  | item :: items' =>
      loop_body_states shortest_decimal ai w jdBase64 jdMime st item ++
      loop_states shortest_decimal ai w jdBase64 jdMime items'
        (loop_body shortest_decimal ai w jdBase64 jdMime st item)
  end.

(** The states of a run that passed the guard, from the reset of the result
    list to the end of the [finally] block. *)
Definition run_states (shortest_decimal : Q -> string) (ai : Collaborator)
    (st : AppState) (jd : File.t) : list AppState :=
  let files := cvFiles st in
  let w := weights st in
  let st0 := run_start shortest_decimal st in
  match fileToBase64 jd with
  | Ok jdBase64 =>
      let during :=
        loop_states shortest_decimal ai w jdBase64 (mime_of jd) (indexed files) st0 in
      let st1 := List.last during st0 in
      st0 :: during ++
        [with_isProcessing false st1;
         with_currentProcessingIndex (-1) (with_isProcessing false st1)]
  | Throw _ =>
      [st0; with_isProcessing false st0;
       with_currentProcessingIndex (-1) (with_isProcessing false st0)]
  end.

(** An event that calls neither [setResults] nor [setWeights] and does
    not sort the list. *)
Definition keeps_results (ev : Event) : bool :=
  match ev with
  | UploadJd _ => true
  | RemoveJd => true
  | UploadCvs _ => true
  | RemoveCv _ => true
  | _ => false
  end.

(** One iteration of the loop during which the events [during] are handled
    while its two promises are pending. *)
Definition loop_body_with (shortest_decimal : Q -> string) (ai : Collaborator)
    (w : ScoringWeights.t) (jdBase64 : option string) (jdMime : string)
    (during : nat -> list Event)
    (st : AppState) (item : nat * ProcessingFile.t) : AppState :=
  let '(i, cv) := item in
  let st := with_currentProcessingIndex (Z.of_nat i) st in
  let st := update_file i (ProcessingFile.with_status Status.processing) st in
  let st := fold_left (fun s ev => handle shortest_decimal ev s) (during i) st in
  match analyse_file ai w jdBase64 jdMime cv with
  | Ok fullResult =>
      let st := setResults shortest_decimal (results st ++ [fullResult]) st in
      update_file i (ProcessingFile.with_status Status.completed) st
  | Throw _ =>
      update_file i
        (ProcessingFile.with_status_error Status.error "Failed to analyze") st
  end.

(** The state after the first [k] iterations of such a run. *)
Definition loop_prefix_with (shortest_decimal : Q -> string) (ai : Collaborator)
    (w : ScoringWeights.t) (jdBase64 : option string) (jdMime : string)
    (during : nat -> list Event)
    (files : list ProcessingFile.t) (k : nat) (st : AppState) : AppState :=
  fold_left (loop_body_with shortest_decimal ai w jdBase64 jdMime during)
            (firstn k (indexed files)) st.

(** *** The readings of a batch run in the statements *)

(** A file that the [FileReader] can read. *)
Definition readable (cv : ProcessingFile.t) : bool :=
  match File.readAsDataURL (ProcessingFile.file cv) with
  | Some _ => true
  | None => false
  end.

(** The two ways in which the [try] block of the loop throws for a file:
    the file cannot be read, or the analysis call hands on a reply without
    ratings and the scoring reads them (the weights do not sum to zero). *)
Inductive try_block_throws (ai : Collaborator) (w : ScoringWeights.t)
    (jdBase64 : option string) (jdMime : string) (cv : ProcessingFile.t) : Prop :=
  | cannot_be_read :
      readable cv = false ->
      try_block_throws ai w jdBase64 jdMime cv
  | cannot_be_scored cvBase64 :
      fileToBase64 (ProcessingFile.file cv) = Ok cvBase64 ->
      analyzeCandidate ai jdBase64 jdMime cvBase64
        (mime_of (ProcessingFile.file cv)) = Ok Unshaped ->
      Qeq_bool (reduce_sum (Object_values w)) 0 = false ->
      try_block_throws ai w jdBase64 jdMime cv.

(** The same as a test. *)
Definition throws (ai : Collaborator) (w : ScoringWeights.t)
    (jdBase64 : option string) (jdMime : string) (cv : ProcessingFile.t) : bool :=
  match fileToBase64 (ProcessingFile.file cv) with
  | Throw _ => true
  | Ok cvBase64 =>
      match analyzeCandidate ai jdBase64 jdMime cvBase64
              (mime_of (ProcessingFile.file cv)) with
      | Ok Unshaped => negb (Qeq_bool (reduce_sum (Object_values w)) 0)
      | _ => false
      end
  end.

(** The status the loop leaves on a file. *)
Definition status_after (ai : Collaborator) (w : ScoringWeights.t)
    (jdBase64 : option string) (jdMime : string) (cv : ProcessingFile.t)
    : Status.t :=
  if throws ai w jdBase64 jdMime cv then Status.error else Status.completed.

(** What one file adds to the result list, by what happened to it: nothing
    when it could not be read; the scored reply when the analysis call
    succeeded; the scored placeholder when the analysis call failed. *)
Definition contribution (ai : Collaborator) (w : ScoringWeights.t)
    (jdBase64 : option string) (jdMime : string) (cv : ProcessingFile.t)
    : list CandidateAnalysis :=
  match fileToBase64 (ProcessingFile.file cv) with
  | Throw _ => []
  | Ok cvBase64 =>
      match analyzeCandidate_try ai jdBase64 jdMime cvBase64
              (mime_of (ProcessingFile.file cv)) with
      | Ok (Shaped data) =>
          [calculateFinalScore (unscored data (ProcessingFile.id cv)) w]
      | Ok Unshaped =>
          if Qeq_bool (reduce_sum (Object_values w)) 0
          then [unscored hollow (ProcessingFile.id cv)]
          else []
      | Throw _ =>
          [calculateFinalScore (unscored placeholder (ProcessingFile.id cv)) w]
      end
  end.

(** The records of a run over [files]: the contributions in upload order. *)
Definition run_records (ai : Collaborator) (w : ScoringWeights.t)
    (jdBase64 : option string) (jdMime : string)
    (files : list ProcessingFile.t) : list CandidateAnalysis :=
  concat (map (contribution ai w jdBase64 jdMime) files).

(** The candidates that were analysed successfully, in upload order: the
    files that were read and for which the analysis call itself returned the
    reply of the model. *)
Definition analysed (ai : Collaborator) (w : ScoringWeights.t)
    (jdBase64 : option string) (jdMime : string) (cv : ProcessingFile.t)
    : list CandidateAnalysis :=
  match fileToBase64 (ProcessingFile.file cv) with
  | Throw _ => []
  | Ok cvBase64 =>
      match analyzeCandidate_try ai jdBase64 jdMime cvBase64
              (mime_of (ProcessingFile.file cv)) with
      | Ok (Shaped data) =>
          [calculateFinalScore (unscored data (ProcessingFile.id cv)) w]
      | _ => []
      end
  end.

Definition successfully_analysed (ai : Collaborator) (w : ScoringWeights.t)
    (jdBase64 : option string) (jdMime : string)
    (files : list ProcessingFile.t) : list CandidateAnalysis :=
  concat (map (analysed ai w jdBase64 jdMime) files).

(** A result list whose entries carry the score of the weights [w]. *)
Definition scored_with (w : ScoringWeights.t) (rs : list CandidateAnalysis) : Prop :=
  map (fun r => calculateFinalScore r w) rs = rs.

(** The storage agrees with the state: the weights item holds the weights,
    and the results item holds the result list when that list is not empty. *)
Definition weights_saved (st : AppState) : Prop :=
  localStorage st !! weights_key = Some (WeightsJSON (weights st)).

Definition results_saved (st : AppState) : Prop :=
  results st <> [] ->
  localStorage st !! results_key = Some (ResultsJSON (results st)).

Definition persisted (st : AppState) : Prop :=
  weights_saved st /\ results_saved st.

(** The results item and the list on screen after an export: the export
    sorts the list in place and writes nothing, so the item holds the list
    as it was last set, of which the list on screen is the sorted form. *)
Definition results_kept (st : AppState) : Prop :=
  results st <> [] ->
  exists saved,
    localStorage st !! results_key = Some (ResultsJSON saved) /\
    (results st = saved \/ results st = Array_sort by_score_desc saved).

(** Two states whose storage differs at most in the two items. *)
Definition same_other_items (st st' : AppState) : Prop :=
  forall k : string,
    k <> weights_key -> k <> results_key ->
    localStorage st' !! k = localStorage st !! k.

(** What an event owes the storage, for a step from [st] to [st']. *)
Definition keeps_storage (ev : Event) (st st' : AppState) : Prop :=
  (weights st' <> weights st -> weights_saved st') /\
  (results st' <> results st ->
   results_saved st' \/
   (exists today, ev = Download today) /\
   results st' = Array_sort by_score_desc (results st) /\
   localStorage st' = localStorage st) /\
  (results st' <> results st -> results st' = [] ->
   localStorage st' !! results_key = localStorage st !! results_key \/
   localStorage st' !! results_key = None) /\
  (weights_saved st -> weights_saved st') /\
  ((forall today, ev <> Download today) -> results_saved st -> results_saved st') /\
  (results_kept st -> results_kept st') /\
  same_other_items st st'.

(** *** The five axes *)

Inductive Axis : Type :=
  | AxSkillsMatch | AxExperienceRelevance | AxQualifications | AxSeniority | AxClarity.

(** ** components/ScoringConfig.tsx *)

(** The keys of [ScoringWeights] are the five axes.  [w[key]]. *)
Definition weight_of (key : Axis) (w : ScoringWeights.t) : Q :=
  match key with
  | AxSkillsMatch => ScoringWeights.skillsMatch w
  | AxExperienceRelevance => ScoringWeights.experienceRelevance w
  | AxQualifications => ScoringWeights.qualifications w
  | AxSeniority => ScoringWeights.seniority w
  | AxClarity => ScoringWeights.clarity w
  end.

(** [{ ...weights, [key]: value }] *)
Definition set_weight (key : Axis) (value : Q) (w : ScoringWeights.t)
    : ScoringWeights.t :=
  match key with
  | AxSkillsMatch =>
      ScoringWeights.mk value (ScoringWeights.experienceRelevance w)
        (ScoringWeights.qualifications w) (ScoringWeights.seniority w)
        (ScoringWeights.clarity w)
  | AxExperienceRelevance =>
      ScoringWeights.mk (ScoringWeights.skillsMatch w) value
        (ScoringWeights.qualifications w) (ScoringWeights.seniority w)
        (ScoringWeights.clarity w)
  | AxQualifications =>
      ScoringWeights.mk (ScoringWeights.skillsMatch w)
        (ScoringWeights.experienceRelevance w) value
        (ScoringWeights.seniority w) (ScoringWeights.clarity w)
  | AxSeniority =>
      ScoringWeights.mk (ScoringWeights.skillsMatch w)
        (ScoringWeights.experienceRelevance w)
        (ScoringWeights.qualifications w) value (ScoringWeights.clarity w)
  | AxClarity =>
      ScoringWeights.mk (ScoringWeights.skillsMatch w)
        (ScoringWeights.experienceRelevance w)
        (ScoringWeights.qualifications w) (ScoringWeights.seniority w) value
  end.

(** [handleChange(key, value)] of the panel, whose [setWeights] prop is the
    state setter of [App]. *)
Definition handleChange (shortest_decimal : Q -> string)
    (key : Axis) (value : Q) (st : AppState) : AppState :=
  setWeights shortest_decimal (set_weight key value (weights st)) st.

(** [total]: the sum shown in the badge of the panel. *)
Definition total (w : ScoringWeights.t) : Q := reduce_sum (Object_values w).

(** The note under the sliders is rendered when [total !== 100]. *)
Definition shows_note (w : ScoringWeights.t) : bool := negb (Qeq_bool (total w) 100).

(** ** services/gemini.ts: the two text requests *)

(** The prompt of a text request, given by the values interpolated into its
    fixed text. *)
Inductive Prompt : Type :=
  | QuestionsPrompt (candidateName missing weak strong : string)
  | EmailPrompt (invitation : bool) (candidateName strong : string) (fit : FitLabel).

(** What the two functions take from outside: the configured key, the
    request to the model and [JSON.parse] on a text that holds an array of
    strings, whose cast is taken as given. *)
Record TextModel : Type := mkTextModel {
  text_API_KEY : option string;
  generateText : string -> Prompt -> result (option string);
  JSON_parse_strings : string -> result (list string)
}.

Definition require_key (key : option string) : result string :=
  match key with
  | Some k => if truthy (Some k) then Ok k else Throw "API Key not found"
  | None => Throw "API Key not found"
  end.

(** [v || fallback] for a string that may be missing. *)
Definition or_else (v : option string) (fallback : string) : string :=
  match v with
  | Some s => if truthy (Some s) then s else fallback
  | None => fallback
  end.

Definition generateInterviewQuestions (tm : TextModel) (candidate : CandidateAnalysis)
    : result (list string) :=
  apiKey ← require_key (text_API_KEY tm);
  response_text ←
    generateText tm apiKey
      (QuestionsPrompt (candidateName (raw candidate))
                       (join ", " (skillsMissing (raw candidate)))
                       (join ", " (weaknesses (raw candidate)))
                       (join ", " (strengths (raw candidate))));
  JSON_parse_strings tm (or_else response_text "[]").

Inductive EmailType : Type := reject | invite.

Definition generateEmailDraft (tm : TextModel) (candidate : CandidateAnalysis)
    (type : EmailType) : result string :=
  apiKey ← require_key (text_API_KEY tm);
  response_text ←
    generateText tm apiKey
      (EmailPrompt (match type with invite => true | reject => false end)
                   (candidateName (raw candidate))
                   (join ", " (firstn 2 (strengths (raw candidate))))
                   (fitLabel candidate));
  Ok (or_else response_text "Could not generate email.").

(** ** components/Dashboard.tsx *)

Module Tab.
Inductive t : Type := analysis | questions | email.
End Tab.

Record DashboardState : Type := mkDashboard {
  expandedId : option string;
  activeTab : Tab.t;
  questionsMap : gmap string (list string);
  emailMap : gmap string string;
  loadingAction : option string
}.

Definition count_label (l : FitLabel) (candidates : list CandidateAnalysis) : nat :=
  length (List.filter
            (fun c => match fitLabel c, l with
                      | High, High | Medium, Medium | Low, Low => true
                      | _, _ => false
                      end)
            candidates).

(** [stats]: the three slices of the chart. *)
Definition stats (candidates : list CandidateAnalysis) : list (string * nat) :=
  [ ("High Fit", count_label High candidates);
    ("Medium Fit", count_label Medium candidates);
    ("Low Fit", count_label Low candidates) ].

(** [[...candidates].sort(...)]: a sorted copy; the prop is not touched. *)
Definition sortedCandidates (candidates : list CandidateAnalysis)
    : list CandidateAnalysis :=
  Array_sort by_score_desc candidates.

Definition toggleExpand (i : string) (ds : DashboardState) : DashboardState :=
  match expandedId ds with
  | Some e =>
      if String.eqb e i
      then mkDashboard None (activeTab ds) (questionsMap ds) (emailMap ds)
                       (loadingAction ds)
      else mkDashboard (Some i) Tab.analysis (questionsMap ds) (emailMap ds)
                       (loadingAction ds)
  | None =>
      mkDashboard (Some i) Tab.analysis (questionsMap ds) (emailMap ds)
                  (loadingAction ds)
  end.

(** [fetchQuestions]: an entry of the map, also an empty array, ends the
    call at once; otherwise the request is made, its answer is stored on
    success, and the [finally] block clears [loadingAction]. *)
Definition fetchQuestions (tm : TextModel) (candidate : CandidateAnalysis)
    (ds : DashboardState) : DashboardState :=
  match questionsMap ds !! id candidate with
  | Some _ => ds
  | None =>
      let stored :=
        match generateInterviewQuestions tm candidate with
        | Ok qs => <[id candidate := qs]> (questionsMap ds)
        | Throw _ => questionsMap ds
        end in
      mkDashboard (expandedId ds) (activeTab ds) stored (emailMap ds) None
  end.

(** The kind of email asked for: an invitation for High and Medium. *)
Definition email_type (candidate : CandidateAnalysis) : EmailType :=
  match fitLabel candidate with
  | High | Medium => invite
  | Low => reject
  end.

(** [fetchEmail]: a draft in the map that is not the empty string ends the
    call at once. *)
Definition fetchEmail (tm : TextModel) (candidate : CandidateAnalysis)
    (ds : DashboardState) : DashboardState :=
  if truthy (emailMap ds !! id candidate) then ds
  else
    let stored :=
      match generateEmailDraft tm candidate (email_type candidate) with
      | Ok e => <[id candidate := e]> (emailMap ds)
      | Throw _ => emailMap ds
      end in
    mkDashboard (expandedId ds) (activeTab ds) (questionsMap ds) stored None.

Definition handleTabChange (tm : TextModel) (candidate : CandidateAnalysis)
    (tab : Tab.t) (ds : DashboardState) : DashboardState :=
  let ds := mkDashboard (expandedId ds) tab (questionsMap ds) (emailMap ds)
                        (loadingAction ds) in
  match tab with
  | Tab.questions => fetchQuestions tm candidate ds
  | Tab.email => fetchEmail tm candidate ds
  | Tab.analysis => ds
  end.

(** Position of the first candidate with the best score, as a split of the
    list: everything before scores lower, nothing after scores higher. *)
Definition first_best (top : CandidateAnalysis)
    (candidates : list CandidateAnalysis) : Prop :=
  exists before after,
    candidates = (before ++ top :: after)%list /\
    Forall (fun c => (finalScore c < finalScore top)%Q) before /\
    Forall (fun c => (finalScore c <= finalScore top)%Q) after.

(** A file that does not carry the identifier [i]. *)
Definition other_id (i : string) (f : ProcessingFile.t) : Prop :=
  ProcessingFile.id f <> i.

(** The application between two events: the weights item holds the
    weights, the results item holds the result list as it was last set, and
    no run is in progress. *)
Definition at_rest (st : AppState) : Prop :=
  weights_saved st /\ results_kept st /\
  isProcessing st = false /\ currentProcessingIndex st = (-1)%Z.

(** The state after a page load followed by a sequence of events. *)
Definition session (shortest_decimal : Q -> string)
    (storage : gmap string Blob) (events : list Event) : option AppState :=
  st0 ← mount shortest_decimal storage;
  Some (fold_left (fun st ev => handle shortest_decimal ev st) events st0).

(** A text without a comma. *)
Fixpoint no_comma (s : string) : bool :=
  match s with
  | EmptyString => true
  | String c s' => negb (Ascii.eqb c comma) && no_comma s'
  end.

(** No two candidates of the list have the same score. *)
Inductive distinct_scores : list CandidateAnalysis -> Prop :=
  | distinct_nil : distinct_scores []
  | distinct_cons x l :
      Forall (fun y => ~ (finalScore x == finalScore y)%Q) l ->
      distinct_scores l -> distinct_scores (x :: l).

(** *** Weight configurations used in statements *)

(** ** App.tsx: calculateFinalScore on doubles *)

Module Double.
Local Open Scope float_scope.

Module ScoringWeights.
Record t : Type := mk {
  skillsMatch : float;
  experienceRelevance : float;
  qualifications : float;
  seniority : float;
  clarity : float
}.
End ScoringWeights.

Module Ratings.
Record t : Type := mk {
  skillsMatch : float;
  experienceRelevance : float;
  qualifications : float;
  seniority : float;
  clarity : float
}.
End Ratings.

Record AIResponseRaw : Type := mkRaw {
  candidateName : string;
  skillsFound : list string;
  skillsMissing : list string;
  qualifications : list string;
  achievements : list string;
  experienceSummary : string;
  strengths : list string;
  weaknesses : list string;
  ratings : Ratings.t;
  reasoning : string
}.

Record CandidateAnalysis : Type := mkCandidate {
  raw : AIResponseRaw;
  id : string;
  finalScore : float;
  fitLabel : FitLabel
}.

Definition DEFAULT_WEIGHTS : ScoringWeights.t := ScoringWeights.mk 35 30 15 10 10.

(** [Object.values(w)]: the values in the order of the keys. *)
Definition Object_values (w : ScoringWeights.t) : list float :=
  [ ScoringWeights.skillsMatch w;
    ScoringWeights.experienceRelevance w;
    ScoringWeights.qualifications w;
    ScoringWeights.seniority w;
    ScoringWeights.clarity w ].

(** [xs.reduce((a, b) => a + b, 0)]: the additions from the left, each
    rounded. *)
Definition reduce_sum (xs : list float) : float :=
  fold_left (fun a b => a + b) xs 0.

(** Lines 83-101.  [===] and [>=] are the comparisons of IEEE 754: both are
    false on NaN, and [-0 === 0]. *)
Definition calculateFinalScore
    (candidate : CandidateAnalysis) (w : ScoringWeights.t) : CandidateAnalysis :=
  let totalWeight := reduce_sum (Object_values w) in
  if totalWeight =? 0 then candidate
  else
    let r := ratings (raw candidate) in
    let rawScore :=
      Ratings.skillsMatch r * ScoringWeights.skillsMatch w +
      Ratings.experienceRelevance r * ScoringWeights.experienceRelevance w +
      Ratings.qualifications r * ScoringWeights.qualifications w +
      Ratings.seniority r * ScoringWeights.seniority w +
      Ratings.clarity r * ScoringWeights.clarity w in
    let finalScore := rawScore / totalWeight in
    let fitLabel :=
      if 80 <=? finalScore then High
      else if 50 <=? finalScore then Medium
      else Low in
    {| raw := raw candidate; id := id candidate;
       finalScore := finalScore; fitLabel := fitLabel |}.

(** *** Whole numbers as doubles *)

(** The double of a whole number (exact below 2^53). *)
Definition of_Z (z : Z) : float := PrimFloat.of_uint63 (Uint63.of_Z z).

Definition whole_ratings (r1 r2 r3 r4 r5 : Z) : Ratings.t :=
  Ratings.mk (of_Z r1) (of_Z r2) (of_Z r3) (of_Z r4) (of_Z r5).

Definition whole_weights (w1 w2 w3 w4 w5 : Z) : ScoringWeights.t :=
  ScoringWeights.mk (of_Z w1) (of_Z w2) (of_Z w3) (of_Z w4) (of_Z w5).

(** A whole rating between 0 and 100. *)
Definition percent (r : Z) : Prop := (0 <= r <= 100)%Z.

(** A value of a slider of [ScoringConfig]: [min="0" max="100" step="5"],
    read with [parseInt]. *)
Definition slider_value (x : Z) : Prop :=
  exists k : Z, (0 <= k <= 20)%Z /\ x = (5 * k)%Z.

Definition set_rating (a : Axis) (v : float) (r : Ratings.t) : Ratings.t :=
  match a with
  | AxSkillsMatch =>
      Ratings.mk v (Ratings.experienceRelevance r) (Ratings.qualifications r)
                 (Ratings.seniority r) (Ratings.clarity r)
  | AxExperienceRelevance =>
      Ratings.mk (Ratings.skillsMatch r) v (Ratings.qualifications r)
                 (Ratings.seniority r) (Ratings.clarity r)
  | AxQualifications =>
      Ratings.mk (Ratings.skillsMatch r) (Ratings.experienceRelevance r) v
                 (Ratings.seniority r) (Ratings.clarity r)
  | AxSeniority =>
      Ratings.mk (Ratings.skillsMatch r) (Ratings.experienceRelevance r)
                 (Ratings.qualifications r) v (Ratings.clarity r)
  | AxClarity =>
      Ratings.mk (Ratings.skillsMatch r) (Ratings.experienceRelevance r)
                 (Ratings.qualifications r) (Ratings.seniority r) v
  end.

Definition with_ratings (r : Ratings.t) (c : CandidateAnalysis) : CandidateAnalysis :=
  {| raw :=
       {| candidateName := candidateName (raw c);
          skillsFound := skillsFound (raw c);
          skillsMissing := skillsMissing (raw c);
          qualifications := qualifications (raw c);
          achievements := achievements (raw c);
          experienceSummary := experienceSummary (raw c);
          strengths := strengths (raw c);
          weaknesses := weaknesses (raw c);
          ratings := r;
          reasoning := reasoning (raw c) |};
     id := id c; finalScore := finalScore c; fitLabel := fitLabel c |}.

(** The candidate [c] with the rating on axis [a] set to [v]. *)
Definition with_rating (a : Axis) (v : float) (c : CandidateAnalysis)
    : CandidateAnalysis :=
  with_ratings (set_rating a v (ratings (raw c))) c.

(** *** Checks by enumeration

    Tests that run over a range of machine integers; each is evaluated once
    on its whole range. *)

(** [p] holds on the [fuel] integers from [i] on. *)
Fixpoint all_from (fuel : nat) (i : int) (p : int -> bool) : bool :=
  match fuel with
  | O => true
  | S fuel' => if p i then all_from fuel' (i + 1)%uint63 p else false
  end.

(** The product of the whole rating [r] and the slider value [5 k] is
    computed without rounding. *)
Definition product_exact (r k : int) : bool :=
  PrimFloat.Leibniz.eqb (of_uint63 r * of_uint63 (5 * k))
                        (of_uint63 (r * (5 * k))).

(** So is the sum of the multiples [5 i] and [5 j] of five. *)
Definition sum_exact (i j : int) : bool :=
  PrimFloat.Leibniz.eqb (of_uint63 (5 * i) + of_uint63 (5 * j))
                        (of_uint63 (5 * (i + j))).

(** A number between 0 and 100 (and so not NaN). *)
Definition in_percent (q : float) : bool :=
  (0 <=? q) && (q <=? 100) && (q <=? q).

(** The quotients of [5 n] and of [5 (n + 1)] by [5 t], for [n < 100 t]:
    both between 0 and 100, the second not below the first. *)
Definition quotient_step (t n : int) : bool :=
  if (n <? 100 * t)%uint63 then
    let q := of_uint63 (5 * n) / of_uint63 (5 * t) in
    let q' := of_uint63 (5 * (n + 1)) / of_uint63 (5 * t) in
    in_percent q && in_percent q' && (q <=? q')
  else true.

(** The quotients at both ends, and a total that is not zero. *)
Definition quotient_ends (t : int) : bool :=
  PrimFloat.Leibniz.eqb (of_uint63 (5 * (100 * t)) / of_uint63 (5 * t)) 100 &&
  PrimFloat.Leibniz.eqb (of_uint63 (5 * 0) / of_uint63 (5 * t)) 0 &&
  negb (of_uint63 (5 * t) =? 0).

(** A value that is a zero or NaN. *)
Definition zero_or_nan (x : spec_float) : bool :=
  match x with
  | S754_zero _ => true
  | S754_nan => true
  | _ => false
  end.

(** *** Sample data *)

Definition sample_raw (name : string) (r : Ratings.t) : AIResponseRaw :=
  {| candidateName := name;
     skillsFound := ["Rocq"; "TypeScript"];
     skillsMissing := ["Kubernetes"];
     qualifications := ["MSc"];
     achievements := [];
     experienceSummary := "Six years of verification work.";
     strengths := ["Proofs"; "Tooling"];
     weaknesses := ["Operations"];
     ratings := r;
     reasoning := "Strong match." |}.

Definition candidate (r : Ratings.t) : CandidateAnalysis :=
  {| raw := sample_raw "Doe, Jane" r; id := "a1"; finalScore := 0; fitLabel := Low |}.

(** Weights that are not whole numbers, and weights near the largest
    double. *)
Definition fractional_weights : ScoringWeights.t :=
  ScoringWeights.mk 0x1.999999999999ap-4 0x1.999999999999ap-4 0x1.999999999999ap-4
                    0x1.6666666666666p-1 0x1.3333333333333p-3.

Definition huge : float := 0x1.1ccf385ebc8ap+1023.
End Double.

(** ** Sample data *)

Definition sample_raw (name : string) (r : Ratings.t) : AIResponseRaw :=
  {| candidateName := name;
     skillsFound := ["Rocq"; "TypeScript"];
     skillsMissing := ["Kubernetes"];
     qualifications := ["MSc"];
     achievements := [];
     experienceSummary := "Six years of verification work.";
     strengths := ["Proofs"; "Tooling"];
     weaknesses := ["Operations"];
     ratings := r;
     reasoning := "Strong match." |}.

(** Ratings that give 91.2 and 54.0 under the default weights. *)
Definition jane : CandidateAnalysis :=
  {| raw := sample_raw "Doe, Jane" (Ratings.mk 94 92 90 86 86);
     id := "a1"; finalScore := 0; fitLabel := Low |}.

Definition rich : CandidateAnalysis :=
  {| raw := sample_raw "Roe, Rich" (Ratings.mk 50 60 50 55 55);
     id := "b2"; finalScore := 0; fitLabel := Low |}.

Definition zero_weights : ScoringWeights.t := ScoringWeights.mk 0 0 0 0 0.

(** A host whose non-integer numbers all print alike; enough for examples
    whose numbers are integers or go through [toFixed]. *)
Definition sample_decimal : Q -> string := fun _ => "0.5".

(** Files: readable ones carry a data URL, [unreadable] makes the reader
    fire [onerror]. *)
Definition pdf (name base64 : string) : File.t :=
  File.mk name "application/pdf" (Some ("data:application/pdf;base64," ++ base64)).

Definition unreadable (name : string) : File.t := File.mk name "" None.

Definition upload (i : string) (f : File.t) : ProcessingFile.t :=
  ProcessingFile.mk i f Status.pending None None.

(** A collaborator that answers with the text of the CV it was sent, and a
    parser that rejects the text [BAD] and reads the text [{}] as the empty
    object. *)
Definition sample_ai : Collaborator :=
  {| API_KEY := Some "key";
     generateContent := fun _ _ _ cv _ => Ok cv;
     JSON_parse := fun t =>
       if String.eqb t "BAD" then Throw "SyntaxError"
       else if String.eqb t "{}" then Ok Unshaped
       else Ok (Shaped (sample_raw t (Ratings.mk 80 80 80 80 80))) |}.

Definition sample_state (files : list ProcessingFile.t)
    (rs : list CandidateAnalysis) (storage : gmap string Blob) : AppState :=
  mkApp (Some (pdf "jd.pdf" "JD")) files DEFAULT_WEIGHTS false rs (-1) storage.

(** Three uploads whose second file cannot be read. *)
Definition second_unreadable : list ProcessingFile.t :=
  [ upload "f1" (pdf "one.pdf" "ONE");
    upload "f2" (unreadable "two.pdf");
    upload "f3" (pdf "three.pdf" "THREE") ].

(** Three readable uploads; the analysis of the second fails in the parser. *)
Definition second_unparsed : list ProcessingFile.t :=
  [ upload "f1" (pdf "one.pdf" "ONE");
    upload "f2" (pdf "two.pdf" "BAD");
    upload "f3" (pdf "three.pdf" "THREE") ].

(** Three readable uploads; the reply for the second is the empty object. *)
Definition second_unshaped : list ProcessingFile.t :=
  [ upload "f1" (pdf "one.pdf" "ONE");
    upload "f2" (pdf "two.pdf" "{}");
    upload "f3" (pdf "three.pdf" "THREE") ].

(** Three readable uploads, and a collaborator that rates the text [LOW]
    at 40 on every axis and any other text at 80. *)
Definition three_readable : list ProcessingFile.t :=
  [ upload "f1" (pdf "one.pdf" "LOW");
    upload "f2" (pdf "two.pdf" "TWO");
    upload "f3" (pdf "three.pdf" "THREE") ].

Definition graded_ai : Collaborator :=
  {| API_KEY := Some "key";
     generateContent := fun _ _ _ cv _ => Ok cv;
     JSON_parse := fun t =>
       if String.eqb t "LOW"
       then Ok (Shaped (sample_raw t (Ratings.mk 40 40 40 40 40)))
       else Ok (Shaped (sample_raw t (Ratings.mk 80 80 80 80 80))) |}.

(** A heap in which the array at reference 0 is the result list the
    Dashboard was given, and another array lives at reference 1. *)
Definition scored (c : CandidateAnalysis) : CandidateAnalysis :=
  calculateFinalScore c DEFAULT_WEIGHTS.

Definition sample_heap : Heap :=
  {[ 0%nat := [scored rich; scored jane]; 1%nat := [jane] ]}.

(** A restored session with one stored result, and an upload that cannot
    be read: a run in which no file succeeds. *)
Definition session_storage : gmap string Blob :=
  {[ weights_key := WeightsJSON DEFAULT_WEIGHTS;
     results_key := ResultsJSON [scored jane] ]}.

Definition restored_session : AppState :=
  sample_state [upload "f2" (unreadable "two.pdf")] [scored jane] session_storage.

(** A text model that answers every prompt with the same text, and one
    without a key. *)
Definition sample_model (answer : option string) : TextModel :=
  {| text_API_KEY := Some "key";
     generateText := fun _ _ => Ok answer;
     JSON_parse_strings := fun t =>
       if String.eqb t "[]" then Ok [] else Ok [t] |}.

Definition keyless_model : TextModel :=
  {| text_API_KEY := None;
     generateText := fun _ _ => Ok (Some "unused");
     JSON_parse_strings := fun _ => Ok [] |}.

Definition fresh_dashboard : DashboardState :=
  mkDashboard None Tab.analysis ∅ ∅ None.

(** ** Proof automation *)

Ltac split_five H :=
  repeat match type of H with
         | Forall _ (_ :: _) =>
             let H1 := fresh "Hx" in
             let H2 := fresh "Hrest" in
             apply Forall_cons_1 in H; destruct H as [H1 H2]; revert H1;
             try (split_five H2)
         end; intros.

Ltac case_ifs :=
  repeat match goal with
         | |- context [if ?b then _ else _] => destruct b
         end.

(** The cases of the comparisons of exponents and mantissas. *)
Ltac compare_cases :=
  repeat match goal with
         | H : context [Z.compare ?x ?y] |- _ =>
             destruct (Z.compare_spec x y); subst
         | |- context [Z.compare ?x ?y] =>
             destruct (Z.compare_spec x y); subst
         | H : context [Pos.compare_cont Eq ?x ?y] |- _ =>
             change (Pos.compare_cont Eq x y) with (Pos.compare x y) in *;
             destruct (Pos.compare_spec x y); subst
         | |- context [Pos.compare_cont Eq ?x ?y] =>
             change (Pos.compare_cont Eq x y) with (Pos.compare x y) in *;
             destruct (Pos.compare_spec x y); subst
         end.

(** The members of a list of five. *)
Ltac split_forall :=
  repeat match goal with
         | H : Forall _ (_ :: _) |- _ => inversion H; clear H; subst
         | H : Forall _ [] |- _ => clear H
         end.

(** * Properties *)

Local Open Scope list_scope.

(** ** The scoring function *)

Section Scoring.
Local Open Scope Q_scope.

Variable c : CandidateAnalysis.
Variable w : ScoringWeights.t.

Lemma reduce_sum_weight_sum : reduce_sum (Object_values w) == weight_sum w.
Proof. unfold reduce_sum, weight_sum, Object_values; simpl. ring. Qed.

Lemma total_zero :
  weight_sum w == 0 -> Qeq_bool (reduce_sum (Object_values w)) 0 = true.
Proof.
  intros Hz. apply Qeq_eq_bool. now rewrite reduce_sum_weight_sum.
Qed.

End Scoring.

Lemma zero_total_map (w : ScoringWeights.t) (rs : list CandidateAnalysis) :
  (weight_sum w == 0)%Q -> map (fun r => calculateFinalScore r w) rs = rs.
Proof.
  intros Hz. induction rs as [|r rs IH]; [reflexivity|].
  simpl. rewrite IH. f_equal.
  unfold calculateFinalScore. now rewrite (total_zero w Hz).
Qed.

(** C2. When the five weights sum to zero, [calculateFinalScore] returns
    the candidate itself, and recomputing the stored scores with such
    weights, as the effect that follows a change of the weights does, leaves
    the result list as it was. *)
Theorem zero_total_weight_is_noop
    (c : CandidateAnalysis) (w : ScoringWeights.t) :
  (weight_sum w == 0)%Q ->
  calculateFinalScore c w = c /\
  (forall rs, map (fun r => calculateFinalScore r w) rs = rs) /\
  (forall shortest_decimal st,
     results (setWeights shortest_decimal w st) = results st).
Proof.
  intros Hz. split; [|split].
  - unfold calculateFinalScore. now rewrite (total_zero w Hz).
  - intros rs. now apply zero_total_map.
  - intros sd st. unfold setWeights, effect_recalculate.
    cbn [results weights effect_save_weights with_weights with_localStorage].
    destruct (0 <? length (results st))%nat; [|reflexivity].
    rewrite (zero_total_map w (results st) Hz).
    destruct (negb _); [|reflexivity].
    unfold effect_save_results. cbn [results with_results].
    destruct (0 <? _)%nat; reflexivity.
Qed.

Lemma zero_total_weight_is_noop_witness :
  calculateFinalScore jane zero_weights = jane /\
  (forall rs, map (fun r => calculateFinalScore r zero_weights) rs = rs) /\
  (forall shortest_decimal st,
     results (setWeights shortest_decimal zero_weights st) = results st).
Proof.
  apply (zero_total_weight_is_noop jane zero_weights). reflexivity.
Defined.

(** ** The scoring function on doubles *)

Section Doubles.
Import Double.
Local Open Scope Z_scope.

(** *** Machine integers and whole numbers *)

Lemma uint_of_Z_add (a b : Z) :
  Uint63.of_Z (a + b) = (Uint63.of_Z a + Uint63.of_Z b)%uint63.
Proof.
  apply Uint63.to_Z_inj. rewrite Uint63.add_spec, !Uint63.of_Z_spec.
  now rewrite <- Zplus_mod.
Qed.

Lemma uint_of_Z_mul (a b : Z) :
  Uint63.of_Z (a * b) = (Uint63.of_Z a * Uint63.of_Z b)%uint63.
Proof.
  apply Uint63.to_Z_inj. rewrite Uint63.mul_spec, !Uint63.of_Z_spec.
  now rewrite <- Zmult_mod.
Qed.

Lemma all_from_spec (p : int -> bool) (fuel : nat) :
  forall i : int,
    all_from fuel i p = true ->
    Uint63.to_Z i + Z.of_nat fuel <= wB ->
    forall j : int,
      Uint63.to_Z i <= Uint63.to_Z j < Uint63.to_Z i + Z.of_nat fuel ->
      p j = true.
Proof.
  induction fuel as [|fuel IH]; intros i H Hb j Hj; [lia|].
  cbn [all_from] in H. destruct (p i) eqn:Hp; [|discriminate].
  destruct (Z.eq_dec (Uint63.to_Z j) (Uint63.to_Z i)) as [E|E].
  - apply Uint63.to_Z_inj in E. now subst.
  - assert (H1 : Uint63.to_Z (i + 1)%uint63 = Uint63.to_Z i + 1).
    { rewrite Uint63.add_spec, Uint63.to_Z_1. apply Z.mod_small.
      pose proof (Uint63.to_Z_bounded i). lia. }
    apply (IH (i + 1)%uint63 H); lia.
Qed.

Lemma all_below (p : int -> bool) (fuel : nat) (first : Z) :
  0 <= first -> first + Z.of_nat fuel <= wB ->
  all_from fuel (Uint63.of_Z first) p = true ->
  forall z : Z, first <= z < first + Z.of_nat fuel -> p (Uint63.of_Z z) = true.
Proof.
  intros H0 Hb H z Hz.
  assert (E : forall x, 0 <= x < wB -> Uint63.to_Z (Uint63.of_Z x) = x).
  { intros x Hx. rewrite Uint63.of_Z_spec. now apply Z.mod_small. }
  apply (all_from_spec p fuel (Uint63.of_Z first) H); rewrite !E; lia.
Qed.

Lemma wB_large : 100000 <= wB.
Proof. vm_compute. discriminate. Qed.

(** *** The three enumerations *)

Lemma products_checked :
  all_from 101 0 (fun r => all_from 21 0 (fun k => product_exact r k)) = true.
Proof. vm_compute. reflexivity. Qed.

Lemma sums_checked :
  all_from (Z.to_nat 8001) 0
    (fun i => all_from (Z.to_nat 2001) 0 (fun j => sum_exact i j)) = true.
Proof. vm_compute. reflexivity. Qed.

Lemma quotients_checked :
  all_from 100 1
    (fun t => quotient_ends t &&
              all_from (Z.to_nat 10000) 0 (fun n => quotient_step t n)) = true.
Proof. vm_compute. reflexivity. Qed.

(** A whole rating times a slider value is exact. *)
Lemma float_of_Z_mul (r k : Z) :
  0 <= r <= 100 -> 0 <= k <= 20 ->
  (of_Z r * of_Z (5 * k))%float = of_Z (5 * (r * k)).
Proof.
  intros Hr Hk. pose proof wB_large as HB.
  pose proof (all_below _ 101 0 ltac:(lia) ltac:(cbn; lia) products_checked r
                ltac:(cbn; lia)) as H1.
  cbv beta in H1.
  pose proof (all_below _ 21 0 ltac:(lia) ltac:(cbn; lia) H1 k ltac:(cbn; lia)) as H2.
  unfold product_exact in H2. apply FloatAxioms.Leibniz.eqb_spec in H2.
  unfold of_Z. rewrite (uint_of_Z_mul 5 k). change (Uint63.of_Z 5) with 5%uint63.
  rewrite H2. f_equal.
  replace (5 * (r * k)) with (r * (5 * k)) by ring.
  now rewrite (uint_of_Z_mul r), (uint_of_Z_mul 5 k).
Qed.

(** The sums of the products, and of the slider values, are exact. *)
Lemma float_of_Z_add (i j : Z) :
  0 <= i <= 8000 -> 0 <= j <= 2000 ->
  (of_Z (5 * i) + of_Z (5 * j))%float = of_Z (5 * (i + j)).
Proof.
  intros Hi Hj. pose proof wB_large as HB.
  pose proof (all_below _ (Z.to_nat 8001) 0 ltac:(lia) ltac:(lia) sums_checked i
                ltac:(lia)) as H1.
  cbv beta in H1.
  pose proof (all_below _ (Z.to_nat 2001) 0 ltac:(lia) ltac:(lia) H1 j ltac:(lia)) as H2.
  unfold sum_exact in H2. apply FloatAxioms.Leibniz.eqb_spec in H2.
  unfold of_Z. rewrite !uint_of_Z_mul, uint_of_Z_add.
  change (Uint63.of_Z 5) with 5%uint63. exact H2.
Qed.

(** The quotient of a weighted sum [5 n] by a total [5 t]. *)
Lemma quotient_facts (t n : Z) :
  1 <= t <= 100 -> 0 <= n <= 100 * t ->
  let q := (of_Z (5 * n) / of_Z (5 * t))%float in
  in_percent q = true /\
  (of_Z (5 * t) =? 0)%float = false /\
  (n = 0 -> q = 0%float) /\
  (n = 100 * t -> q = 100%float) /\
  (n < 100 * t -> (q <=? of_Z (5 * (n + 1)) / of_Z (5 * t))%float = true).
Proof.
  intros Ht Hn q. pose proof wB_large as HB.
  pose proof (all_below _ 100 1 ltac:(lia) ltac:(cbn; lia) quotients_checked t
                ltac:(cbn; lia)) as H1.
  cbv beta in H1. apply andb_true_iff in H1 as [He Hs].
  unfold quotient_ends in He.
  apply andb_true_iff in He as [He Hz]. apply andb_true_iff in He as [Htop Hbot].
  apply FloatAxioms.Leibniz.eqb_spec in Htop, Hbot. apply negb_true_iff in Hz.
  assert (E5 : forall x, Uint63.of_Z (5 * x) = (5 * Uint63.of_Z x)%uint63).
  { intros x. rewrite uint_of_Z_mul. reflexivity. }
  assert (E100 : Uint63.of_Z (100 * t) = (100 * Uint63.of_Z t)%uint63).
  { rewrite uint_of_Z_mul. reflexivity. }
  assert (Hstep : forall m, 0 <= m < 100 * t ->
            let a := (of_Z (5 * m) / of_Z (5 * t))%float in
            let b := (of_Z (5 * (m + 1)) / of_Z (5 * t))%float in
            in_percent a = true /\ in_percent b = true /\ (a <=? b)%float = true).
  { intros m Hm a b.
    pose proof (all_below _ (Z.to_nat 10000) 0 ltac:(lia) ltac:(lia) Hs m
                  ltac:(lia)) as H2.
    unfold quotient_step in H2.
    assert (Hlt : (Uint63.of_Z m <? 100 * Uint63.of_Z t)%uint63 = true).
    { apply Uint63.ltb_spec. rewrite <- E100, !Uint63.of_Z_spec.
      rewrite !Z.mod_small by lia. lia. }
    rewrite Hlt in H2.
    apply andb_true_iff in H2 as [H2 H3]. apply andb_true_iff in H2 as [H2 H4].
    subst a b. unfold of_Z. rewrite !E5, uint_of_Z_add.
    change (Uint63.of_Z 1) with 1%uint63. auto. }
  split; [|split; [|split; [|split]]].
  - destruct (Z.eq_dec n (100 * t)) as [->|Hne].
    + destruct (Hstep (100 * t - 1) ltac:(lia)) as (_ & Hb & _).
      replace (100 * t - 1 + 1) with (100 * t) in Hb by lia. exact Hb.
    + now destruct (Hstep n ltac:(lia)) as (Ha & _).
  - unfold of_Z. rewrite E5. exact Hz.
  - intros ->. subst q. unfold of_Z. rewrite !E5.
    change (Uint63.of_Z 0) with 0%uint63. exact Hbot.
  - intros ->. subst q. unfold of_Z. rewrite !E5, E100. exact Htop.
  - intros Hlt. now destruct (Hstep n ltac:(lia)) as (_ & _ & Hc).
Qed.

(** *** The order of doubles *)

Lemma SFleb_trans (a b c : spec_float) :
  SFleb a b = true -> SFleb b c = true -> SFleb a c = true.
Proof.
  unfold SFleb, SFcompare.
  destruct a as [[|]|[|]| |[|] ma ea], b as [[|]|[|]| |[|] mb eb],
           c as [[|]|[|]| |[|] mc ec];
    try discriminate; try reflexivity;
    intros H1 H2; compare_cases; cbn in *;
    try discriminate; try reflexivity; try lia.
Qed.

Lemma float_leb_trans (a b c : float) :
  (a <=? b)%float = true -> (b <=? c)%float = true -> (a <=? c)%float = true.
Proof. rewrite !FloatAxioms.leb_spec. apply SFleb_trans. Qed.

Lemma SFltb_not_leb (a b : spec_float) :
  SFltb a b = true -> SFleb b a = false.
Proof.
  unfold SFltb, SFleb, SFcompare.
  destruct a as [[|]|[|]| |[|] ma ea], b as [[|]|[|]| |[|] mb eb];
    try discriminate; try reflexivity;
    intros H1; compare_cases; cbn in *;
    try discriminate; try reflexivity; try lia.
Qed.

Lemma float_ltb_not_leb (a b : float) :
  (a <? b)%float = true -> (b <=? a)%float = false.
Proof. rewrite FloatAxioms.ltb_spec, FloatAxioms.leb_spec. apply SFltb_not_leb. Qed.

Lemma quotient_monotone (t n n' : Z) :
  1 <= t <= 100 -> 0 <= n <= n' -> n' <= 100 * t ->
  (of_Z (5 * n) / of_Z (5 * t) <=? of_Z (5 * n') / of_Z (5 * t))%float = true.
Proof.
  intros Ht Hn Hn'.
  assert (H : forall d : nat, n + Z.of_nat d <= 100 * t ->
            (of_Z (5 * n) / of_Z (5 * t) <=?
             of_Z (5 * (n + Z.of_nat d)) / of_Z (5 * t))%float = true).
  { induction d as [|d IH]; intros Hd.
    - replace (n + Z.of_nat 0) with n by lia.
      destruct (quotient_facts t n Ht ltac:(lia)) as (Hp & _).
      unfold in_percent in Hp. now apply andb_true_iff in Hp as [_ Hp].
    - eapply float_leb_trans; [apply IH; lia|].
      destruct (quotient_facts t (n + Z.of_nat d) Ht ltac:(lia))
        as (_ & _ & _ & _ & Hs).
      replace (n + Z.of_nat (S d)) with (n + Z.of_nat d + 1) by lia.
      apply Hs. lia. }
  specialize (H (Z.to_nat (n' - n))).
  replace (n + Z.of_nat (Z.to_nat (n' - n))) with n' in H by lia.
  apply H. lia.
Qed.

(** *** Zeros and NaN *)

Lemma zero_times (y : spec_float) :
  zero_or_nan (SF64mul (S754_zero false) y) = true.
Proof. now destruct y as [s|s| |s m e]. Qed.

Lemma zero_or_nan_add (x y : spec_float) :
  zero_or_nan x = true -> zero_or_nan y = true -> zero_or_nan (SF64add x y) = true.
Proof.
  destruct x as [[|]|s| |s m e], y as [[|]|s'| |s' m' e']; try discriminate;
    reflexivity.
Qed.

Lemma zero_or_nan_div (x y : spec_float) :
  zero_or_nan x = true -> zero_or_nan (SF64div x y) = true.
Proof.
  destruct x as [s|s| |s m e], y as [s'|s'| |s' m' e']; try discriminate;
    reflexivity.
Qed.

Lemma zero_or_nan_below (x : spec_float) (m : positive) (e : Z) :
  zero_or_nan x = true -> SFleb (S754_finite false m e) x = false.
Proof. destruct x as [s|s| |s m' e']; try discriminate; reflexivity. Qed.

(** *** Whole ratings and slider values *)

Section WholeNumbers.
Variables r1 r2 r3 r4 r5 : Z.
Variables k1 k2 k3 k4 k5 : Z.
Hypothesis Hr : Forall percent [r1; r2; r3; r4; r5].
Hypothesis Hk : Forall (fun k => 0 <= k <= 20) [k1; k2; k3; k4; k5].

Let N := r1 * k1 + r2 * k2 + r3 * k3 + r4 * k4 + r5 * k5.
Let T := k1 + k2 + k3 + k4 + k5.

Lemma whole_ranges :
  (percent r1 /\ percent r2 /\ percent r3 /\ percent r4 /\ percent r5) /\
  (0 <= k1 <= 20 /\ 0 <= k2 <= 20 /\ 0 <= k3 <= 20 /\ 0 <= k4 <= 20 /\ 0 <= k5 <= 20).
Proof. split_forall. tauto. Qed.

Lemma total_value :
  reduce_sum (Object_values
                (whole_weights (5 * k1) (5 * k2) (5 * k3) (5 * k4) (5 * k5))) =
  of_Z (5 * T).
Proof.
  destruct whole_ranges as (_ & K1 & K2 & K3 & K4 & K5).
  unfold reduce_sum, Object_values, whole_weights. cbn [fold_left
    ScoringWeights.skillsMatch ScoringWeights.experienceRelevance
    ScoringWeights.qualifications ScoringWeights.seniority ScoringWeights.clarity].
  change 0%float with (of_Z (5 * 0)).
  rewrite !float_of_Z_add by lia. f_equal.
Qed.

Lemma rawScore_value :
  (of_Z r1 * of_Z (5 * k1) + of_Z r2 * of_Z (5 * k2) + of_Z r3 * of_Z (5 * k3) +
   of_Z r4 * of_Z (5 * k4) + of_Z r5 * of_Z (5 * k5))%float = of_Z (5 * N).
Proof.
  destruct whole_ranges as ((R1 & R2 & R3 & R4 & R5) & K1 & K2 & K3 & K4 & K5).
  unfold percent in *.
  rewrite !float_of_Z_mul by lia.
  rewrite !float_of_Z_add by nia. f_equal.
Qed.

Lemma weighted_sum_range : 0 <= N <= 100 * T /\ 0 <= T <= 100.
Proof.
  destruct whole_ranges as ((R1 & R2 & R3 & R4 & R5) & K1 & K2 & K3 & K4 & K5).
  unfold percent in *. subst N T. nia.
Qed.

(** The score of whole ratings under slider values: the quotient of the
    exact weighted sum by the exact total, rounded once. *)
Lemma score_value (c : CandidateAnalysis) :
  ratings (raw c) = whole_ratings r1 r2 r3 r4 r5 -> 0 < T ->
  let c' := calculateFinalScore c
              (whole_weights (5 * k1) (5 * k2) (5 * k3) (5 * k4) (5 * k5)) in
  finalScore c' = (of_Z (5 * N) / of_Z (5 * T))%float /\
  fitLabel c' = (if (80 <=? finalScore c')%float then High
                 else if (50 <=? finalScore c')%float then Medium else Low) /\
  raw c' = raw c /\ id c' = id c.
Proof.
  intros Hc HT. destruct weighted_sum_range as [HN HT'].
  destruct (quotient_facts T N ltac:(lia) ltac:(lia)) as (_ & Hz & _).
  unfold calculateFinalScore. rewrite total_value, Hz, Hc.
  cbn [raw id ratings finalScore fitLabel whole_ratings whole_weights
       Ratings.skillsMatch Ratings.experienceRelevance Ratings.qualifications
       Ratings.seniority Ratings.clarity
       ScoringWeights.skillsMatch ScoringWeights.experienceRelevance
       ScoringWeights.qualifications ScoringWeights.seniority ScoringWeights.clarity].
  rewrite rawScore_value. repeat split.
Qed.
End WholeNumbers.

Lemma slider_values_steps (w1 w2 w3 w4 w5 : Z) :
  Forall slider_value [w1; w2; w3; w4; w5] ->
  exists k1 k2 k3 k4 k5,
    Forall (fun k => 0 <= k <= 20) [k1; k2; k3; k4; k5] /\
    w1 = 5 * k1 /\ w2 = 5 * k2 /\ w3 = 5 * k3 /\ w4 = 5 * k4 /\ w5 = 5 * k5.
Proof.
  intros H.
  apply Forall_cons_1 in H as [(k1 & K1 & E1) H].
  apply Forall_cons_1 in H as [(k2 & K2 & E2) H].
  apply Forall_cons_1 in H as [(k3 & K3 & E3) H].
  apply Forall_cons_1 in H as [(k4 & K4 & E4) H].
  apply Forall_cons_1 in H as [(k5 & K5 & E5) _].
  exists k1, k2, k3, k4, k5. split; [|tauto].
  repeat (constructor; [assumption|]). constructor.
Qed.
End Doubles.

(** C1, as the code has it.  For whole ratings between 0 and 100 and
    weights as the sliders give them (multiples of 5 from 0 to 100) with a
    positive total, the products and the two sums are computed without
    rounding, so that [finalScore] is the weighted sum divided by the total
    weight in one rounded division; it lies between 0 and 100, and the other
    fields are those of the argument. *)
Theorem calculateFinalScore_weighted_average
    (c : Double.CandidateAnalysis) (r1 r2 r3 r4 r5 w1 w2 w3 w4 w5 : Z) :
  Double.ratings (Double.raw c) = Double.whole_ratings r1 r2 r3 r4 r5 ->
  Forall Double.percent [r1; r2; r3; r4; r5] ->
  Forall Double.slider_value [w1; w2; w3; w4; w5] ->
  (0 < w1 + w2 + w3 + w4 + w5)%Z ->
  let c' := Double.calculateFinalScore c (Double.whole_weights w1 w2 w3 w4 w5) in
  Double.finalScore c' =
    (Double.of_Z (r1 * w1 + r2 * w2 + r3 * w3 + r4 * w4 + r5 * w5) /
     Double.of_Z (w1 + w2 + w3 + w4 + w5))%float /\
  (0 <=? Double.finalScore c')%float = true /\
  (Double.finalScore c' <=? 100)%float = true /\
  Double.raw c' = Double.raw c /\ Double.id c' = Double.id c.
Proof.
  intros Hc Hr Hw Hpos.
  destruct (slider_values_steps w1 w2 w3 w4 w5 Hw)
    as (k1 & k2 & k3 & k4 & k5 & Hk & -> & -> & -> & -> & ->).
  destruct (score_value r1 r2 r3 r4 r5 k1 k2 k3 k4 k5 Hr Hk c Hc ltac:(lia))
    as (S1 & _ & S3 & S4).
  destruct (weighted_sum_range r1 r2 r3 r4 r5 k1 k2 k3 k4 k5 Hr Hk) as [HN HT].
  cbv zeta in *.
  destruct (quotient_facts (k1 + k2 + k3 + k4 + k5)%Z
              (r1 * k1 + r2 * k2 + r3 * k3 + r4 * k4 + r5 * k5)%Z
              ltac:(lia) ltac:(lia)) as (Hp & _).
  cbv zeta in Hp. rewrite <- S1 in Hp. unfold Double.in_percent in Hp.
  apply andb_true_iff in Hp as [Hp _]. apply andb_true_iff in Hp as [Hp0 Hp100].
  split; [|auto].
  rewrite S1. f_equal; f_equal; ring.
Qed.

Lemma calculateFinalScore_weighted_average_witness :
  let c' := Double.calculateFinalScore
              (Double.candidate (Double.whole_ratings 94 92 90 86 86))
              (Double.whole_weights 35 30 15 10 10) in
  Double.finalScore c' =
    (Double.of_Z (94 * 35 + 92 * 30 + 90 * 15 + 86 * 10 + 86 * 10) /
     Double.of_Z (35 + 30 + 15 + 10 + 10))%float /\
  (0 <=? Double.finalScore c')%float = true /\
  (Double.finalScore c' <=? 100)%float = true /\
  Double.raw c' = Double.raw (Double.candidate (Double.whole_ratings 94 92 90 86 86)) /\
  Double.id c' = Double.id (Double.candidate (Double.whole_ratings 94 92 90 86 86)).
Proof.
  apply (calculateFinalScore_weighted_average
           (Double.candidate (Double.whole_ratings 94 92 90 86 86))
           94 92 90 86 86 35 30 15 10 10).
  - reflexivity.
  - repeat (constructor; [unfold Double.percent; lia|]). constructor.
  - constructor; [exists 7%Z; lia|]. constructor; [exists 6%Z; lia|].
    constructor; [exists 3%Z; lia|]. constructor; [exists 2%Z; lia|].
    constructor; [exists 2%Z; lia|]. constructor.
  - lia.
Defined.

(** C1 as stated fails on doubles.  With all ratings 100 and the
    non-negative weights 0.1, 0.1, 0.1, 0.7, 0.15 the score is
    100.00000000000001, above 100; and with all ratings 99.99 under the
    default weights the score is 99.98999999999998, below the weighted
    average 99.99 of five equal ratings. *)
Lemma score_above_100_counterexample :
  let full := Double.candidate (Double.Ratings.mk 100 100 100 100 100) in
  let x := 0x1.8ff5c28f5c28fp+6%float in
  let near := Double.candidate (Double.Ratings.mk x x x x x) in
  Forall (fun v => (0 <=? v)%float = true)
         (Double.Object_values Double.fractional_weights) /\
  (0 <? Double.reduce_sum (Double.Object_values Double.fractional_weights))%float
    = true /\
  (100 <? Double.finalScore
            (Double.calculateFinalScore full Double.fractional_weights))%float
    = true /\
  (Double.finalScore (Double.calculateFinalScore near Double.DEFAULT_WEIGHTS) <? x)%float
    = true.
Proof.
  cbv zeta. split; [|split; [|split]].
  - repeat (constructor; [vm_compute; reflexivity|]). constructor.
  - vm_compute. reflexivity.
  - vm_compute. reflexivity.
  - vm_compute. reflexivity.
Qed.

(** C3, as the code has it.  Whenever the total weight is not zero, the
    label follows the thresholds on the score set in the same call: [High]
    from 80 on, [Medium] from 50 on and below 80, [Low] below 50 and also
    when the score is not a number.  Ratings that are all 0 give [Low] under
    any such weights; ratings that are all 100 give [High] under weights as
    the sliders give them. *)
Theorem fitLabel_is_threshold_classification
    (c : Double.CandidateAnalysis) (w : Double.ScoringWeights.t) :
  (Double.reduce_sum (Double.Object_values w) =? 0)%float = false ->
  let c' := Double.calculateFinalScore c w in
  let s := Double.finalScore c' in
  ((80 <=? s)%float = true -> Double.fitLabel c' = High) /\
  ((50 <=? s)%float = true -> (s <? 80)%float = true ->
   Double.fitLabel c' = Medium) /\
  ((s <? 50)%float = true -> Double.fitLabel c' = Low) /\
  ((50 <=? s)%float = false -> Double.fitLabel c' = Low) /\
  (Double.ratings (Double.raw c) = Double.whole_ratings 0 0 0 0 0 ->
   Double.fitLabel c' = Low) /\
  (forall w1 w2 w3 w4 w5,
     w = Double.whole_weights w1 w2 w3 w4 w5 ->
     Forall Double.slider_value [w1; w2; w3; w4; w5] ->
     Double.ratings (Double.raw c) = Double.whole_ratings 100 100 100 100 100 ->
     s = 100%float /\ Double.fitLabel c' = High).
Proof.
  intros Hz c' s.
  assert (Hlabel : Double.fitLabel c' =
                   if (80 <=? s)%float then High
                   else if (50 <=? s)%float then Medium else Low).
  { subst s c'. unfold Double.calculateFinalScore. rewrite Hz. reflexivity. }
  assert (Hlow : (50 <=? s)%float = false -> Double.fitLabel c' = Low).
  { intros H50. rewrite Hlabel, H50.
    destruct (80 <=? s)%float eqn:H80; [|reflexivity].
    assert (H : (50 <=? s)%float = true)
      by (apply (float_leb_trans 50 80 s); [reflexivity|exact H80]).
    congruence. }
  split; [|split; [|split; [|split; [|split]]]].
  - intros H80. now rewrite Hlabel, H80.
  - intros H50 Hlt. now rewrite Hlabel, (float_ltb_not_leb s 80 Hlt), H50.
  - intros Hlt. now apply Hlow, float_ltb_not_leb.
  - exact Hlow.
  - intros Hc. apply Hlow. subst s c'.
    unfold Double.calculateFinalScore. rewrite Hz, Hc.
    cbn [Double.finalScore Double.raw Double.ratings Double.whole_ratings
         Double.Ratings.skillsMatch Double.Ratings.experienceRelevance
         Double.Ratings.qualifications Double.Ratings.seniority
         Double.Ratings.clarity].
    change (Double.of_Z 0) with 0%float.
    rewrite FloatAxioms.leb_spec.
    change (Prim2SF 50) with (S754_finite false 7036874417766400 (-47)).
    apply zero_or_nan_below.
    rewrite FloatAxioms.div_spec. apply zero_or_nan_div.
    rewrite !FloatAxioms.add_spec, !FloatAxioms.mul_spec.
    change (Prim2SF 0) with (S754_zero false).
    repeat apply zero_or_nan_add; apply zero_times.
  - intros w1 w2 w3 w4 w5 -> Hw Hc.
    destruct (slider_values_steps w1 w2 w3 w4 w5 Hw)
      as (k1 & k2 & k3 & k4 & k5 & Hk & -> & -> & -> & -> & ->).
    assert (Hr : Forall Double.percent [100; 100; 100; 100; 100]%Z)
      by (repeat (constructor; [unfold Double.percent; lia|]); constructor).
    destruct (weighted_sum_range 100 100 100 100 100 k1 k2 k3 k4 k5 Hr Hk)
      as [HN HT].
    cbv zeta in HN, HT.
    assert (Hpos : (0 < k1 + k2 + k3 + k4 + k5)%Z).
    { destruct (Z.eq_dec (k1 + k2 + k3 + k4 + k5)%Z 0%Z) as [E|E]; [|lia].
      exfalso. rewrite (total_value 100 100 100 100 100 k1 k2 k3 k4 k5 Hr Hk) in Hz.
      cbv zeta in Hz. rewrite E in Hz. vm_compute in Hz. discriminate Hz. }
    destruct (score_value 100 100 100 100 100 k1 k2 k3 k4 k5 Hr Hk c Hc Hpos)
      as (S1 & _).
    cbv zeta in S1.
    destruct (quotient_facts (k1 + k2 + k3 + k4 + k5)%Z
                (100 * k1 + 100 * k2 + 100 * k3 + 100 * k4 + 100 * k5)%Z
                ltac:(lia) ltac:(lia)) as (_ & _ & _ & Htop & _).
    cbv zeta in Htop.
    assert (Hs : s = 100%float).
    { subst s c'. rewrite S1. apply Htop. ring. }
    split; [exact Hs|]. rewrite Hlabel, Hs. reflexivity.
Qed.

Lemma fitLabel_is_threshold_classification_witness :
  Double.fitLabel
    (Double.calculateFinalScore
       (Double.candidate (Double.whole_ratings 0 0 0 0 0))
       Double.fractional_weights) = Low /\
  Double.fitLabel
    (Double.calculateFinalScore
       (Double.candidate (Double.whole_ratings 100 100 100 100 100))
       (Double.whole_weights 35 30 15 10 10)) = High.
Proof.
  split.
  - refine (proj1 (proj2 (proj2 (proj2 (proj2
      (fitLabel_is_threshold_classification
         (Double.candidate (Double.whole_ratings 0 0 0 0 0))
         Double.fractional_weights _))))) _); reflexivity.
  - refine (proj2 (proj2 (proj2 (proj2 (proj2 (proj2
      (fitLabel_is_threshold_classification
         (Double.candidate (Double.whole_ratings 100 100 100 100 100))
         (Double.whole_weights 35 30 15 10 10) _)))))
      35 30 15 10 10 _ _ _)%Z); try reflexivity.
    constructor; [exists 7%Z; lia|]. constructor; [exists 6%Z; lia|].
    constructor; [exists 3%Z; lia|]. constructor; [exists 2%Z; lia|].
    constructor; [exists 2%Z; lia|]. constructor.
Defined.

(** C3 as stated fails on doubles: under five weights of 1e308 both sums
    overflow to infinity, the score of a candidate with all ratings 100 is
    not a number, and the label is [Low]. *)
Lemma overflow_labels_low_counterexample :
  let w := Double.ScoringWeights.mk Double.huge Double.huge Double.huge
                                    Double.huge Double.huge in
  let c' := Double.calculateFinalScore
              (Double.candidate (Double.whole_ratings 100 100 100 100 100)) w in
  (0 <? Double.reduce_sum (Double.Object_values w))%float = true /\
  (Double.finalScore c' =? Double.finalScore c')%float = false /\
  Double.fitLabel c' = Low.
Proof. cbv zeta. repeat split; vm_compute; reflexivity. Qed.




(** ** The analysis call *)

Section AnalyzeCandidate.
Variable ai : Collaborator.
Variables jdBase64 cvBase64 : option string.
Variables jdMimeType cvMimeType : string.

Lemma analyzeCandidate_total :
  analyzeCandidate ai jdBase64 jdMimeType cvBase64 cvMimeType =
  match analyzeCandidate_try ai jdBase64 jdMimeType cvBase64 cvMimeType with
  | Ok data => Ok data
  | Throw _ => Ok (Shaped placeholder)
  end.
Proof. reflexivity. Qed.

Lemma failure_throws :
  collaborator_fails ai jdBase64 jdMimeType cvBase64 cvMimeType ->
  exists e,
    analyzeCandidate_try ai jdBase64 jdMimeType cvBase64 cvMimeType = Throw e.
Proof.
  unfold analyzeCandidate_try.
  intros [Hk | k e Hk Ht Hg | k t Hk Ht Hg Hn | k t e Hk Ht Hg Hn Hp].
  - destruct (API_KEY ai) as [k|]; [|eexists; reflexivity].
    rewrite Hk. eexists; reflexivity.
  - rewrite Hk, Ht. cbn -[truthy]. rewrite Hg. eexists; reflexivity.
  - rewrite Hk, Ht. cbn -[truthy]. rewrite Hg. cbn -[truthy].
    destruct t as [t|]; [|eexists; reflexivity].
    rewrite Hn. eexists; reflexivity.
  - rewrite Hk, Ht. cbn -[truthy]. rewrite Hg. cbn -[truthy]. rewrite Hn. cbn -[truthy]. rewrite Hp.
    eexists; reflexivity.
Qed.
End AnalyzeCandidate.

(** C5. [analyzeCandidate] returns a record for every input and every
    behaviour of the collaborator; when the key is missing, the request
    rejects, the response has no text or the text does not parse, the record
    is the placeholder, whose five ratings are 0 and whose summary,
    weaknesses and reasoning explain the failure. *)
Theorem analyzeCandidate_never_throws
    (ai : Collaborator) (jdBase64 : option string) (jdMimeType : string)
    (cvBase64 : option string) (cvMimeType : string) :
  (exists r,
     analyzeCandidate ai jdBase64 jdMimeType cvBase64 cvMimeType = Ok r /\
     (collaborator_fails ai jdBase64 jdMimeType cvBase64 cvMimeType ->
      r = placeholder)) /\
  ratings placeholder = Ratings.mk 0 0 0 0 0 /\
  experienceSummary placeholder <> "" /\
  weaknesses placeholder <> [] /\
  reasoning placeholder <> "".
Proof.
  split.
  - rewrite analyzeCandidate_total.
    destruct (analyzeCandidate_try _ _ _ _ _) as [data|e] eqn:E.
    + exists data. split; [reflexivity|].
      intros Hf. apply failure_throws in Hf as [e He]. congruence.
    + exists (Shaped placeholder). split; reflexivity.
  - repeat split; discriminate.
Qed.

(** ** State updates and their effects *)

Lemma calculateFinalScore_idempotent (c : CandidateAnalysis) (w : ScoringWeights.t) :
  calculateFinalScore (calculateFinalScore c w) w = calculateFinalScore c w.
Proof.
  unfold calculateFinalScore.
  destruct (Qeq_bool (reduce_sum (Object_values w)) 0) eqn:E; rewrite ?E; reflexivity.
Qed.

Section Effects.
Variable shortest_decimal : Q -> string.

Lemma effect_save_results_fields (st : AppState) :
  jdFile (effect_save_results st) = jdFile st /\
  cvFiles (effect_save_results st) = cvFiles st /\
  weights (effect_save_results st) = weights st /\
  isProcessing (effect_save_results st) = isProcessing st /\
  results (effect_save_results st) = results st /\
  currentProcessingIndex (effect_save_results st) = currentProcessingIndex st.
Proof. unfold effect_save_results. case_ifs; repeat split. Qed.

Lemma effect_recalculate_fields (st : AppState) :
  jdFile (effect_recalculate shortest_decimal st) = jdFile st /\
  cvFiles (effect_recalculate shortest_decimal st) = cvFiles st /\
  weights (effect_recalculate shortest_decimal st) = weights st /\
  isProcessing (effect_recalculate shortest_decimal st) = isProcessing st /\
  currentProcessingIndex (effect_recalculate shortest_decimal st) =
  currentProcessingIndex st.
Proof.
  unfold effect_recalculate, effect_save_results. cbn [results with_results].
  case_ifs; repeat split.
Qed.

Lemma setResults_fields (v : list CandidateAnalysis) (st : AppState) :
  jdFile (setResults shortest_decimal v st) = jdFile st /\
  cvFiles (setResults shortest_decimal v st) = cvFiles st /\
  weights (setResults shortest_decimal v st) = weights st /\
  isProcessing (setResults shortest_decimal v st) = isProcessing st /\
  currentProcessingIndex (setResults shortest_decimal v st) =
  currentProcessingIndex st.
Proof.
  unfold setResults.
  destruct (effect_save_results_fields (with_results v st)) as (H1 & H2 & H3 & H4 & _ & H6).
  cbn [jdFile cvFiles weights isProcessing currentProcessingIndex with_results] in *.
  destruct (length v =? length (results st))%nat.
  - repeat split; assumption.
  - destruct (effect_recalculate_fields (effect_save_results (with_results v st)))
      as (G1 & G2 & G3 & G4 & G5).
    repeat split; congruence.
Qed.

(** The recomputation leaves a list alone whose entries already carry the
    score of the current weights. *)
Lemma effect_recalculate_fixed (st : AppState) :
  map (fun r => calculateFinalScore r (weights st)) (results st) = results st ->
  effect_recalculate shortest_decimal st = st.
Proof.
  intros Hfix. unfold effect_recalculate. rewrite Hfix.
  rewrite String.eqb_refl. cbn [negb]. now case_ifs.
Qed.

Lemma setResults_results (v : list CandidateAnalysis) (st : AppState) :
  map (fun r => calculateFinalScore r (weights st)) v = v ->
  results (setResults shortest_decimal v st) = v.
Proof.
  intros Hfix. unfold setResults.
  destruct (effect_save_results_fields (with_results v st)) as (_ & _ & H3 & _ & H5 & _).
  destruct (length v =? length (results st))%nat; [exact H5|].
  rewrite effect_recalculate_fixed; [exact H5|].
  rewrite H3, H5. exact Hfix.
Qed.

Lemma nonempty_length (A : Type) (l : list A) :
  l <> [] -> (0 <? length l)%nat = true.
Proof. destruct l; [congruence|reflexivity]. Qed.

Lemma effect_save_results_saved (st : AppState) :
  results_saved (effect_save_results st).
Proof.
  unfold results_saved, effect_save_results.
  destruct (0 <? length (results st))%nat eqn:E.
  - cbn. intros _. apply lookup_insert_eq.
  - intros Hne. apply nonempty_length in Hne. congruence.
Qed.

Lemma effect_recalculate_saved (st : AppState) :
  results_saved st -> results_saved (effect_recalculate shortest_decimal st).
Proof.
  intros Hs. unfold effect_recalculate.
  destruct (0 <? length (results st))%nat; [|exact Hs].
  destruct (negb _); [|exact Hs].
  apply effect_save_results_saved.
Qed.

(** After [setResults] a non-empty result list is the stored one. *)
Lemma setResults_saved (v : list CandidateAnalysis) (st : AppState) :
  results_saved (setResults shortest_decimal v st).
Proof.
  unfold setResults.
  destruct (length v =? length (results st))%nat.
  - apply effect_save_results_saved.
  - apply effect_recalculate_saved, effect_save_results_saved.
Qed.
Lemma effect_save_results_other (st : AppState) (k : string) :
  k <> results_key ->
  localStorage (effect_save_results st) !! k = localStorage st !! k.
Proof.
  intros Hk. unfold effect_save_results.
  destruct (0 <? length (results st))%nat; [|reflexivity].
  cbn. now rewrite lookup_insert_ne.
Qed.

Lemma effect_recalculate_other (st : AppState) (k : string) :
  k <> results_key ->
  localStorage (effect_recalculate shortest_decimal st) !! k = localStorage st !! k.
Proof.
  intros Hk. unfold effect_recalculate.
  destruct (0 <? length (results st))%nat; [|reflexivity].
  destruct (negb _); [|reflexivity].
  now rewrite effect_save_results_other.
Qed.

Lemma setResults_other (v : list CandidateAnalysis) (st : AppState) (k : string) :
  k <> results_key ->
  localStorage (setResults shortest_decimal v st) !! k = localStorage st !! k.
Proof.
  intros Hk. unfold setResults.
  destruct (length v =? length (results st))%nat.
  - now rewrite effect_save_results_other.
  - rewrite effect_recalculate_other by exact Hk.
    now rewrite effect_save_results_other.
Qed.
End Effects.

(** ** The batch loop *)

Section UpdateByIndex.
Context {A : Type}.
Variable g : A -> A.
Variable n : nat.

Let upd : A -> nat -> A := fun f idx => if (idx =? n)%nat then g f else f.

Lemma map_index_past (l : list A) (k : nat) :
  (n < k)%nat -> map_index_from upd k l = l.
Proof.
  revert k. induction l as [|x l IH]; intros k Hk; [reflexivity|].
  cbn. unfold upd at 1.
  destruct (Nat.eqb_spec k n); [lia|]. f_equal. apply IH. lia.
Qed.

Lemma map_index_at (done : list A) (x : A) (tl : list A) (k : nat) :
  (k + length done = n)%nat ->
  map_index_from upd k (done ++ x :: tl) = done ++ g x :: tl.
Proof.
  revert k. induction done as [|d done IH]; intros k Hk; cbn in *.
  - unfold upd at 1. destruct (Nat.eqb_spec k n); [|lia].
    f_equal. apply map_index_past. lia.
  - unfold upd at 1. destruct (Nat.eqb_spec k n); [lia|].
    f_equal. apply IH. lia.
Qed.
End UpdateByIndex.

Lemma update_file_at (i : nat) (g : ProcessingFile.t -> ProcessingFile.t)
    (st : AppState) (done : list ProcessingFile.t) (x : ProcessingFile.t)
    (tl : list ProcessingFile.t) :
  length done = i -> cvFiles st = done ++ x :: tl ->
  cvFiles (update_file i g st) = done ++ g x :: tl.
Proof.
  intros Hl Hc. unfold update_file, Array_map_index. cbn [cvFiles with_cvFiles].
  rewrite Hc. apply map_index_at. lia.
Qed.

(** What one file adds to the result list. *)
Lemma appended_one (ai : Collaborator) (w : ScoringWeights.t)
    (jdBase64 : option string) (jdMime : string) (cv : ProcessingFile.t) :
  appended ai w jdBase64 jdMime [cv] =
  match analyse_file ai w jdBase64 jdMime cv with
  | Ok c => [c]
  | Throw _ => []
  end.
Proof. cbn. now destruct (analyse_file _ _ _ _ _). Qed.

Lemma appended_app (ai : Collaborator) (w : ScoringWeights.t)
    (jdBase64 : option string) (jdMime : string) (l1 l2 : list ProcessingFile.t) :
  appended ai w jdBase64 jdMime (l1 ++ l2) =
  appended ai w jdBase64 jdMime l1 ++ appended ai w jdBase64 jdMime l2.
Proof.
  induction l1 as [|cv l1 IH]; [reflexivity|].
  cbn. destruct (analyse_file _ _ _ _ _); cbn; now rewrite IH.
Qed.

(** Every record the loop appends carries the score of the run's weights. *)
Lemma analyse_file_scored (ai : Collaborator) (w : ScoringWeights.t)
    (jdBase64 : option string) (jdMime : string) (cv : ProcessingFile.t)
    (c : CandidateAnalysis) :
  analyse_file ai w jdBase64 jdMime cv = Ok c ->
  calculateFinalScore c w = c /\ id c = ProcessingFile.id cv.
Proof.
  unfold analyse_file. destruct (fileToBase64 _) as [b|e]; cbn; [|discriminate].
  destruct (analyzeCandidate _ _ _ _ _) as [[r|]|e];
    cbn [mbind result_bind score_reply]; [| |discriminate].
  - intros [= <-]. split; [apply calculateFinalScore_idempotent|].
    unfold calculateFinalScore. now case_ifs.
  - destruct (Qeq_bool (reduce_sum (Object_values w)) 0) eqn:E; [|discriminate].
    intros [= <-]. split; [|reflexivity].
    unfold calculateFinalScore. now rewrite E.
Qed.

Section Loop.
Variable shortest_decimal : Q -> string.
Variable ai : Collaborator.
Variable w : ScoringWeights.t.
Variable jdBase64 : option string.
Variable jdMime : string.

Lemma loop_body_step (st : AppState) (i : nat) (cv : ProcessingFile.t)
    (done tl : list ProcessingFile.t) :
  length done = i -> cvFiles st = done ++ cv :: tl ->
  weights st = w -> scored_with w (results st) ->
  let st' := loop_body shortest_decimal ai w jdBase64 jdMime st (i, cv) in
  cvFiles st' = done ++ processed ai w jdBase64 jdMime cv :: tl /\
  results st' = results st ++ appended ai w jdBase64 jdMime [cv] /\
  weights st' = w /\ jdFile st' = jdFile st /\ isProcessing st' = isProcessing st /\
  scored_with w (results st') /\
  (results_saved st -> results_saved st') /\
  (forall k, k <> results_key -> localStorage st' !! k = localStorage st !! k).
Proof.
  intros Hl Hc Hw Hs. rewrite appended_one. unfold processed.
  cbn [loop_body].
  set (st1 := update_file i _ (with_currentProcessingIndex _ st)).
  assert (Hc1 : cvFiles st1 =
                done ++ ProcessingFile.with_status Status.processing cv :: tl)
    by (apply update_file_at; [exact Hl|exact Hc]).
  destruct (analyse_file ai w jdBase64 jdMime cv) as [c|e] eqn:E.
  - destruct (analyse_file_scored _ _ _ _ _ _ E) as [Hcw _].
    assert (Hfix : scored_with w (results st1 ++ [c])).
    { unfold scored_with. rewrite map_app. cbn. rewrite Hcw. f_equal. exact Hs. }
    destruct (setResults_fields shortest_decimal (results st1 ++ [c]) st1)
      as (F1 & F2 & F3 & F4 & F5).
    pose proof (setResults_results shortest_decimal (results st1 ++ [c]) st1) as Hr.
    cbn [weights st1 update_file with_cvFiles with_currentProcessingIndex] in Hr.
    rewrite Hw in Hr. specialize (Hr Hfix).
    split; [|split; [|split; [|split; [|split; [|split; [|split]]]]]].
    + apply update_file_at; [exact Hl|]. rewrite F2. exact Hc1.
    + cbn [results update_file with_cvFiles]. exact Hr.
    + cbn [weights update_file with_cvFiles]. rewrite F3. exact Hw.
    + cbn [jdFile update_file with_cvFiles]. rewrite F1. reflexivity.
    + cbn [isProcessing update_file with_cvFiles]. rewrite F4. reflexivity.
    + cbn [results update_file with_cvFiles]. rewrite Hr. exact Hfix.
    + intros _. unfold results_saved.
      cbn [results localStorage update_file with_cvFiles].
      apply setResults_saved.
    + intros k Hk. cbn [localStorage update_file with_cvFiles].
      now rewrite setResults_other.
  - split; [|split; [|split; [|split; [|split; [|split; [|split]]]]]].
    + apply update_file_at; [exact Hl|exact Hc1].
    + cbn. now rewrite app_nil_r.
    + exact Hw.
    + reflexivity.
    + reflexivity.
    + exact Hs.
    + intros H; exact H.
    + reflexivity.
Qed.
End Loop.

Section Batch.
Variable shortest_decimal : Q -> string.
Variable ai : Collaborator.
Variable w : ScoringWeights.t.
Variable jdBase64 : option string.
Variable jdMime : string.

Let body := loop_body shortest_decimal ai w jdBase64 jdMime.
Let pair_index : ProcessingFile.t -> nat -> nat * ProcessingFile.t :=
  fun x i => (i, x).

Lemma loop_from (files : list ProcessingFile.t) :
  forall (st : AppState) (n : nat) (done rest : list ProcessingFile.t),
    length done = n -> cvFiles st = done ++ files ++ rest ->
    weights st = w -> scored_with w (results st) ->
    let st' := fold_left body (map_index_from pair_index n files) st in
    cvFiles st' = done ++ map (processed ai w jdBase64 jdMime) files ++ rest /\
    results st' = results st ++ appended ai w jdBase64 jdMime files /\
    weights st' = w /\ jdFile st' = jdFile st /\
    isProcessing st' = isProcessing st /\
    scored_with w (results st') /\
    (results_saved st -> results_saved st') /\
    (forall k, k <> results_key -> localStorage st' !! k = localStorage st !! k).
Proof.
  induction files as [|cv files IH]; intros st n done rest Hl Hc Hw Hs.
  - cbn. rewrite app_nil_r. repeat split; auto.
  - cbn [map_index_from fold_left map].
    destruct (loop_body_step shortest_decimal ai w jdBase64 jdMime
                st n cv done (files ++ rest) Hl Hc Hw Hs)
      as (S1 & S2 & S3 & S4 & S5 & S6 & S7 & S8).
    fold body in S1, S2, S3, S4, S5, S6, S7, S8.
    change (pair_index cv n) with (n, cv).
    set (st1 := body st (n, cv)) in *.
    destruct (IH st1 (S n) (done ++ [processed ai w jdBase64 jdMime cv]) rest)
      as (T1 & T2 & T3 & T4 & T5 & T6 & T7 & T8).
    + rewrite length_app. cbn. lia.
    + rewrite S1, <- app_assoc. reflexivity.
    + exact S3.
    + exact S6.
    + cbn zeta in *.
      split; [rewrite T1, <- app_assoc; reflexivity|].
      split.
      { rewrite T2, S2, <- app_assoc, <- appended_app. reflexivity. }
      split; [exact T3|]. split; [congruence|]. split; [congruence|].
      split; [exact T6|]. split; [auto|].
      intros k Hk. rewrite T8, S8 by exact Hk. reflexivity.
Qed.

Lemma firstn_map_index_from (files : list ProcessingFile.t) (k n : nat) :
  firstn k (map_index_from pair_index n files) =
  map_index_from pair_index n (firstn k files).
Proof.
  revert k n. induction files as [|cv files IH]; intros [|k] n; cbn; try reflexivity.
  f_equal. apply IH.
Qed.

(** The state after [k] iterations, started on the captured list. *)
Lemma loop_prefix_spec (st : AppState) (k : nat) :
  weights st = w -> scored_with w (results st) ->
  let files := cvFiles st in
  let st' := loop_prefix shortest_decimal ai w jdBase64 jdMime files k st in
  cvFiles st' =
    map (processed ai w jdBase64 jdMime) (firstn k files) ++ skipn k files /\
  results st' = results st ++ appended ai w jdBase64 jdMime (firstn k files) /\
  weights st' = w /\ jdFile st' = jdFile st /\
  isProcessing st' = isProcessing st /\
  (results_saved st -> results_saved st') /\
  (forall i, i <> results_key -> localStorage st' !! i = localStorage st !! i).
Proof.
  intros Hw Hs files st'. subst st'. unfold loop_prefix, indexed, Array_map_index.
  fold pair_index. fold body. rewrite firstn_map_index_from.
  destruct (loop_from (firstn k files) st 0 [] (skipn k files))
    as (T1 & T2 & T3 & T4 & T5 & T6 & T7 & T8); auto.
  - cbn. subst files. now rewrite firstn_skipn.
  - cbn in T1. repeat split; auto.
Qed.
End Batch.

Section StartAnalysis.
Variable shortest_decimal : Q -> string.
Variable ai : Collaborator.

Lemma run_start_spec (st : AppState) :
  results (run_start shortest_decimal st) = [] /\
  cvFiles (run_start shortest_decimal st) = cvFiles st /\
  weights (run_start shortest_decimal st) = weights st /\
  jdFile (run_start shortest_decimal st) = jdFile st /\
  results_saved (run_start shortest_decimal st) /\
  (forall k, k <> results_key ->
     localStorage (run_start shortest_decimal st) !! k = localStorage st !! k).
Proof.
  unfold run_start.
  destruct (setResults_fields shortest_decimal [] (with_isProcessing true st))
    as (F1 & F2 & F3 & _).
  split; [now apply setResults_results|].
  split; [exact F2|]. split; [exact F3|]. split; [exact F1|].
  split; [apply setResults_saved|].
  intros k Hk. now rewrite setResults_other.
Qed.

(** [startAnalysis] past its guard: the reset, the loop over the captured
    files, and the [finally] block. *)
Lemma startAnalysis_run (st : AppState) (jd : File.t) :
  jdFile st = Some jd -> cvFiles st <> [] ->
  startAnalysis shortest_decimal ai st =
  with_currentProcessingIndex (-1)
    (with_isProcessing false
       match fileToBase64 jd with
       | Ok jdBase64 =>
           loop_prefix shortest_decimal ai (weights st) jdBase64 (mime_of jd)
                       (cvFiles st) (length (cvFiles st))
                       (run_start shortest_decimal st)
       | Throw _ => run_start shortest_decimal st
       end).
Proof.
  intros Hjd Hne. unfold startAnalysis. rewrite Hjd.
  destruct (cvFiles st) as [|f fs] eqn:E; [congruence|]. reflexivity.
Qed.

Lemma loop_prefix_run (st : AppState) (jdBase64 : option string)
    (jdMime : string) (k : nat) :
  let files := cvFiles st in
  let w := weights st in
  let st' := loop_prefix shortest_decimal ai w jdBase64 jdMime files k
                         (run_start shortest_decimal st) in
  cvFiles st' =
    map (processed ai w jdBase64 jdMime) (firstn k files) ++ skipn k files /\
  results st' = appended ai w jdBase64 jdMime (firstn k files) /\
  results_saved st' /\
  (forall i, i <> results_key -> localStorage st' !! i = localStorage st !! i).
Proof.
  intros files w st'. subst st' files w.
  destruct (run_start_spec st) as (R1 & R2 & R3 & R4 & R5 & R6).
  pose proof (loop_prefix_spec shortest_decimal ai (weights st) jdBase64 jdMime
                (run_start shortest_decimal st) k R3) as H.
  rewrite R1, R2 in H. cbn zeta in H.
  destruct (H eq_refl) as (T1 & T2 & _ & _ & _ & T6 & T7).
  split; [exact T1|]. split; [exact T2|]. split; [auto|].
  intros i Hi. rewrite T7, R6 by exact Hi. reflexivity.
Qed.
End StartAnalysis.

(** Without a job description or without files the guard returns at once:
    nothing is reset and no file is processed. *)
Lemma startAnalysis_guard (shortest_decimal : Q -> string) (ai : Collaborator)
    (st : AppState) :
  jdFile st = None \/ cvFiles st = [] ->
  startAnalysis shortest_decimal ai st = st.
Proof.
  unfold startAnalysis. intros [H|H]; rewrite H; [reflexivity|].
  now destruct (jdFile st).
Qed.

(** ** Which files fail *)

Section Outcomes.
Variable ai : Collaborator.
Variable w : ScoringWeights.t.
Variable jdBase64 : option string.
Variable jdMime : string.

(** The [try] block of the loop throws exactly in the cases of [throws]. *)
Lemma analyse_file_outcome (cv : ProcessingFile.t) :
  if throws ai w jdBase64 jdMime cv
  then exists e, analyse_file ai w jdBase64 jdMime cv = Throw e
  else exists c, analyse_file ai w jdBase64 jdMime cv = Ok c.
Proof.
  unfold throws, analyse_file.
  destruct (fileToBase64 (ProcessingFile.file cv)) as [b|e];
    cbn [mbind result_bind]; [|eexists; reflexivity].
  rewrite analyzeCandidate_total.
  destruct (analyzeCandidate_try _ _ _ _ _) as [[r|]|e];
    cbn [mbind result_bind score_reply]; try (eexists; reflexivity).
  destruct (Qeq_bool (reduce_sum (Object_values w)) 0); cbn [negb];
    eexists; reflexivity.
Qed.

Lemma throws_spec (cv : ProcessingFile.t) :
  throws ai w jdBase64 jdMime cv = true <-> try_block_throws ai w jdBase64 jdMime cv.
Proof.
  unfold throws. split.
  - destruct (fileToBase64 (ProcessingFile.file cv)) as [b|e] eqn:Hb.
    + destruct (analyzeCandidate _ _ _ _ _) as [[r|]|e] eqn:Ha; try discriminate.
      intros Hz. apply (cannot_be_scored ai w jdBase64 jdMime cv b Hb Ha).
      now apply negb_true_iff.
    + intros _. apply cannot_be_read. unfold readable.
      unfold fileToBase64 in Hb.
      now destruct (File.readAsDataURL (ProcessingFile.file cv)).
  - intros [Hr | b Hb Ha Hz].
    + unfold readable in Hr. unfold fileToBase64.
      now destruct (File.readAsDataURL (ProcessingFile.file cv)).
    + rewrite Hb, Ha, Hz. reflexivity.
Qed.

Lemma processed_status (cv : ProcessingFile.t) :
  ProcessingFile.status (processed ai w jdBase64 jdMime cv) =
  status_after ai w jdBase64 jdMime cv.
Proof.
  unfold processed, status_after. pose proof (analyse_file_outcome cv) as H.
  destruct (throws ai w jdBase64 jdMime cv); destruct H as [x ->]; reflexivity.
Qed.

Lemma processed_error (cv : ProcessingFile.t) :
  ProcessingFile.status (processed ai w jdBase64 jdMime cv) = Status.error ->
  ProcessingFile.error (processed ai w jdBase64 jdMime cv) = Some "Failed to analyze".
Proof.
  unfold processed. destruct (analyse_file _ _ _ _ _); cbn; [discriminate|reflexivity].
Qed.

Lemma appended_ids (files : list ProcessingFile.t) :
  map id (appended ai w jdBase64 jdMime files) =
  map ProcessingFile.id
      (List.filter (fun cv => negb (throws ai w jdBase64 jdMime cv)) files).
Proof.
  induction files as [|cv files IH]; [reflexivity|].
  cbn. pose proof (analyse_file_outcome cv) as H.
  destruct (throws ai w jdBase64 jdMime cv); destruct H as [x Hx]; rewrite Hx;
    [exact IH|].
  cbn. rewrite IH. f_equal.
  now destruct (analyse_file_scored _ _ _ _ _ _ Hx).
Qed.

Lemma appended_In (files : list ProcessingFile.t) (cv : ProcessingFile.t)
    (c : CandidateAnalysis) :
  In cv files -> analyse_file ai w jdBase64 jdMime cv = Ok c ->
  In c (appended ai w jdBase64 jdMime files).
Proof.
  intros Hin Hc. induction files as [|x files IH]; [destruct Hin|].
  cbn [appended]. destruct Hin as [->|Hin].
  - rewrite Hc. now left.
  - destruct (analyse_file ai w jdBase64 jdMime x); [right|]; auto.
Qed.

(** A failed analysis call of a readable file yields the scored
    placeholder. *)
Lemma analyse_file_placeholder (cv : ProcessingFile.t) (b : option string) :
  fileToBase64 (ProcessingFile.file cv) = Ok b ->
  collaborator_fails ai jdBase64 jdMime b (mime_of (ProcessingFile.file cv)) ->
  analyse_file ai w jdBase64 jdMime cv =
  Ok (calculateFinalScore
        {| raw := placeholder; id := ProcessingFile.id cv;
           finalScore := 0; fitLabel := Low |} w).
Proof.
  intros Hb Hf. unfold analyse_file. rewrite Hb. cbn [mbind result_bind].
  rewrite analyzeCandidate_total.
  apply failure_throws in Hf as [e ->]. reflexivity.
Qed.

(** What the [try] block appends is the contribution of the file. *)
Lemma analyse_file_contribution (cv : ProcessingFile.t) :
  contribution ai w jdBase64 jdMime cv =
  match analyse_file ai w jdBase64 jdMime cv with
  | Ok c => [c]
  | Throw _ => []
  end.
Proof.
  unfold contribution, analyse_file.
  destruct (fileToBase64 (ProcessingFile.file cv)) as [b|e];
    cbn [mbind result_bind]; [|reflexivity].
  rewrite analyzeCandidate_total.
  destruct (analyzeCandidate_try _ _ _ _ _) as [[r|]|e];
    cbn [mbind result_bind score_reply]; try reflexivity.
  now destruct (Qeq_bool (reduce_sum (Object_values w)) 0).
Qed.

Lemma appended_run_records (files : list ProcessingFile.t) :
  appended ai w jdBase64 jdMime files = run_records ai w jdBase64 jdMime files.
Proof.
  unfold run_records. induction files as [|cv files IH]; [reflexivity|].
  cbn [appended map concat]. rewrite analyse_file_contribution, <- IH.
  now destruct (analyse_file ai w jdBase64 jdMime cv).
Qed.
End Outcomes.



(** A reply without ratings fails its file like an unreadable file does:
    the scoring throws inside the [try] block of the loop. *)
Example startAnalysis_unshaped_reply :
  let st' := startAnalysis sample_decimal sample_ai
               (sample_state second_unshaped [] ∅) in
  map ProcessingFile.status (cvFiles st') =
    [Status.completed; Status.error; Status.completed] /\
  map id (results st') = ["f1"; "f3"].
Proof. split; vm_compute; reflexivity. Qed.


(** ** The result list during a run *)

Lemma last_app_default {A : Type} (l l' : list A) (d : A) :
  List.last (l ++ l') d = List.last l' (List.last l d).
Proof.
  induction l as [|x l IH]; [reflexivity|].
  destruct l as [|y l].
  - cbn. destruct l'; [reflexivity|]. clear IH.
    revert a. induction l' as [|z l' IH']; intros a; [reflexivity|].
    cbn in *. apply (IH' z).
  - change (List.last ((y :: l) ++ l') d = List.last l' (List.last (y :: l) d)).
    exact IH.
Qed.

Lemma indexed_length {A : Type} (l : list A) : length (indexed l) = length l.
Proof.
  unfold indexed, Array_map_index. generalize 0%nat.
  induction l as [|x l IH]; intros n; [reflexivity|].
  cbn. now rewrite IH.
Qed.

Section Trace.
Variable shortest_decimal : Q -> string.
Variable ai : Collaborator.
Variable w : ScoringWeights.t.
Variable jdBase64 : option string.
Variable jdMime : string.

Let body := loop_body shortest_decimal ai w jdBase64 jdMime.
Let pair_index : ProcessingFile.t -> nat -> nat * ProcessingFile.t :=
  fun x i => (i, x).

(** Between two setter calls of one iteration the list is what it was
    before the iteration or has the record of the iteration's file at its
    end, and the last of these states is the state after the iteration. *)
Lemma loop_body_states_spec (st : AppState) (i : nat) (cv : ProcessingFile.t) :
  weights st = w -> scored_with w (results st) ->
  Forall (fun s => results s = results st \/
                   results s = results st ++ appended ai w jdBase64 jdMime [cv])
         (loop_body_states shortest_decimal ai w jdBase64 jdMime st (i, cv)) /\
  List.last (loop_body_states shortest_decimal ai w jdBase64 jdMime st (i, cv)) st =
  body st (i, cv).
Proof.
  intros Hw Hs. rewrite appended_one. subst body.
  cbn [loop_body_states loop_body].
  set (st1 := update_file i _ (with_currentProcessingIndex _ st)).
  destruct (analyse_file ai w jdBase64 jdMime cv) as [c|e] eqn:E.
  - destruct (analyse_file_scored _ _ _ _ _ _ E) as [Hcw _].
    assert (Hfix : scored_with w (results st1 ++ [c])).
    { unfold scored_with. rewrite map_app. cbn. rewrite Hcw. f_equal. exact Hs. }
    pose proof (setResults_results shortest_decimal (results st1 ++ [c]) st1) as Hr.
    cbn [weights st1 update_file with_cvFiles with_currentProcessingIndex] in Hr.
    rewrite Hw in Hr. specialize (Hr Hfix).
    cbn [results st1 update_file with_cvFiles with_currentProcessingIndex] in Hr.
    split; [|reflexivity].
    constructor; [left; reflexivity|]. constructor; [left; reflexivity|].
    constructor; [right; exact Hr|]. constructor; [right; exact Hr|].
    constructor.
  - split; [|reflexivity].
    cbn [app]. rewrite app_nil_r.
    repeat (constructor; [left; reflexivity|]). constructor.
Qed.

Lemma loop_states_from (files : list ProcessingFile.t) :
  forall (st : AppState) (n : nat) (done rest : list ProcessingFile.t),
    length done = n -> cvFiles st = done ++ files ++ rest ->
    weights st = w -> scored_with w (results st) ->
    Forall (fun s => exists k,
              results s = results st ++ appended ai w jdBase64 jdMime (firstn k files))
           (loop_states shortest_decimal ai w jdBase64 jdMime
                        (map_index_from pair_index n files) st) /\
    List.last (loop_states shortest_decimal ai w jdBase64 jdMime
                           (map_index_from pair_index n files) st) st =
    fold_left body (map_index_from pair_index n files) st.
Proof.
  induction files as [|cv files IH]; intros st n done rest Hl Hc Hw Hs.
  - split; [constructor|reflexivity].
  - cbn [map_index_from loop_states fold_left].
    change (pair_index cv n) with (n, cv).
    destruct (loop_body_states_spec st n cv Hw Hs) as [B1 B2].
    destruct (loop_body_step shortest_decimal ai w jdBase64 jdMime
                st n cv done (files ++ rest) Hl Hc Hw Hs)
      as (S1 & S2 & S3 & _ & _ & S6 & _).
    fold body in S1, S2, S3, S6.
    destruct (IH (body st (n, cv)) (S n)
                 (done ++ [processed ai w jdBase64 jdMime cv]) rest)
      as [T1 T2].
    + rewrite length_app. cbn. lia.
    + rewrite S1, <- app_assoc. reflexivity.
    + exact S3.
    + exact S6.
    + split.
      * apply Forall_app. split.
        -- eapply List.Forall_impl; [|exact B1]. intros s [H|H].
           ++ exists 0%nat. cbn. now rewrite app_nil_r.
           ++ exists 1%nat. cbn [firstn]. exact H.
        -- eapply List.Forall_impl; [|exact T1]. intros s [k H].
           exists (S k). rewrite H, S2, <- app_assoc, <- appended_app.
           reflexivity.
      * rewrite last_app_default, B2. exact T2.
Qed.

(** *** Events handled while a run is pending *)

Variable during : nat -> list Event.
Hypothesis during_keeps : forall i, forallb keeps_results (during i) = true.

Lemma events_keep_results (evs : list Event) :
  forallb keeps_results evs = true ->
  forall st : AppState,
    results (fold_left (fun s ev => handle shortest_decimal ev s) evs st) =
    results st /\
    weights (fold_left (fun s ev => handle shortest_decimal ev s) evs st) =
    weights st.
Proof.
  induction evs as [|ev evs IH]; intros H st; [split; reflexivity|].
  cbn [forallb] in H. apply andb_true_iff in H as [Hev Hevs].
  cbn [fold_left]. destruct (IH Hevs (handle shortest_decimal ev st)) as [-> ->].
  destruct ev as [?|?|files| |?|?|?|?]; try discriminate Hev; cbn [handle];
    try (split; reflexivity).
  destruct files; split; reflexivity.
Qed.

Lemma loop_body_with_results (st : AppState) (i : nat) (cv : ProcessingFile.t) :
  weights st = w -> scored_with w (results st) ->
  let st' := loop_body_with shortest_decimal ai w jdBase64 jdMime during st (i, cv) in
  results st' = results st ++ appended ai w jdBase64 jdMime [cv] /\
  weights st' = w /\ scored_with w (results st').
Proof.
  intros Hw Hs. rewrite appended_one. cbn [loop_body_with].
  set (st1 := update_file i _ (with_currentProcessingIndex _ st)).
  destruct (events_keep_results (during i) (during_keeps i) st1) as [Er Ew].
  set (st2 := fold_left _ (during i) st1) in *.
  assert (Hr2 : results st2 = results st) by (rewrite Er; reflexivity).
  assert (Hw2 : weights st2 = w) by (rewrite Ew; exact Hw).
  destruct (analyse_file ai w jdBase64 jdMime cv) as [c|e] eqn:E.
  - destruct (analyse_file_scored _ _ _ _ _ _ E) as [Hcw _].
    assert (Hfix : scored_with w (results st2 ++ [c])).
    { unfold scored_with. rewrite map_app, Hr2. cbn. rewrite Hcw. f_equal. exact Hs. }
    pose proof (setResults_results shortest_decimal (results st2 ++ [c]) st2) as Hr.
    rewrite Hw2 in Hr. specialize (Hr Hfix).
    destruct (setResults_fields shortest_decimal (results st2 ++ [c]) st2)
      as (_ & _ & F3 & _).
    cbn [results weights update_file with_cvFiles].
    rewrite Hr, F3, Hr2. split; [reflexivity|]. split; [exact Hw2|].
    rewrite <- Hr2. exact Hfix.
  - cbn [results weights update_file with_cvFiles]. rewrite app_nil_r, Hr2.
    split; [reflexivity|]. split; [exact Hw2|exact Hs].
Qed.

Lemma loop_with_from (files : list ProcessingFile.t) :
  forall (st : AppState) (n : nat),
    weights st = w -> scored_with w (results st) ->
    results (fold_left (loop_body_with shortest_decimal ai w jdBase64 jdMime during)
                       (map_index_from pair_index n files) st) =
    results st ++ appended ai w jdBase64 jdMime files.
Proof.
  induction files as [|cv files IH]; intros st n Hw Hs.
  - cbn. now rewrite app_nil_r.
  - cbn [map_index_from fold_left]. change (pair_index cv n) with (n, cv).
    destruct (loop_body_with_results st n cv Hw Hs) as (S1 & S2 & S3).
    rewrite (IH _ (S n) S2 S3), S1, <- app_assoc, <- appended_app. reflexivity.
Qed.
End Trace.

(** C9, as the code has it.  An invocation of [startAnalysis] that passes
    its guard (a job description and at least one file) first empties the
    result list.  From then on, in every state the run goes through and in
    the state it ends in, the list holds exactly the contributions of the
    first files of the current run, in upload order: for a file that was read,
    the scored reply of the analysis call or, when that call failed, the
    scored placeholder; nothing for a file whose [try] block threw.  Each
    iteration appends the contribution of its file.  The same holds after
    every iteration of a run during which files or the job description are
    added or removed. *)
Theorem startAnalysis_results_of_current_run
    (shortest_decimal : Q -> string) (ai : Collaborator)
    (st : AppState) (jd : File.t) :
  jdFile st = Some jd -> cvFiles st <> [] ->
  let files := cvFiles st in
  let w := weights st in
  let st0 := run_start shortest_decimal st in
  let states := run_states shortest_decimal ai st jd in
  results st0 = [] /\
  List.last states st0 = startAnalysis shortest_decimal ai st /\
  (forall jdBase64, fileToBase64 jd = Ok jdBase64 ->
     let records := run_records ai w jdBase64 (mime_of jd) in
     let after k := loop_prefix shortest_decimal ai w jdBase64 (mime_of jd) files k st0 in
     (forall k, results (after k) = records (firstn k files)) /\
     (forall k cv, files !! k = Some cv ->
        results (after (S k)) =
        results (after k) ++ contribution ai w jdBase64 (mime_of jd) cv) /\
     Forall (fun s => exists k, results s = records (firstn k files)) states /\
     results (startAnalysis shortest_decimal ai st) = records files /\
     (forall during : nat -> list Event,
        (forall i, forallb keeps_results (during i) = true) ->
        forall k,
          results (loop_prefix_with shortest_decimal ai w jdBase64 (mime_of jd)
                                    during files k st0) =
          records (firstn k files))) /\
  (forall e, fileToBase64 jd = Throw e ->
     Forall (fun s => results s = []) states /\
     results (startAnalysis shortest_decimal ai st) = []).
Proof.
  intros Hjd Hne files w st0 states.
  destruct (run_start_spec shortest_decimal st) as (R1 & R2 & R3 & _).
  fold st0 in R1, R2, R3.
  assert (Hscored : scored_with w (results st0)) by (rewrite R1; reflexivity).
  assert (Hrun := startAnalysis_run shortest_decimal ai st jd Hjd Hne).
  fold st0 files w in Hrun.
  split; [exact R1|].
  destruct (fileToBase64 jd) as [jdBase64|e] eqn:Hb.
  - assert (Hk : forall k,
               results (loop_prefix shortest_decimal ai w jdBase64 (mime_of jd)
                                    files k st0) =
               run_records ai w jdBase64 (mime_of jd) (firstn k files)).
    { intros k. rewrite <- appended_run_records.
      apply (loop_prefix_run shortest_decimal ai st jdBase64 (mime_of jd) k). }
    destruct (loop_states_from shortest_decimal ai w jdBase64 (mime_of jd)
                files st0 0 [] [] eq_refl) as [T1 T2].
    { cbn. rewrite app_nil_r. exact R2. }
    { exact R3. }
    { exact Hscored. }
    assert (Hall : loop_prefix shortest_decimal ai w jdBase64 (mime_of jd)
                               files (length files) st0 =
                   fold_left (loop_body shortest_decimal ai w jdBase64 (mime_of jd))
                             (indexed files) st0).
    { unfold loop_prefix. rewrite firstn_all2; [reflexivity|].
      rewrite indexed_length. lia. }
    assert (Hlast : List.last states st0 = startAnalysis shortest_decimal ai st).
    { subst states. unfold run_states. rewrite Hb. fold st0 files w.
      rewrite Hrun, Hall.
      change (st0 :: ?d ++ ?t) with ([st0] ++ d ++ t).
      rewrite !last_app_default. cbn [List.last].
      unfold indexed, Array_map_index. rewrite T2. reflexivity. }
    split; [exact Hlast|]. split; [|intros e He; discriminate He].
    intros b [= <-] records after.
    split; [exact Hk|]. split; [|split].
    + intros k cv Hcv. subst after. cbv beta. rewrite !Hk. subst records.
      unfold run_records. rewrite (take_S_r files k cv Hcv), map_app, concat_app.
      cbn [map concat]. now rewrite app_nil_r.
    + subst states. unfold run_states. rewrite Hb. fold st0 files w.
      assert (Hend : results (List.last
                (loop_states shortest_decimal ai w jdBase64 (mime_of jd)
                             (indexed files) st0) st0) =
              records (firstn (length files) files)).
      { unfold indexed, Array_map_index. rewrite T2.
        change (fold_left _ _ st0) with
          (fold_left (loop_body shortest_decimal ai w jdBase64 (mime_of jd))
                     (indexed files) st0).
        rewrite <- Hall. apply Hk. }
      constructor; [exists 0%nat; exact R1|].
      apply Forall_app. split.
      * eapply List.Forall_impl; [|exact T1]. intros s [k H]. exists k.
        rewrite H, R1. cbn [app]. apply appended_run_records.
      * repeat constructor; exists (length files);
          cbn [results with_currentProcessingIndex with_isProcessing]; exact Hend.
    + split.
      * rewrite Hrun. cbn [results with_currentProcessingIndex with_isProcessing].
        rewrite Hk, firstn_all. reflexivity.
      * intros during Hd k. unfold loop_prefix_with, indexed, Array_map_index.
        rewrite firstn_map_index_from.
        rewrite (loop_with_from shortest_decimal ai w jdBase64 (mime_of jd)
                   during Hd (firstn k files) st0 0 R3 Hscored).
        rewrite R1. cbn [app]. subst records. apply appended_run_records.
  - assert (Hlast : List.last states st0 = startAnalysis shortest_decimal ai st).
    { subst states. unfold run_states. rewrite Hb, Hrun. reflexivity. }
    split; [exact Hlast|]. split; [intros b Hb'; discriminate Hb'|].
    intros e' _. split.
    + subst states. unfold run_states. rewrite Hb. repeat constructor; exact R1.
    + rewrite Hrun. exact R1.
Qed.

Lemma startAnalysis_results_of_current_run_witness :
  results (startAnalysis sample_decimal sample_ai
             (sample_state second_unreadable [jane; rich] ∅)) =
  run_records sample_ai DEFAULT_WEIGHTS (Some "JD") "application/pdf" second_unreadable.
Proof.
  refine (proj1 (proj2 (proj2 (proj2 (proj1 (proj2 (proj2
    (startAnalysis_results_of_current_run sample_decimal sample_ai
       (sample_state second_unreadable [jane; rich] ∅) (pdf "jd.pdf" "JD") _ _)))
    (Some "JD") _))))).
  - reflexivity.
  - discriminate.
  - reflexivity.
Defined.

(** Clearing the data or exporting the report while a run is pending
    changes what the list holds at its end: the record appended before the
    clearing is gone, and the records appended before the export are in the
    order of their scores. *)
Example events_during_run :
  let st0 := run_start sample_decimal (sample_state three_readable [] ∅) in
  let names st := map (fun c => candidateName (raw c)) (results st) in
  let run during :=
    loop_prefix_with sample_decimal graded_ai DEFAULT_WEIGHTS (Some "JD")
                     "application/pdf" during three_readable 3 st0 in
  names (run (fun _ => [])) = ["LOW"; "TWO"; "THREE"] /\
  names (run (fun i => if (i =? 1)%nat then [ClearAllData true] else [])) =
    ["TWO"; "THREE"] /\
  names (run (fun i => if (i =? 2)%nat then [Download "2025-01-01"] else [])) =
    ["TWO"; "LOW"; "THREE"].
Proof. cbv zeta. repeat split; vm_compute; reflexivity. Qed.

(** C9 as stated fails when an analysis call fails: the file is read, the
    call returns the placeholder, and the list holds a record for a
    candidate that was not analysed successfully. *)
Lemma placeholder_record_counterexample :
  let st' := startAnalysis sample_decimal sample_ai
               (sample_state second_unparsed [] ∅) in
  collaborator_fails sample_ai (Some "JD") "application/pdf"
                     (Some "BAD") "application/pdf" /\
  map (fun c => candidateName (raw c)) (results st') =
    ["ONE"; "Unknown Candidate (Parse Error)"; "THREE"] /\
  map (fun c => candidateName (raw c))
      (successfully_analysed sample_ai DEFAULT_WEIGHTS (Some "JD") "application/pdf"
                             second_unparsed) = ["ONE"; "THREE"] /\
  results st' <>
    successfully_analysed sample_ai DEFAULT_WEIGHTS (Some "JD") "application/pdf"
                          second_unparsed.
Proof.
  cbv zeta. split; [|split; [|split]].
  - apply (parse_failure sample_ai _ _ _ _ "key" "BAD" "SyntaxError"); reflexivity.
  - vm_compute. reflexivity.
  - vm_compute. reflexivity.
  - intros H. apply (f_equal (@length _)) in H. vm_compute in H. discriminate H.
Qed.

(** ** Sorting by score *)

Section Sorting.
Context {A : Type}.
Variable cmp : A -> A -> Q.

Lemma sort_insert_perm (x : A) (l : list A) :
  Permutation (x :: l) (sort_insert cmp x l).
Proof.
  induction l as [|y l IH]; cbn; [reflexivity|].
  destruct (Qle_bool (cmp x y) 0); [reflexivity|].
  rewrite perm_swap. now apply perm_skip.
Qed.

Lemma Array_sort_perm (l : list A) : Permutation l (Array_sort cmp l).
Proof.
  induction l as [|x l IH]; cbn; [reflexivity|].
  rewrite <- sort_insert_perm. now apply perm_skip.
Qed.
End Sorting.

Lemma sort_insert_sorted (x : CandidateAnalysis) (l : list CandidateAnalysis) :
  StronglySorted score_desc l ->
  StronglySorted score_desc (sort_insert by_score_desc x l).
Proof.
  induction 1 as [|y l Hs IH Hall]; cbn.
  - constructor; constructor.
  - destruct (Qle_bool (by_score_desc x y) 0) eqn:E.
    + apply Qle_bool_iff in E. unfold by_score_desc in E.
      constructor; [constructor; assumption|].
      constructor; [unfold score_desc; lra|].
      eapply List.Forall_impl; [|exact Hall].
      unfold score_desc. intros z Hz. lra.
    + assert (Hlt : (finalScore x < finalScore y)%Q).
      { apply Qnot_le_lt. intros H. unfold by_score_desc in E.
        assert (Qle_bool (finalScore y - finalScore x) 0 = true)
          by (apply Qle_bool_iff; lra).
        congruence. }
      constructor; [exact IH|].
      rewrite <- (sort_insert_perm by_score_desc x l).
      constructor; [unfold score_desc; lra|exact Hall].
Qed.

Lemma Array_sort_sorted (l : list CandidateAnalysis) :
  StronglySorted score_desc (Array_sort by_score_desc l).
Proof.
  induction l as [|x l IH]; cbn; [constructor|].
  now apply sort_insert_sorted.
Qed.

(** C10. [generateCSV] sorts the array it is given, not a copy: after the
    call, and so after [handleDownload], the caller's reference denotes the
    same records permuted into descending order of score; no other array of
    the heap is touched. *)
Theorem generateCSV_sorts_in_place
    (shortest_decimal : Q -> string) (today : string)
    (h : Heap) (candidates : nat) (cs : list CandidateAnalysis) :
  h !! candidates = Some cs ->
  exists csv h' cs',
    generateCSV shortest_decimal h candidates = Some (csv, h') /\
    handleDownload shortest_decimal today h candidates = Some h' /\
    h' !! candidates = Some cs' /\
    Permutation cs cs' /\
    StronglySorted score_desc cs' /\
    (forall other, other <> candidates -> h' !! other = h !! other).
Proof.
  intros Hcs. unfold handleDownload, generateCSV. rewrite Hcs.
  eexists _, _, (Array_sort by_score_desc cs).
  split; [reflexivity|]. split; [reflexivity|].
  split; [apply lookup_insert_eq|].
  split; [apply Array_sort_perm|].
  split; [apply Array_sort_sorted|].
  intros other Hne. now apply lookup_insert_ne.
Qed.

Lemma generateCSV_sorts_in_place_witness :
  exists csv h' cs',
    generateCSV sample_decimal sample_heap 0 = Some (csv, h') /\
    handleDownload sample_decimal "2025-01-01" sample_heap 0 = Some h' /\
    h' !! 0%nat = Some cs' /\
    Permutation [scored rich; scored jane] cs' /\
    StronglySorted score_desc cs' /\
    (forall other, other <> 0%nat -> h' !! other = sample_heap !! other).
Proof.
  apply (generateCSV_sorts_in_place sample_decimal "2025-01-01" sample_heap 0
           [scored rich; scored jane]).
  reflexivity.
Defined.

(** On the sample heap the caller's array has changed order. *)
Example handleDownload_reorders :
  (h' ← handleDownload sample_decimal "2025-01-01" sample_heap 0;
   l ← h' !! 0%nat;
   Some (map id l)) = Some ["a1"; "b2"] /\
  (l ← sample_heap !! 0%nat; Some (map id l)) = Some ["b2"; "a1"].
Proof. split; vm_compute; reflexivity. Qed.

Lemma Array_sort_nil_inv {A : Type} (cmp : A -> A -> Q) (l : list A) :
  Array_sort cmp l = [] -> l = [].
Proof.
  intros H. pose proof (Array_sort_perm cmp l) as P. rewrite H in P.
  now apply Permutation_nil_r in P.
Qed.

Lemma sort_insert_head (x : CandidateAnalysis) (l : list CandidateAnalysis) :
  Forall (score_desc x) l -> sort_insert by_score_desc x l = x :: l.
Proof.
  destruct l as [|y l]; [reflexivity|]. intros H.
  apply Forall_cons_1 in H as [Hy _]. cbn.
  assert (E : Qle_bool (by_score_desc x y) 0 = true).
  { apply Qle_bool_iff. unfold by_score_desc, score_desc in *. lra. }
  now rewrite E.
Qed.

Lemma Array_sort_sorted_id (l : list CandidateAnalysis) :
  StronglySorted score_desc l -> Array_sort by_score_desc l = l.
Proof.
  induction 1 as [|x l Hs IH Hall]; [reflexivity|].
  cbn. rewrite IH. now apply sort_insert_head.
Qed.

Lemma Array_sort_idempotent (l : list CandidateAnalysis) :
  Array_sort by_score_desc (Array_sort by_score_desc l) = Array_sort by_score_desc l.
Proof. apply Array_sort_sorted_id, Array_sort_sorted. Qed.

(** ** Persistence *)

Lemma keys_differ : weights_key <> results_key.
Proof. discriminate. Qed.

Section Persistence.
Variable shortest_decimal : Q -> string.

Lemma effect_recalculate_results (st : AppState) :
  effect_recalculate shortest_decimal st = st \/
  results_saved (effect_recalculate shortest_decimal st).
Proof.
  unfold effect_recalculate.
  destruct (0 <? length (results st))%nat; [|now left].
  destruct (negb _); [|now left].
  right. apply effect_save_results_saved.
Qed.

Lemma effect_save_weights_saved (st : AppState) :
  weights_saved (effect_save_weights st).
Proof. unfold weights_saved, effect_save_weights. cbn. apply lookup_insert_eq. Qed.

Lemma effect_save_weights_results_saved (st : AppState) :
  results_saved st -> results_saved (effect_save_weights st).
Proof.
  unfold results_saved, effect_save_weights. cbn. intros H Hne.
  rewrite lookup_insert_ne by exact keys_differ. now apply H.
Qed.

Lemma setWeights_spec (w : ScoringWeights.t) (st : AppState) :
  let st' := setWeights shortest_decimal w st in
  weights st' = w /\ weights_saved st' /\
  (results st' <> results st -> results_saved st') /\
  (results_saved st -> results_saved st') /\
  same_other_items st st'.
Proof.
  intros st'. subst st'. unfold setWeights.
  set (st1 := effect_save_weights (with_weights w st)).
  destruct (effect_recalculate_fields shortest_decimal st1) as (_ & _ & F3 & _).
  split; [exact F3|]. split; [|split; [|split]].
  - unfold weights_saved. rewrite F3.
    rewrite effect_recalculate_other by exact keys_differ.
    apply (effect_save_weights_saved (with_weights w st)).
  - intros Hne. destruct (effect_recalculate_results st1) as [E|E]; [|exact E].
    rewrite E in Hne. now destruct Hne.
  - intros Hs. apply effect_recalculate_saved.
    apply (effect_save_weights_results_saved (with_weights w st)). exact Hs.
  - intros k Hkw Hkr. rewrite effect_recalculate_other by exact Hkr.
    subst st1. unfold effect_save_weights. cbn. now rewrite lookup_insert_ne.
Qed.

Lemma clearAllData_spec (confirmed : bool) (st : AppState) :
  let st' := clearAllData shortest_decimal confirmed st in
  weights st' = weights st /\
  (weights_saved st -> weights_saved st') /\
  (results st' <> results st -> results st' = [] /\
     localStorage st' !! results_key = None) /\
  (results_saved st -> results_saved st') /\
  same_other_items st st'.
Proof.
  intros st'. subst st'. unfold clearAllData.
  destruct confirmed.
  2:{ unfold same_other_items. repeat split; auto; try (intros; congruence). }
  destruct (setResults_fields shortest_decimal [] st) as (_ & _ & F3 & _).
  assert (Hr : results (setResults shortest_decimal [] st) = [])
    by now apply setResults_results.
  cbn [weights results localStorage with_localStorage with_jdFile with_cvFiles].
  split; [exact F3|]. split; [|split; [|split]].
  - unfold weights_saved.
    cbn [weights results localStorage with_localStorage with_jdFile with_cvFiles].
    intros Hw. rewrite lookup_delete_ne by (intros E; symmetry in E; now apply keys_differ).
    rewrite setResults_other by exact keys_differ. rewrite F3. exact Hw.
  - intros _. split; [exact Hr|]. apply lookup_delete_eq.
  - intros _. unfold results_saved.
    cbn [weights results localStorage with_localStorage with_jdFile with_cvFiles].
    rewrite Hr. intros H; now destruct H.
  - intros k Hkw Hkr.
    cbn [weights results localStorage with_localStorage with_jdFile with_cvFiles].
    rewrite lookup_delete_ne by (intros E; symmetry in E; now apply Hkr).
    now rewrite setResults_other.
Qed.

Lemma run_start_storage (st : AppState) :
  localStorage (run_start shortest_decimal st) = localStorage st.
Proof.
  unfold run_start, setResults, effect_save_results, effect_recalculate.
  cbn [results with_results with_isProcessing length Nat.ltb Nat.leb].
  now case_ifs.
Qed.

Lemma loop_storage_same (ai : Collaborator) (w : ScoringWeights.t)
    (jdBase64 : option string) (jdMime : string)
    (files : list ProcessingFile.t) :
  forall (n : nat) (st : AppState),
    appended ai w jdBase64 jdMime files = [] ->
    localStorage
      (fold_left (loop_body shortest_decimal ai w jdBase64 jdMime)
                 (map_index_from (fun x i => (i, x)) n files) st) =
    localStorage st.
Proof.
  induction files as [|cv files IH]; intros n st Hs; [reflexivity|].
  cbn [map_index_from fold_left]. cbn in Hs.
  destruct (analyse_file ai w jdBase64 jdMime cv) as [c|e] eqn:E; [discriminate|].
  rewrite IH by exact Hs.
  cbn [loop_body]. rewrite E. reflexivity.
Qed.

Lemma startAnalysis_spec (ai : Collaborator) (st : AppState) :
  let st' := startAnalysis shortest_decimal ai st in
  weights st' = weights st /\
  (weights_saved st -> weights_saved st') /\
  (results st' <> results st -> results_saved st') /\
  (results st' <> results st -> results st' = [] ->
   localStorage st' = localStorage st) /\
  (results_saved st -> results_saved st') /\
  same_other_items st st'.
Proof.
  intros st'. subst st'.
  destruct (jdFile st) as [jd|] eqn:Hjd.
  2:{ unfold startAnalysis. rewrite Hjd. unfold same_other_items.
      repeat split; auto; try (intros; congruence). }
  destruct (cvFiles st) as [|f fs] eqn:Hcv.
  { unfold startAnalysis. rewrite Hjd, Hcv. cbn. unfold same_other_items.
    repeat split; auto; try (intros; congruence). }
  assert (Hne : cvFiles st <> []) by (rewrite Hcv; discriminate).
  rewrite (startAnalysis_run shortest_decimal ai st jd Hjd Hne).
  cbn [weights results localStorage with_currentProcessingIndex with_isProcessing].
  unfold weights_saved, results_saved, same_other_items.
  cbn [weights results localStorage with_currentProcessingIndex with_isProcessing].
  destruct (run_start_spec shortest_decimal st) as (R1 & R2 & R3 & R4 & R5 & R6).
  destruct (fileToBase64 jd) as [jdBase64|e].
  - destruct (loop_prefix_run shortest_decimal ai st jdBase64 (mime_of jd)
                (length (cvFiles st))) as (T1 & T2 & T3 & T4).
    pose proof (loop_prefix_spec shortest_decimal ai (weights st) jdBase64 (mime_of jd)
                  (run_start shortest_decimal st) (length (cvFiles st)) R3) as H.
    rewrite R1, R2 in H. cbn zeta in H. destruct (H eq_refl) as (_ & _ & W & _).
    split; [exact W|]. split; [|split; [|split; [|split]]].
    + intros Hw. rewrite T4 by exact keys_differ. rewrite W. exact Hw.
    + intros _. exact T3.
    + intros _ Hnil. rewrite T2, firstn_all in Hnil.
      unfold loop_prefix, indexed, Array_map_index. rewrite firstn_all2.
      * rewrite loop_storage_same by exact Hnil. apply run_start_storage.
      * clear. generalize 0%nat. induction (cvFiles st); intros n; cbn; [lia|].
        specialize (IHl (S n)). lia.
    + intros _. exact T3.
    + intros k _ Hkr. now apply T4.
  - split; [exact R3|]. split; [|split; [|split; [|split]]].
    + intros Hw. rewrite R6 by exact keys_differ. rewrite R3. exact Hw.
    + intros _. exact R5.
    + intros _ _. apply run_start_storage.
    + intros _. exact R5.
    + intros k _ Hkr. now apply R6.
Qed.

Lemma startAnalysis_saved (ai : Collaborator) (st : AppState) (jd : File.t) :
  jdFile st = Some jd -> cvFiles st <> [] ->
  results_saved (startAnalysis shortest_decimal ai st).
Proof.
  intros Hjd Hne. rewrite (startAnalysis_run shortest_decimal ai st jd Hjd Hne).
  unfold results_saved.
  cbn [results localStorage with_currentProcessingIndex with_isProcessing].
  destruct (run_start_spec shortest_decimal st) as (_ & _ & _ & _ & R5 & _).
  destruct (fileToBase64 jd) as [jdBase64|e]; [|exact R5].
  destruct (loop_prefix_run shortest_decimal ai st jdBase64 (mime_of jd)
              (length (cvFiles st))) as (_ & _ & T3 & _).
  exact T3.
Qed.

Lemma results_saved_kept (st : AppState) : results_saved st -> results_kept st.
Proof. intros H Hne. exists (results st). split; [now apply H|now left]. Qed.

Lemma effect_recalculate_kept (st : AppState) :
  results_kept st -> results_kept (effect_recalculate shortest_decimal st).
Proof.
  intros H. destruct (effect_recalculate_results st) as [->|E]; [exact H|].
  now apply results_saved_kept.
Qed.

Lemma effect_recalculate_cases (st : AppState) :
  results (effect_recalculate shortest_decimal st) = results st \/
  results (effect_recalculate shortest_decimal st) =
  map (fun r => calculateFinalScore r (weights st)) (results st).
Proof.
  unfold effect_recalculate.
  destruct (0 <? length (results st))%nat; [|now left].
  destruct (negb _); [|now left]. right.
  now destruct (effect_save_results_fields
                  (with_results
                     (map (fun r => calculateFinalScore r (weights st)) (results st)) st))
    as (_ & _ & _ & _ & -> & _).
Qed.

(** The export sorts the list of the state and touches nothing else. *)
Lemma exportCSV_spec (today : string) (st : AppState) :
  exportCSV shortest_decimal today st =
  with_results (Array_sort by_score_desc (results st)) st.
Proof.
  unfold exportCSV. destruct (results st) as [|c cs] eqn:E.
  - cbn. destruct st; cbn in E; subst; reflexivity.
  - cbn [length Nat.ltb Nat.leb]. unfold handleDownload, generateCSV, downloadCSV.
    rewrite lookup_singleton_eq. rewrite lookup_insert_eq. reflexivity.
Qed.

Lemma first_render_persisted (storage : gmap string Blob)
    (savedWeights : option ScoringWeights.t)
    (savedResults : option (list CandidateAnalysis)) :
  let st := first_render shortest_decimal storage savedWeights savedResults in
  persisted st /\ isProcessing st = false /\ currentProcessingIndex st = (-1)%Z /\
  (forall k, k <> weights_key -> k <> results_key ->
     localStorage st !! k = storage !! k).
Proof.
  unfold first_render.
  set (st0 := mkApp None [] DEFAULT_WEIGHTS false [] (-1) storage).
  assert (E1 : effect_recalculate shortest_decimal
                 (effect_save_results (effect_save_weights st0)) =
               effect_save_weights st0) by reflexivity.
  rewrite E1. clear E1.
  set (st1 := effect_save_weights st0).
  pose (good := fun s : AppState =>
          persisted s /\ isProcessing s = false /\
          currentProcessingIndex s = (-1)%Z /\ same_other_items st0 s).
  assert (P1 : good st1).
  { split; [split|split; [reflexivity|split; [reflexivity|]]].
    - apply effect_save_weights_saved.
    - intros H. now destruct H.
    - intros k Hkw _. subst st1. unfold effect_save_weights. cbn.
      now rewrite lookup_insert_ne. }
  set (st2 := match savedWeights with
              | Some w => effect_save_weights (with_weights w st1)
              | None => st1
              end).
  assert (P2 : good st2).
  { subst st2. destruct savedWeights as [w|]; [|exact P1].
    destruct P1 as ([Pw Pr] & Pi & Px & Pf).
    split; [split|split; [exact Pi|split; [exact Px|]]].
    - apply effect_save_weights_saved.
    - intros H. now destruct H.
    - intros k Hkw Hkr. unfold effect_save_weights. cbn.
      rewrite !lookup_insert_ne by (intros E; symmetry in E; now apply Hkw).
      reflexivity. }
  set (st3 := match savedResults with
              | Some rs => effect_save_results (with_results rs st2)
              | None => st2
              end).
  assert (P3 : good st3).
  { subst st3. destruct savedResults as [rs|]; [|exact P2].
    destruct P2 as ([Pw Pr] & Pi & Px & Pf).
    destruct (effect_save_results_fields (with_results rs st2))
      as (_ & _ & F3 & F4 & _ & F6).
    split; [split|split; [rewrite F4; exact Pi|split; [rewrite F6; exact Px|]]].
    - unfold weights_saved.
      rewrite effect_save_results_other by exact keys_differ.
      rewrite F3. exact Pw.
    - apply effect_save_results_saved.
    - intros k Hkw Hkr. rewrite effect_save_results_other by exact Hkr.
      now apply Pf. }
  assert (P4 : good (effect_recalculate shortest_decimal st3)).
  { destruct P3 as ([Pw Pr] & Pi & Px & Pf).
    destruct (effect_recalculate_fields shortest_decimal st3)
      as (_ & _ & F3 & F4 & F5).
    split; [split|split; [rewrite F4; exact Pi|split; [rewrite F5; exact Px|]]].
    - unfold weights_saved.
      rewrite effect_recalculate_other by exact keys_differ.
      rewrite F3. exact Pw.
    - now apply effect_recalculate_saved.
    - intros k Hkw Hkr. rewrite effect_recalculate_other by exact Hkr.
      now apply Pf. }
  assert (Hgoal : forall s, s = st3 \/ s = effect_recalculate shortest_decimal st3 ->
                            good s).
  { intros s [->| ->]; assumption. }
  cbv zeta.
  match goal with
  | |- persisted ?s /\ _ =>
      assert (G : good s);
        [apply Hgoal;
         destruct savedWeights as [w|]; destruct savedResults as [rs|]; auto;
         destruct (length rs =? 0)%nat; auto
        | destruct G as (G1 & G2 & G3 & G4); repeat split; try assumption;
          try apply G1; exact G4]
  end.
Qed.

(** The first render has the weights and the result list that the loading
    effect was given, the list scored again where the scores differ. *)
Lemma first_render_reads (storage : gmap string Blob)
    (savedWeights : option ScoringWeights.t)
    (savedResults : option (list CandidateAnalysis)) :
  let st := first_render shortest_decimal storage savedWeights savedResults in
  weights st = default DEFAULT_WEIGHTS savedWeights /\
  (results st = default [] savedResults \/
   results st = map (fun r => calculateFinalScore r (weights st))
                    (default [] savedResults)) /\
  cvFiles st = [] /\ jdFile st = None.
Proof.
  unfold first_render.
  set (st0 := mkApp None [] DEFAULT_WEIGHTS false [] (-1) storage).
  assert (E1 : effect_recalculate shortest_decimal
                 (effect_save_results (effect_save_weights st0)) =
               effect_save_weights st0) by reflexivity.
  rewrite E1. clear E1.
  set (st1 := effect_save_weights st0).
  set (st2 := match savedWeights with
              | Some w => effect_save_weights (with_weights w st1)
              | None => st1
              end).
  assert (P2 : weights st2 = default DEFAULT_WEIGHTS savedWeights /\
               results st2 = [] /\ cvFiles st2 = [] /\ jdFile st2 = None).
  { subst st2. destruct savedWeights; repeat split. }
  set (st3 := match savedResults with
              | Some rs => effect_save_results (with_results rs st2)
              | None => st2
              end).
  assert (P3 : weights st3 = default DEFAULT_WEIGHTS savedWeights /\
               results st3 = default [] savedResults /\
               cvFiles st3 = [] /\ jdFile st3 = None).
  { destruct P2 as (W & R & C & J). subst st3.
    destruct savedResults as [rs|]; [|repeat split; assumption].
    destruct (effect_save_results_fields (with_results rs st2))
      as (F1 & F2 & F3 & _ & F5 & _).
    rewrite F1, F2, F3, F5. repeat split; assumption. }
  destruct P3 as (W & R & C & J).
  assert (P4 : forall s, s = st3 \/ s = effect_recalculate shortest_decimal st3 ->
               weights s = default DEFAULT_WEIGHTS savedWeights /\
               (results s = default [] savedResults \/
                results s = map (fun r => calculateFinalScore r (weights s))
                                (default [] savedResults)) /\
               cvFiles s = [] /\ jdFile s = None).
  { intros s [->| ->].
    - repeat split; auto.
    - destruct (effect_recalculate_fields shortest_decimal st3)
        as (F1 & F2 & F3 & _).
      rewrite F1, F2, F3.
      split; [exact W|]. split; [|split; assumption].
      destruct (effect_recalculate_cases st3) as [E|E]; rewrite E, R; auto. }
  cbv zeta. apply P4.
  destruct savedWeights as [w|]; destruct savedResults as [rs|]; auto;
    destruct (length rs =? 0)%nat; auto.
Qed.
End Persistence.

Lemma effect_recalculate_length (shortest_decimal : Q -> string) (st : AppState) :
  length (results (effect_recalculate shortest_decimal st)) = length (results st).
Proof.
  unfold effect_recalculate, effect_save_results.
  cbn [results with_results].
  case_ifs; cbn [results with_results with_localStorage];
    rewrite ?length_map; reflexivity.
Qed.

Lemma untouched_step (ev : Event) (st st' : AppState) :
  weights st' = weights st -> results st' = results st ->
  localStorage st' = localStorage st ->
  keeps_storage ev st st'.
Proof.
  intros Hw Hr Hs.
  unfold keeps_storage, weights_saved, results_saved, results_kept, same_other_items.
  rewrite Hw, Hr, Hs. repeat split; auto; try (intros; congruence); tauto.
Qed.

Lemma handle_keeps_storage (shortest_decimal : Q -> string) (ev : Event)
    (st : AppState) :
  keeps_storage ev st (handle shortest_decimal ev st).
Proof.
  destruct ev as [w|confirmed|files| |files|i|ai|today]; cbn [handle].
  - destruct (setWeights_spec shortest_decimal w st) as (S1 & S2 & S3 & S4 & S5).
    cbn zeta in *.
    split; [intros _; exact S2|]. split; [intros Hne; left; exact (S3 Hne)|].
    split; [|split; [intros _; exact S2|split; [intros _; exact S4|split; [|exact S5]]]].
    + intros Hne Hnil. exfalso. apply Hne. rewrite Hnil.
      pose proof (effect_recalculate_length shortest_decimal
                    (effect_save_weights (with_weights w st))) as Hl.
      unfold setWeights in Hnil. rewrite Hnil in Hl.
      cbn [results effect_save_weights with_weights with_localStorage length] in Hl.
      clear -Hl. destruct (results st); [reflexivity|discriminate Hl].
    + intros Hk. unfold setWeights. apply effect_recalculate_kept.
      intros Hne. destruct (Hk Hne) as (saved & Hs & Hd). exists saved.
      split; [|exact Hd]. unfold effect_save_weights. cbn.
      rewrite lookup_insert_ne by exact keys_differ. exact Hs.
  - destruct (clearAllData_spec shortest_decimal confirmed st)
      as (S1 & S2 & S3 & S4 & S5).
    cbn zeta in *.
    split; [intros Hne; exfalso; apply Hne; exact S1|].
    split; [intros Hne; left; intros Hne'; destruct (S3 Hne) as [Hnil _]; congruence|].
    split; [intros Hne _; right; now apply S3|].
    split; [exact S2|]. split; [intros _; exact S4|]. split; [|exact S5].
    destruct confirmed; [|intros H; exact H].
    intros _ Hne. exfalso. apply Hne. unfold clearAllData.
    cbn [results with_localStorage with_jdFile with_cvFiles].
    now apply setResults_results.
  - apply untouched_step; destruct files; reflexivity.
  - apply untouched_step; reflexivity.
  - apply untouched_step; reflexivity.
  - apply untouched_step; reflexivity.
  - destruct (startAnalysis_spec shortest_decimal ai st)
      as (S1 & S2 & S3 & S4 & S5 & S6).
    cbn zeta in *.
    split; [intros Hne; exfalso; apply Hne; exact S1|].
    split; [intros Hne; left; exact (S3 Hne)|].
    split; [intros Hne Hnil; left; now rewrite S4|].
    split; [exact S2|]. split; [intros _; exact S5|]. split; [|exact S6].
    intros Hk. destruct (jdFile st) as [jd|] eqn:Hjd.
    + destruct (cvFiles st) as [|f fs] eqn:Hcv.
      * rewrite startAnalysis_guard by auto. exact Hk.
      * apply results_saved_kept.
        apply (startAnalysis_saved shortest_decimal ai st jd Hjd).
        rewrite Hcv. discriminate.
    + rewrite startAnalysis_guard by auto. exact Hk.
  - rewrite exportCSV_spec.
    unfold keeps_storage, weights_saved, results_saved, results_kept, same_other_items.
    cbn [weights results localStorage with_results].
    split; [intros Hne; now destruct Hne|].
    split; [intros _; right; split; [now exists today|split; reflexivity]|].
    split; [intros _ _; now left|].
    split; [intros H; exact H|].
    split; [intros Hd; now destruct (Hd today)|].
    split; [|intros k _ _; reflexivity].
    intros Hk Hne.
    assert (Hne' : results st <> []).
    { intros E. apply Hne. now rewrite E. }
    destruct (Hk Hne') as (saved & Hs & [Hd|Hd]); exists saved; (split; [exact Hs|]).
    + right. now rewrite Hd.
    + right. rewrite Hd. apply Array_sort_idempotent.
Qed.




(** The export changes the list of the state and writes nothing: after it
    the stored list is in another order than the list on screen. *)
Example export_reorders_unsaved :
  let st := mkApp None [] DEFAULT_WEIGHTS false [scored rich; scored jane] (-1)
                  {[ weights_key := WeightsJSON DEFAULT_WEIGHTS;
                     results_key := ResultsJSON [scored rich; scored jane] ]} in
  let st' := handle sample_decimal (Download "2025-01-01") st in
  persisted st /\
  results st' = [scored jane; scored rich] /\
  localStorage st' !! results_key = Some (ResultsJSON [scored rich; scored jane]) /\
  ~ results_saved st'.
Proof.
  cbv zeta. split; [|split; [|split]].
  - split; [vm_compute; reflexivity|intros _; vm_compute; reflexivity].
  - vm_compute. reflexivity.
  - vm_compute. reflexivity.
  - intros H. assert (Hne : results (handle sample_decimal (Download "2025-01-01")
        (mkApp None [] DEFAULT_WEIGHTS false [scored rich; scored jane] (-1)
               {[ weights_key := WeightsJSON DEFAULT_WEIGHTS;
                  results_key := ResultsJSON [scored rich; scored jane] ]})) <> [])
      by (vm_compute; discriminate).
    specialize (H Hne). vm_compute in H. discriminate H.
Qed.

(** ** Reading the report back *)

#[local] Arguments String.append !s1 s2 / : simpl nomatch.

Lemma append_nil_r (s : string) : (s ++ "")%string = s.
Proof. induction s as [|c s IH]; [reflexivity|]. simpl. f_equal. exact IH. Qed.

Lemma append_assoc (a b c : string) :
  ((a ++ b) ++ c)%string = (a ++ (b ++ c))%string.
Proof. induction a as [|x a IH]; [reflexivity|]. simpl. f_equal. exact IH. Qed.

Lemma plain_app (a b : string) :
  plain (a ++ b)%string = plain a && plain b.
Proof.
  induction a as [|x a IH]; [reflexivity|].
  simpl. rewrite IH. now rewrite !andb_assoc.
Qed.

Lemma cons_char_prepend (c : ascii) (v : string) (r : option (list (list string))) :
  cons_char c (prepend v r) = prepend (String c v) r.
Proof. destruct r as [[|[|f fs] rs]|]; reflexivity. Qed.

Lemma prepend_empty (r : option (list (list string))) :
  (exists f fs rs, r = Some ((f :: fs) :: rs)) \/ r = None ->
  prepend "" r = r.
Proof. intros [(f & fs & rs & ->)| ->]; reflexivity. Qed.

(** At a delimiter every state outside quotes reads the same. *)
Lemma read_delimited (st : reader_state) (rest : string) :
  st <> InQuotes -> delimited rest = true ->
  read_csv_from st rest = read_csv_from FieldStart rest.
Proof.
  intros Hst Hd. destruct rest as [|c rest]; [now destruct st|].
  cbn in Hd. apply orb_true_iff in Hd.
  destruct Hd as [Hc|Hc]; apply Ascii.eqb_eq in Hc; subst c;
    destruct st; try reflexivity; congruence.
Qed.

(** What the reader returns at a delimiter has a field to extend. *)
Lemma read_delimited_shape (rest : string) :
  delimited rest = true ->
  (exists f fs rs, read_csv_from FieldStart rest = Some ((f :: fs) :: rs)) \/
  read_csv_from FieldStart rest = None.
Proof.
  intros Hd. destruct rest as [|c rest]; [left; now eexists _, _, _|].
  cbn in Hd. apply orb_true_iff in Hd.
  destruct Hd as [Hc|Hc]; apply Ascii.eqb_eq in Hc; subst c.
  - change (read_csv_from FieldStart (String comma rest))
      with (new_field (read_csv_from FieldStart rest)).
    destruct (read_csv_from FieldStart rest) as [[|fs rs]|]; cbn; eauto 10.
  - change (read_csv_from FieldStart (String newline rest))
      with (new_record (read_csv_from FieldStart rest)).
    destruct (read_csv_from FieldStart rest) as [rs|]; cbn; eauto 10.
Qed.

Lemma read_plain (v rest : string) (st : reader_state) :
  st = FieldStart \/ st = Unquoted ->
  plain v = true -> delimited rest = true ->
  read_csv_from st (v ++ rest)%string = prepend v (read_csv_from FieldStart rest).
Proof.
  revert st. induction v as [|c v IH]; intros st Hst Hp Hd.
  - cbn [String.append]. rewrite prepend_empty by now apply read_delimited_shape.
    apply read_delimited; [|exact Hd]. destruct Hst; subst; discriminate.
  - cbn in Hp. apply andb_true_iff in Hp as [Hp Hv].
    apply andb_true_iff in Hp as [Hp Hn]. apply andb_true_iff in Hp as [Hq Hc].
    apply negb_true_iff in Hq, Hc, Hn.
    rewrite <- cons_char_prepend, <- (IH Unquoted) by auto.
    destruct Hst; subst st; cbn [String.append read_csv_from]; now rewrite Hq, Hc, Hn.
Qed.

Lemma read_in_quotes (v rest : string) :
  delimited rest = true ->
  read_csv_from InQuotes (replace_quotes v ++ String dquote rest)%string =
  prepend v (read_csv_from FieldStart rest).
Proof.
  intros Hd. induction v as [|c v IH].
  - cbn [replace_quotes String.append read_csv_from]. rewrite Ascii.eqb_refl.
    rewrite prepend_empty by now apply read_delimited_shape.
    apply read_delimited; [discriminate|exact Hd].
  - cbn [replace_quotes]. destruct (Ascii.eqb c dquote) eqn:E.
    + apply Ascii.eqb_eq in E. subst c.
      cbn [String.append read_csv_from]. rewrite !Ascii.eqb_refl, IH.
      apply cons_char_prepend.
    + cbn [String.append read_csv_from]. rewrite E, IH. apply cons_char_prepend.
Qed.

Lemma read_field (f v rest : string) :
  renders f v -> delimited rest = true ->
  read_csv_from FieldStart (f ++ rest)%string =
  prepend v (read_csv_from FieldStart rest).
Proof.
  intros [v' Hp|v'] Hd.
  - apply read_plain; auto.
  - unfold quoted. cbn [String.append read_csv_from]. rewrite Ascii.eqb_refl.
    rewrite append_assoc. cbn [String.append]. now apply read_in_quotes.
Qed.

Lemma line_end_delimited (rest : string) :
  line_end rest = true -> delimited rest = true.
Proof.
  destruct rest as [|c rest]; [reflexivity|]. cbn. intros ->. apply orb_true_r.
Qed.

(** The last field of a record, then the records that follow. *)
Lemma read_last_field (v rest : string) :
  line_end rest = true ->
  prepend v (read_csv_from FieldStart rest) =
  match read_line_end rest with
  | Some rs => Some ([v] :: rs)
  | None => None
  end.
Proof.
  destruct rest as [|c rest]; cbn [line_end read_line_end].
  - intros _. cbn. now rewrite append_nil_r.
  - intros Hc. rewrite Hc. apply Ascii.eqb_eq in Hc. subst c.
    change (read_csv_from FieldStart (String newline rest))
      with (new_record (read_csv_from FieldStart rest)).
    destruct (read_csv_from FieldStart rest) as [rs|]; cbn; [|reflexivity].
    now rewrite append_nil_r.
Qed.

Lemma read_row (fields values : list string) (rest : string) :
  Forall2 renders fields values -> fields <> [] -> line_end rest = true ->
  read_csv_from FieldStart (join "," fields ++ rest)%string =
  match read_line_end rest with
  | Some rs => Some (values :: rs)
  | None => None
  end.
Proof.
  intros Hr. induction Hr as [|f v fs vs Hf Hfs IH]; intros Hne Hl; [congruence|].
  destruct Hfs as [|f2 v2 fs vs Hf2 Hfs].
  - cbn [join]. rewrite (read_field f v rest Hf) by now apply line_end_delimited.
    now apply read_last_field.
  - change (join "," (f :: f2 :: fs))
      with (f ++ String comma (join "," (f2 :: fs)))%string.
    rewrite append_assoc. cbn [String.append].
    rewrite (read_field f v _ Hf) by reflexivity.
    change (read_csv_from FieldStart
              (String comma (join "," (f2 :: fs) ++ rest)%string))
      with (new_field (read_csv_from FieldStart (join "," (f2 :: fs) ++ rest)%string)).
    rewrite IH by (auto; discriminate).
    destruct (read_line_end rest) as [rs|]; cbn; rewrite ?append_nil_r; reflexivity.
Qed.

Lemma read_table (rowsF rowsV : list (list string)) :
  Forall2 (Forall2 renders) rowsF rowsV ->
  Forall (fun r => r <> []) rowsF -> rowsF <> [] ->
  read_csv (join (String newline "") (map (join ",") rowsF)) = Some rowsV.
Proof.
  unfold read_csv.
  intros Hr. induction Hr as [|r v rs vs Hrow Hrows IH]; intros Hne Hnil; [congruence|].
  apply Forall_cons_1 in Hne as [Hr1 Hne].
  destruct Hrows as [|r2 v2 rs vs Hrow2 Hrows].
  - cbn [map join]. rewrite <- (append_nil_r (join "," r)).
    now rewrite (read_row r v "" Hrow Hr1).
  - change (join (String newline "") (map (join ",") (r :: r2 :: rs)))
      with (join "," r ++
            String newline (join (String newline "") (map (join ",") (r2 :: rs))))%string.
    rewrite (read_row r v _ Hrow Hr1) by reflexivity.
    cbn [read_line_end]. rewrite Ascii.eqb_refl.
    rewrite IH by (auto; discriminate). reflexivity.
Qed.

(** *** The unquoted columns are plain *)

Lemma plain_string_of_uint (u : Decimal.uint) :
  plain (NilEmpty.string_of_uint u) = true.
Proof. induction u; cbn; auto. Qed.

Lemma plain_string_of_Z (z : Z) : plain (string_of_Z z) = true.
Proof.
  unfold string_of_Z, NilZero.string_of_int, NilZero.string_of_uint.
  destruct (Z.to_int z) as [u|u]; destruct u;
    first [reflexivity | apply plain_string_of_uint
          | cbn [plain]; apply plain_string_of_uint].
Qed.

Section Plain.
Variable shortest_decimal : Q -> string.
Hypothesis shortest_decimal_plain : forall x, plain (shortest_decimal x) = true.

Lemma plain_Number_toString (x : Q) :
  plain (Number_toString shortest_decimal x) = true.
Proof.
  unfold Number_toString.
  destruct (_ && _); [apply plain_string_of_Z|apply shortest_decimal_plain].
Qed.

Lemma plain_Number_toFixed_1 (x : Q) :
  plain (Number_toFixed_1 shortest_decimal x) = true.
Proof.
  unfold Number_toFixed_1.
  assert (Hs : plain (if Qle_bool 0 x then "" else "-") = true)
    by now destruct (Qle_bool 0 x).
  destruct (Qle_bool (inject_Z ten_pow_21) (Qabs x)).
  - rewrite plain_app, Hs. apply plain_Number_toString.
  - rewrite !plain_app, Hs, !plain_string_of_Z. reflexivity.
Qed.

Lemma plain_FitLabel_string (l : FitLabel) : plain (FitLabel_string l) = true.
Proof. now destruct l. Qed.

Lemma csv_row_renders (c : CandidateAnalysis) (index : nat) :
  Forall2 renders (csv_row shortest_decimal c index)
                  (csv_fields shortest_decimal c index).
Proof.
  unfold csv_row, csv_fields.
  constructor; [apply renders_plain, plain_string_of_Z|].
  constructor; [apply renders_quoted|].
  constructor; [apply renders_plain, plain_Number_toFixed_1|].
  constructor; [apply renders_plain, plain_FitLabel_string|].
  constructor; [apply renders_plain, plain_Number_toString|].
  constructor; [apply renders_plain, plain_Number_toString|].
  constructor; [apply renders_plain, plain_Number_toString|].
  constructor; [apply renders_quoted|].
  constructor; [apply renders_quoted|].
  constructor.
Qed.

Lemma rows_render (l : list CandidateAnalysis) (i : nat) :
  Forall2 (Forall2 renders)
    (map_index_from (csv_row shortest_decimal) i l)
    (map_index_from (csv_fields shortest_decimal) i l) /\
  Forall (fun r => r <> []) (map_index_from (csv_row shortest_decimal) i l).
Proof.
  revert i. induction l as [|c l IH]; intros i; cbn [map_index_from].
  - split; constructor.
  - destruct (IH (S i)) as [H1 H2]. split.
    + constructor; [apply csv_row_renders|exact H1].
    + constructor; [discriminate|exact H2].
Qed.

Lemma headers_render : Forall2 renders headers headers.
Proof.
  unfold headers.
  repeat (constructor; [apply renders_plain; reflexivity|]).
  constructor.
Qed.

(** A reader gets the header and, for each candidate, its nine values. *)
Lemma read_report (l : list CandidateAnalysis) :
  read_csv
    (join (String newline "")
       (join "," headers ::
        map (join ",") (Array_map_index (csv_row shortest_decimal) l))) =
  Some (headers :: Array_map_index (csv_fields shortest_decimal) l).
Proof.
  destruct (rows_render l 0) as [H1 H2].
  apply (read_table (headers :: Array_map_index (csv_row shortest_decimal) l)).
  - constructor; [apply headers_render|exact H1].
  - constructor; [discriminate|exact H2].
  - discriminate.
Qed.
End Plain.

Lemma map_index_from_lookup {A B : Type} (f : A -> nat -> B) (l : list A) :
  forall (k i : nat) (x : A),
    l !! i = Some x -> map_index_from f k l !! i = Some (f x (k + i)%nat).
Proof.
  induction l as [|y l IH]; intros k [|i] x Hx; try discriminate.
  - injection Hx as ->. rewrite Nat.add_0_r. reflexivity.
  - rewrite Nat.add_succ_r. apply (IH (S k) i x Hx).
Qed.

Lemma map_index_from_length {A B : Type} (f : A -> nat -> B) (l : list A) (k : nat) :
  length (map_index_from f k l) = length l.
Proof. revert k. induction l as [|y l IH]; intros k; cbn; [reflexivity|now rewrite IH]. Qed.



(** Scores 54.0 and 91.2, given in that order: the report ranks 91.2 first,
    and the names with their commas come back whole. *)
Example generateCSV_two_candidates :
  (r ← generateCSV sample_decimal sample_heap 0; read_csv (fst r)) =
  Some [ headers;
         ["1"; "Doe, Jane"; "91.2"; "High"; "94"; "92"; "90";
          "Proofs; Tooling"; "Operations"];
         ["2"; "Roe, Rich"; "54.0"; "Medium"; "50"; "60"; "50";
          "Proofs; Tooling"; "Operations"] ] /\
  option_map fst (generateCSV sample_decimal sample_heap 0) =
  Some (join (String newline "")
          [ join "," headers;
            join "," ["1"; quoted "Doe, Jane"; "91.2"; "High"; "94"; "92"; "90";
                      quoted "Proofs; Tooling"; quoted "Operations"];
            join "," ["2"; quoted "Roe, Rich"; "54.0"; "Medium"; "50"; "60"; "50";
                      quoted "Proofs; Tooling"; quoted "Operations"] ]).
Proof. split; vm_compute; reflexivity. Qed.

(** * Further properties *)

(** ** The analysis call, continued *)

Lemma placeholder_score (w : ScoringWeights.t) (i : string) :
  (finalScore (calculateFinalScore (unscored placeholder i) w) == 0)%Q /\
  fitLabel (calculateFinalScore (unscored placeholder i) w) = Low.
Proof.
  unfold calculateFinalScore, unscored.
  destruct (Qeq_bool (reduce_sum (Object_values w)) 0) eqn:E.
  - split; reflexivity.
  - cbn [finalScore fitLabel raw ratings placeholder
         Ratings.skillsMatch Ratings.experienceRelevance Ratings.qualifications
         Ratings.seniority Ratings.clarity].
    set (t := reduce_sum (Object_values w)).
    set (s := (_ / t)%Q).
    assert (Hs : (s == 0)%Q) by (subst s; unfold Qdiv; ring).
    split; [exact Hs|].
    rewrite (Qleb_comp 80%Q 80%Q (Qeq_refl 80%Q) _ _ Hs).
    rewrite (Qleb_comp 50%Q 50%Q (Qeq_refl 50%Q) _ _ Hs).
    reflexivity.
Qed.

(** X5. A readable file whose analysis call fails is given the placeholder
    record under the file's identifier, and that record scores 0 with label
    Low whatever the weights are. *)
Theorem failed_analysis_scores_zero
    (ai : Collaborator) (w : ScoringWeights.t)
    (jdBase64 : option string) (jdMime : string)
    (cv : ProcessingFile.t) (b : option string) :
  fileToBase64 (ProcessingFile.file cv) = Ok b ->
  collaborator_fails ai jdBase64 jdMime b (mime_of (ProcessingFile.file cv)) ->
  exists c,
    analyse_file ai w jdBase64 jdMime cv = Ok c /\
    raw c = placeholder /\ id c = ProcessingFile.id cv /\
    (finalScore c == 0)%Q /\ fitLabel c = Low.
Proof.
  intros Hb Hf.
  rewrite (analyse_file_placeholder ai w jdBase64 jdMime cv b Hb Hf).
  eexists. split; [reflexivity|].
  destruct (placeholder_score w (ProcessingFile.id cv)) as [Hs Hl].
  split; [|split; [|split; [exact Hs|exact Hl]]];
    unfold calculateFinalScore, unscored; now case_ifs.
Qed.

Lemma failed_analysis_scores_zero_witness :
  exists c,
    analyse_file sample_ai DEFAULT_WEIGHTS (Some "JD") "application/pdf"
                 (upload "f2" (pdf "two.pdf" "BAD")) = Ok c /\
    raw c = placeholder /\ id c = "f2" /\
    (finalScore c == 0)%Q /\ fitLabel c = Low.
Proof.
  apply (failed_analysis_scores_zero sample_ai DEFAULT_WEIGHTS (Some "JD")
           "application/pdf" (upload "f2" (pdf "two.pdf" "BAD")) (Some "BAD")).
  - reflexivity.
  - apply (parse_failure sample_ai _ _ _ _ "key" "BAD" "SyntaxError"); reflexivity.
Defined.

(** X6. What [analyzeCandidate] returns is either the placeholder or the
    very record that [JSON.parse] produced from the non-empty text of a
    response obtained with the configured key; and whenever such a record is
    produced it is the one returned. *)
Theorem analyzeCandidate_returns_parsed_or_placeholder
    (ai : Collaborator) (jdBase64 : option string) (jdMimeType : string)
    (cvBase64 : option string) (cvMimeType : string) (r : Reply) :
  let parsed :=
    exists k t,
      API_KEY ai = Some k /\ k <> "" /\
      generateContent ai k jdBase64 jdMimeType cvBase64 cvMimeType = Ok (Some t) /\
      t <> "" /\ JSON_parse ai t = Ok r in
  (parsed -> analyzeCandidate ai jdBase64 jdMimeType cvBase64 cvMimeType = Ok r) /\
  (analyzeCandidate ai jdBase64 jdMimeType cvBase64 cvMimeType = Ok r ->
   r = placeholder \/ parsed).
Proof.
  cbv zeta. unfold analyzeCandidate, analyzeCandidate_try, truthy. split.
  - intros (k & t & Hk & Hkne & Hg & Htne & Hp).
    rewrite Hk. apply String.eqb_neq in Hkne, Htne. rewrite Hkne. cbn.
    rewrite Hg. cbn. rewrite Htne. cbn. rewrite Hp. reflexivity.
  - destruct (API_KEY ai) as [k|]; [|cbn; intros [= <-]; now left].
    destruct (String.eqb_spec k "") as [->|Hkne]; cbn; [intros [= <-]; now left|].
    destruct (generateContent ai k jdBase64 jdMimeType cvBase64 cvMimeType)
      as [[t|]|e] eqn:Hg; cbn; try (intros [= <-]; now left).
    destruct (String.eqb_spec t "") as [->|Htne]; cbn; [intros [= <-]; now left|].
    destruct (JSON_parse ai t) as [data|e] eqn:Hp; cbn; [|intros [= <-]; now left].
    intros [= <-]. right. exists k, t. auto.
Qed.

Lemma analyzeCandidate_returns_parsed_or_placeholder_witness :
  analyzeCandidate sample_ai (Some "JD") "application/pdf" (Some "ONE")
                   "application/pdf" =
  Ok (Shaped (sample_raw "ONE" (Ratings.mk 80 80 80 80 80))).
Proof.
  apply (analyzeCandidate_returns_parsed_or_placeholder sample_ai (Some "JD")
           "application/pdf" (Some "ONE") "application/pdf").
  exists "key", "ONE". repeat split; discriminate.
Defined.

(** ** The two text requests and their use in the Dashboard *)

Lemma or_else_nonempty (v : option string) (fallback : string) :
  fallback <> "" -> or_else v fallback <> "".
Proof.
  intros Hf. unfold or_else, truthy. destruct v as [s|]; [|exact Hf].
  destruct (String.eqb_spec s ""); cbn; assumption.
Qed.

Lemma generateEmailDraft_nonempty (tm : TextModel) (c : CandidateAnalysis)
    (type : EmailType) (e : string) :
  generateEmailDraft tm c type = Ok e -> e <> "".
Proof.
  unfold generateEmailDraft.
  destruct (require_key (text_API_KEY tm)) as [k|x]; cbn; [|discriminate].
  destruct (generateText tm k _) as [t|x]; cbn; [|discriminate].
  intros [= <-]. apply or_else_nonempty. discriminate.
Qed.

Lemma require_key_missing (key : option string) :
  truthy key = false -> require_key key = Throw "API Key not found".
Proof.
  unfold require_key. destruct key as [k|]; [|reflexivity]. now intros ->.
Qed.

(** X7. Without a usable key both text requests throw [API Key not found]
    to their caller, where [analyzeCandidate] would return its placeholder;
    and a draft that is returned is never the empty string, since a response
    without text is replaced by a fixed sentence. *)
Theorem text_requests_key_and_fallback
    (tm : TextModel) (c : CandidateAnalysis) (type : EmailType) :
  (truthy (text_API_KEY tm) = false ->
   generateInterviewQuestions tm c = Throw "API Key not found" /\
   generateEmailDraft tm c type = Throw "API Key not found") /\
  (forall e, generateEmailDraft tm c type = Ok e -> e <> "") /\
  (forall k,
     require_key (text_API_KEY tm) = Ok k ->
     let p := EmailPrompt (match type with invite => true | reject => false end)
                          (candidateName (raw c))
                          (join ", " (firstn 2 (strengths (raw c)))) (fitLabel c) in
     generateText tm k p = Ok None \/ generateText tm k p = Ok (Some "") ->
     generateEmailDraft tm c type = Ok "Could not generate email.").
Proof.
  split; [|split].
  - intros Hk. unfold generateInterviewQuestions, generateEmailDraft.
    rewrite (require_key_missing _ Hk). split; reflexivity.
  - intros e. apply generateEmailDraft_nonempty.
  - intros k Hk p Hg. subst p. unfold generateEmailDraft. rewrite Hk. cbn.
    destruct Hg as [-> | ->]; reflexivity.
Qed.

Lemma text_requests_key_and_fallback_witness :
  generateInterviewQuestions keyless_model jane = Throw "API Key not found" /\
  generateEmailDraft keyless_model jane invite = Throw "API Key not found".
Proof.
  apply (text_requests_key_and_fallback keyless_model jane invite). reflexivity.
Defined.

Lemma fetchEmail_cached (tm : TextModel) (c : CandidateAnalysis)
    (ds : DashboardState) :
  truthy (emailMap ds !! id c) = true -> fetchEmail tm c ds = ds.
Proof. intros H. unfold fetchEmail. now rewrite H. Qed.

Lemma truthy_nonempty (s : string) : s <> "" -> truthy (Some s) = true.
Proof. intros H. unfold truthy. now destruct (String.eqb_spec s ""). Qed.

(** X8. Once [fetchEmail] has obtained a draft for a candidate, the draft
    stays: a later [fetchEmail] for the same candidate changes nothing,
    whatever the model would answer then. *)
Theorem fetchEmail_keeps_first_draft
    (tm tm' : TextModel) (c : CandidateAnalysis) (ds : DashboardState) (e : string) :
  generateEmailDraft tm c (email_type c) = Ok e ->
  let ds1 := fetchEmail tm c ds in
  (exists e', emailMap ds1 !! id c = Some e' /\ e' <> "" /\
              (truthy (emailMap ds !! id c) = false -> e' = e)) /\
  fetchEmail tm' c ds1 = ds1.
Proof.
  intros He ds1.
  assert (H : exists e', emailMap ds1 !! id c = Some e' /\ e' <> "" /\
                         (truthy (emailMap ds !! id c) = false -> e' = e)).
  { subst ds1. unfold fetchEmail.
    destruct (truthy (emailMap ds !! id c)) eqn:Ht.
    - unfold truthy in Ht. destruct (emailMap ds !! id c) as [s|]; [|discriminate].
      exists s. split; [reflexivity|]. split; [|discriminate].
      intros ->. discriminate.
    - rewrite He. cbn. exists e. split; [apply lookup_insert_eq|].
      split; [now apply (generateEmailDraft_nonempty tm c (email_type c))|auto]. }
  split; [exact H|].
  destruct H as (e' & Hl & Hne & _).
  apply fetchEmail_cached. rewrite Hl. now apply truthy_nonempty.
Qed.

Lemma fetchEmail_keeps_first_draft_witness :
  fetchEmail keyless_model jane
    (fetchEmail (sample_model (Some "Dear Jane")) jane fresh_dashboard) =
  fetchEmail (sample_model (Some "Dear Jane")) jane fresh_dashboard.
Proof.
  apply (fetchEmail_keeps_first_draft (sample_model (Some "Dear Jane"))
           keyless_model jane fresh_dashboard "Dear Jane").
  reflexivity.
Defined.

(** X9. [fetchQuestions] stores what the model returned, an empty list
    included, and any entry ends later calls for that candidate at once: the
    questions are requested at most once per candidate. *)
Theorem fetchQuestions_keeps_first_answer
    (tm tm' : TextModel) (c : CandidateAnalysis) (ds : DashboardState)
    (qs : list string) :
  generateInterviewQuestions tm c = Ok qs ->
  let ds1 := fetchQuestions tm c ds in
  (questionsMap ds !! id c = None -> questionsMap ds1 !! id c = Some qs) /\
  is_Some (questionsMap ds1 !! id c) /\
  fetchQuestions tm' c ds1 = ds1.
Proof.
  intros Hq ds1.
  assert (H : (questionsMap ds !! id c = None -> questionsMap ds1 !! id c = Some qs) /\
              is_Some (questionsMap ds1 !! id c)).
  { subst ds1. unfold fetchQuestions.
    destruct (questionsMap ds !! id c) as [old|] eqn:E.
    - split; [discriminate|]. rewrite E. eauto.
    - rewrite Hq. cbn. rewrite lookup_insert_eq. split; eauto. }
  destruct H as [H1 [old H2]]. split; [exact H1|]. split; [eauto|].
  unfold fetchQuestions at 1. now rewrite H2.
Qed.

Lemma fetchQuestions_keeps_first_answer_witness :
  fetchQuestions (sample_model (Some "a question")) jane
    (fetchQuestions (sample_model None) jane fresh_dashboard) =
  fetchQuestions (sample_model None) jane fresh_dashboard.
Proof.
  apply (fetchQuestions_keeps_first_answer (sample_model None)
           (sample_model (Some "a question")) jane fresh_dashboard []).
  reflexivity.
Defined.

(** X10. A request that throws leaves both maps as they were and still
    clears [loadingAction]; no fetch ever touches the expanded row, the
    active tab or the entries of other candidates. *)
Theorem failed_fetch_changes_nothing
    (tm : TextModel) (c : CandidateAnalysis) (ds : DashboardState) :
  ((exists x, generateInterviewQuestions tm c = Throw x) ->
   questionsMap ds !! id c = None ->
   fetchQuestions tm c ds =
   mkDashboard (expandedId ds) (activeTab ds) (questionsMap ds) (emailMap ds) None) /\
  ((exists x, generateEmailDraft tm c (email_type c) = Throw x) ->
   truthy (emailMap ds !! id c) = false ->
   fetchEmail tm c ds =
   mkDashboard (expandedId ds) (activeTab ds) (questionsMap ds) (emailMap ds) None) /\
  (let dq := fetchQuestions tm c ds in
   expandedId dq = expandedId ds /\ activeTab dq = activeTab ds /\
   emailMap dq = emailMap ds /\
   forall j, j <> id c -> questionsMap dq !! j = questionsMap ds !! j) /\
  (let de := fetchEmail tm c ds in
   expandedId de = expandedId ds /\ activeTab de = activeTab ds /\
   questionsMap de = questionsMap ds /\
   forall j, j <> id c -> emailMap de !! j = emailMap ds !! j).
Proof.
  split; [|split; [|split]].
  - intros [x Hx] Hn. unfold fetchQuestions. now rewrite Hn, Hx.
  - intros [x Hx] Hn. unfold fetchEmail. now rewrite Hn, Hx.
  - cbv zeta. unfold fetchQuestions.
    destruct (questionsMap ds !! id c); [repeat split; reflexivity|].
    cbn. repeat split; try reflexivity.
    intros j Hj. destruct (generateInterviewQuestions tm c); [|reflexivity].
    now rewrite lookup_insert_ne.
  - cbv zeta. unfold fetchEmail.
    destruct (truthy (emailMap ds !! id c)); [repeat split; reflexivity|].
    cbn. repeat split; try reflexivity.
    intros j Hj. destruct (generateEmailDraft tm c (email_type c)); [|reflexivity].
    now rewrite lookup_insert_ne.
Qed.

Lemma failed_fetch_changes_nothing_witness :
  fetchQuestions keyless_model jane fresh_dashboard = fresh_dashboard /\
  fetchEmail keyless_model jane fresh_dashboard = fresh_dashboard.
Proof.
  split.
  - refine (proj1 (failed_fetch_changes_nothing keyless_model jane fresh_dashboard)
              _ _); [eexists; reflexivity|reflexivity].
  - refine (proj1 (proj2 (failed_fetch_changes_nothing keyless_model jane
                            fresh_dashboard)) _ _);
      [eexists; reflexivity|reflexivity].
Defined.

(** ** What the Dashboard shows *)

Lemma count_labels_cons (c : CandidateAnalysis) (l : list CandidateAnalysis) :
  (count_label High (c :: l) + count_label Medium (c :: l) +
   count_label Low (c :: l) =
   S (count_label High l + count_label Medium l + count_label Low l))%nat.
Proof.
  unfold count_label. cbn [List.filter]. destruct (fitLabel c); cbn [length]; lia.
Qed.

(** X11. The three slices of the chart count every candidate exactly once:
    their values add up to the number of candidates. *)
Theorem stats_count_every_candidate (candidates : list CandidateAnalysis) :
  map fst (stats candidates) = ["High Fit"; "Medium Fit"; "Low Fit"]%string /\
  list_sum (map snd (stats candidates)) = length candidates.
Proof.
  split; [reflexivity|].
  assert (H : (count_label High candidates + count_label Medium candidates +
               count_label Low candidates = length candidates)%nat).
  { induction candidates as [|c l IH]; [reflexivity|].
    rewrite count_labels_cons, IH. reflexivity. }
  unfold stats. cbn -[count_label]. lia.
Qed.

Lemma first_best_cons (x top : CandidateAnalysis) (l : list CandidateAnalysis) :
  first_best top l ->
  if Qle_bool (by_score_desc x top) 0
  then first_best x (x :: l)
  else first_best top (x :: l).
Proof.
  intros (b & a & -> & Hb & Ha). unfold by_score_desc.
  destruct (Qle_bool (finalScore top - finalScore x) 0) eqn:E.
  - apply Qle_bool_iff in E. exists [], (b ++ top :: a).
    split; [reflexivity|]. split; [constructor|].
    apply Forall_app. split; [|constructor].
    + eapply List.Forall_impl; [|exact Hb]. cbn. intros z Hz. lra.
    + lra.
    + eapply List.Forall_impl; [|exact Ha]. cbn. intros z Hz. lra.
  - assert (Hlt : (finalScore x < finalScore top)%Q).
    { apply Qnot_le_lt. intros H.
      assert (Qle_bool (finalScore top - finalScore x) 0 = true)
        by (apply Qle_bool_iff; lra).
      congruence. }
    exists (x :: b), a. split; [reflexivity|]. split; [|exact Ha].
    constructor; assumption.
Qed.

(** X12. The Top Candidate shown, the head of the sorted copy, has the best
    score of all candidates, and among candidates with that score it is the
    one that comes first in the list; there is none exactly when the list is
    empty. *)
Theorem top_candidate_is_first_best (candidates : list CandidateAnalysis) :
  (sortedCandidates candidates = [] <-> candidates = []) /\
  (forall top rest,
     sortedCandidates candidates = top :: rest -> first_best top candidates).
Proof.
  split.
  - split; [apply Array_sort_nil_inv|intros ->; reflexivity].
  - unfold sortedCandidates.
    induction candidates as [|x l IH]; intros top rest H; [discriminate|].
    cbn [Array_sort] in H.
    destruct (Array_sort by_score_desc l) as [|y r] eqn:E.
    + apply Array_sort_nil_inv in E. subst l. cbn in H. injection H as <- <-.
      exists [], []. repeat split; constructor.
    + pose proof (first_best_cons x y l (IH y r eq_refl)) as Hc.
      cbn [sort_insert] in H.
      destruct (Qle_bool (by_score_desc x y) 0); injection H as <- <-; exact Hc.
Qed.

Lemma top_candidate_is_first_best_witness :
  first_best (scored jane) [scored rich; scored jane].
Proof.
  apply (top_candidate_is_first_best [scored rich; scored jane])
    with (rest := [scored rich]).
  reflexivity.
Defined.

(** Sorting a list that is already in descending order changes nothing. *)
(** X13. Downloading the report a second time gives the same text and
    leaves the heap as the first download left it: the array is already in
    the order the sort produces. *)
Theorem handleDownload_twice
    (shortest_decimal : Q -> string) (today today' : string)
    (h h1 : Heap) (candidates : nat) :
  handleDownload shortest_decimal today h candidates = Some h1 ->
  handleDownload shortest_decimal today' h1 candidates = Some h1 /\
  option_map fst (generateCSV shortest_decimal h1 candidates) =
  option_map fst (generateCSV shortest_decimal h candidates).
Proof.
  unfold handleDownload, generateCSV.
  destruct (h !! candidates) as [cs|] eqn:E; [|discriminate].
  unfold downloadCSV. intros [= <-].
  rewrite lookup_insert_eq.
  rewrite (Array_sort_sorted_id _ (Array_sort_sorted cs)).
  cbn [option_map fst]. rewrite insert_insert_eq. split; reflexivity.
Qed.

Lemma handleDownload_twice_witness :
  handleDownload sample_decimal "2025-01-02"
    (<[0%nat := Array_sort by_score_desc [scored rich; scored jane]]> sample_heap) 0 =
  Some (<[0%nat := Array_sort by_score_desc [scored rich; scored jane]]> sample_heap).
Proof.
  apply (handleDownload_twice sample_decimal "2025-01-01" "2025-01-02"
           sample_heap _ 0).
  reflexivity.
Defined.

(** ** Uploads and removals *)

Lemma with_cvFiles_same (st : AppState) : with_cvFiles (cvFiles st) st = st.
Proof. now destruct st. Qed.

Lemma filter_keep_all {A : Type} (p : A -> bool) (l : list A) :
  Forall (fun x => p x = true) l -> List.filter p l = l.
Proof.
  induction 1 as [|x l Hx _ IH]; [reflexivity|]. cbn. now rewrite Hx, IH.
Qed.

Lemma keep_other (i : string) (l : list ProcessingFile.t) :
  Forall (other_id i) l ->
  List.filter (fun f => negb (String.eqb (ProcessingFile.id f) i)) l = l.
Proof.
  intros H. apply filter_keep_all. eapply List.Forall_impl; [|exact H].
  intros f Hf. apply negb_true_iff. now apply String.eqb_neq.
Qed.

(** X14. [removeCv] drops exactly the files that carry the identifier and
    keeps the others in order; with an identifier no file carries it changes
    nothing, so removing a file just uploaded under a fresh identifier gives
    the state back; the analysed results are never touched by it. *)
Theorem removeCv_undoes_fresh_upload
    (i : string) (f : File.t) (st : AppState) :
  Forall (other_id i) (cvFiles st) ->
  removeCv i st = st /\
  removeCv i (processFiles [(i, f)] st) = st /\
  (forall j g, j <> i ->
     cvFiles (removeCv i (processFiles [(j, g)] st)) =
     cvFiles st ++ [ProcessingFile.mk j g Status.pending None None]) /\
  results (removeCv i (processFiles [(i, f)] st)) = results st.
Proof.
  intros Hfresh. unfold removeCv, processFiles.
  cbn [cvFiles with_cvFiles map results].
  split; [|split; [|split]].
  - rewrite (keep_other i _ Hfresh). apply with_cvFiles_same.
  - rewrite List.filter_app, (keep_other i _ Hfresh). cbn.
    rewrite String.eqb_refl. cbn. rewrite app_nil_r. now destruct st.
  - intros j g Hj. rewrite List.filter_app, (keep_other i _ Hfresh). cbn.
    apply String.eqb_neq in Hj. now rewrite Hj.
  - reflexivity.
Qed.

Lemma removeCv_undoes_fresh_upload_witness :
  removeCv "f9" (processFiles [("f9", pdf "nine.pdf" "NINE")]
                   (sample_state second_unreadable [] ∅)) =
  sample_state second_unreadable [] ∅.
Proof.
  apply (removeCv_undoes_fresh_upload "f9" (pdf "nine.pdf" "NINE")
           (sample_state second_unreadable [] ∅)).
  repeat constructor; discriminate.
Defined.

Section UpdateOutOfRange.
Context {A : Type}.
Variable g : A -> A.
Variable n : nat.

Lemma map_index_short (l : list A) (k : nat) :
  (k + length l <= n)%nat ->
  map_index_from (fun f idx => if (idx =? n)%nat then g f else f) k l = l.
Proof.
  revert k. induction l as [|x l IH]; intros k Hk; [reflexivity|].
  cbn in *. destruct (Nat.eqb_spec k n); [lia|]. f_equal. apply IH. lia.
Qed.
End UpdateOutOfRange.

(** X15. The status updates of the loop address a file by its position in
    the current list.  When a file at an earlier position has been removed in
    the meantime, the update meant for the file at position [i] leaves that
    file as it is and lands on the file after it, or on no file when it was
    the last. *)
Theorem update_file_after_removal
    (g : ProcessingFile.t -> ProcessingFile.t) (st : AppState)
    (pre mid tl : list ProcessingFile.t) (r x : ProcessingFile.t) :
  cvFiles st = pre ++ r :: mid ++ x :: tl ->
  Forall (other_id (ProcessingFile.id r)) (pre ++ mid ++ x :: tl) ->
  let i := length (pre ++ r :: mid) in
  cvFiles (update_file i g st) = pre ++ r :: mid ++ g x :: tl /\
  cvFiles (update_file i g (removeCv (ProcessingFile.id r) st)) =
  pre ++ mid ++ x :: match tl with
                     | [] => []
                     | y :: tl' => g y :: tl'
                     end.
Proof.
  intros Hc Hother i. split.
  - replace (pre ++ r :: mid ++ g x :: tl) with ((pre ++ r :: mid) ++ g x :: tl)
      by now rewrite <- app_assoc.
    apply update_file_at; [reflexivity|]. rewrite Hc. now rewrite <- app_assoc.
  - assert (Hrm : cvFiles (removeCv (ProcessingFile.id r) st) =
                  pre ++ mid ++ x :: tl).
    { unfold removeCv. cbn [cvFiles with_cvFiles]. rewrite Hc.
      rewrite List.filter_app. cbn [List.filter]. rewrite String.eqb_refl. cbn [negb].
      rewrite <- List.filter_app. now apply keep_other. }
    assert (Hi : i = length (pre ++ mid ++ [x])).
    { subst i. repeat (rewrite length_app || cbn [length]). lia. }
    destruct tl as [|y tl'].
    + unfold update_file, Array_map_index. cbn [cvFiles with_cvFiles].
      rewrite Hrm. apply map_index_short. rewrite Hi.
      repeat (rewrite length_app || cbn [length]). lia.
    + replace (pre ++ mid ++ x :: g y :: tl')
        with ((pre ++ mid ++ [x]) ++ g y :: tl')
        by (rewrite <- !app_assoc; reflexivity).
      apply update_file_at; [now rewrite Hi|].
      rewrite Hrm. rewrite <- !app_assoc. reflexivity.
Qed.

Lemma update_file_after_removal_witness :
  cvFiles (update_file 1 (ProcessingFile.with_status Status.completed)
             (removeCv "f1" (sample_state second_unreadable [] ∅))) =
  [ upload "f2" (unreadable "two.pdf");
    ProcessingFile.with_status Status.completed
      (upload "f3" (pdf "three.pdf" "THREE")) ].
Proof.
  refine (proj2 (update_file_after_removal
                   (ProcessingFile.with_status Status.completed)
                   (sample_state second_unreadable [] ∅)
                   [] [] [upload "f3" (pdf "three.pdf" "THREE")]
                   (upload "f1" (pdf "one.pdf" "ONE"))
                   (upload "f2" (unreadable "two.pdf")) _ _)).
  - reflexivity.
  - repeat constructor; discriminate.
Defined.

(** ** A whole run *)

Section Run.
Variable shortest_decimal : Q -> string.
Variable ai : Collaborator.

(** The state a run leaves, by whether the job description can be read. *)
Lemma startAnalysis_outcome (st : AppState) (jd : File.t) :
  jdFile st = Some jd -> cvFiles st <> [] ->
  let st' := startAnalysis shortest_decimal ai st in
  isProcessing st' = false /\ currentProcessingIndex st' = (-1)%Z /\
  weights st' = weights st /\ jdFile st' = jdFile st /\
  match fileToBase64 jd with
  | Ok jdBase64 =>
      cvFiles st' =
        map (processed ai (weights st) jdBase64 (mime_of jd)) (cvFiles st) /\
      results st' = appended ai (weights st) jdBase64 (mime_of jd) (cvFiles st)
  | Throw _ =>
      cvFiles st' = cvFiles st /\ results st' = [] /\
      localStorage st' = localStorage st
  end.
Proof.
  intros Hjd Hne st'. subst st'.
  rewrite (startAnalysis_run shortest_decimal ai st jd Hjd Hne).
  cbn [isProcessing currentProcessingIndex weights jdFile cvFiles results
       localStorage with_currentProcessingIndex with_isProcessing].
  destruct (run_start_spec shortest_decimal st) as (R1 & R2 & R3 & R4 & R5 & R6).
  split; [reflexivity|]. split; [reflexivity|].
  destruct (fileToBase64 jd) as [jdBase64|e].
  - destruct (loop_prefix_run shortest_decimal ai st jdBase64 (mime_of jd)
                (length (cvFiles st))) as (T1 & T2 & _ & _).
    pose proof (loop_prefix_spec shortest_decimal ai (weights st) jdBase64 (mime_of jd)
                  (run_start shortest_decimal st) (length (cvFiles st)) R3) as H.
    rewrite R1, R2 in H. cbn zeta in H. destruct (H eq_refl) as (_ & _ & W & J & _).
    split; [exact W|]. split; [now rewrite J|].
    rewrite T1, T2, firstn_all, skipn_all, app_nil_r. split; reflexivity.
  - split; [exact R3|]. split; [exact R4|].
    split; [exact R2|]. split; [exact R1|]. apply run_start_storage.
Qed.
End Run.

Lemma appended_scored (ai : Collaborator) (w : ScoringWeights.t)
    (jdBase64 : option string) (jdMime : string) (files : list ProcessingFile.t) :
  scored_with w (appended ai w jdBase64 jdMime files).
Proof.
  unfold scored_with. induction files as [|cv files IH]; [reflexivity|].
  cbn [appended]. destruct (analyse_file ai w jdBase64 jdMime cv) as [c|e] eqn:E;
    [|exact IH].
  cbn [map]. rewrite IH. f_equal. now destruct (analyse_file_scored _ _ _ _ _ _ E).
Qed.

Lemma processed_same_file (ai : Collaborator) (w : ScoringWeights.t)
    (jdBase64 : option string) (jdMime : string) (cv : ProcessingFile.t) :
  ProcessingFile.id (processed ai w jdBase64 jdMime cv) = ProcessingFile.id cv /\
  ProcessingFile.file (processed ai w jdBase64 jdMime cv) = ProcessingFile.file cv.
Proof. unfold processed. destruct (analyse_file _ _ _ _ _); split; reflexivity. Qed.

(** X16. Every run that passes the guard ends idle, whether or not the job
    description could be read: [isProcessing] is false and the index is -1.
    It changes neither the weights nor the job description nor which files
    are listed (same identifiers and handles, in the same order), and every
    record it leaves carries the score of the current weights. *)
Theorem startAnalysis_ends_idle
    (shortest_decimal : Q -> string) (ai : Collaborator)
    (st : AppState) (jd : File.t) :
  jdFile st = Some jd -> cvFiles st <> [] ->
  let st' := startAnalysis shortest_decimal ai st in
  isProcessing st' = false /\ currentProcessingIndex st' = (-1)%Z /\
  weights st' = weights st /\ jdFile st' = jdFile st /\
  map ProcessingFile.id (cvFiles st') = map ProcessingFile.id (cvFiles st) /\
  map ProcessingFile.file (cvFiles st') = map ProcessingFile.file (cvFiles st) /\
  scored_with (weights st') (results st').
Proof.
  intros Hjd Hne st'.
  destruct (startAnalysis_outcome shortest_decimal ai st jd Hjd Hne)
    as (H1 & H2 & H3 & H4 & H5).
  fold st' in H1, H2, H3, H4, H5.
  split; [exact H1|]. split; [exact H2|]. split; [exact H3|]. split; [exact H4|].
  rewrite H3.
  destruct (fileToBase64 jd) as [jdBase64|e].
  - destruct H5 as [Hf Hr]. rewrite Hf, Hr, !map_map.
    split; [|split; [|apply appended_scored]];
      apply map_ext; intros cv; apply processed_same_file.
  - destruct H5 as (Hf & Hr & _). rewrite Hf, Hr. repeat split; reflexivity.
Qed.

Lemma startAnalysis_ends_idle_witness :
  let st' := startAnalysis sample_decimal sample_ai
               (sample_state second_unparsed [jane] ∅) in
  isProcessing st' = false /\ currentProcessingIndex st' = (-1)%Z /\
  weights st' = DEFAULT_WEIGHTS /\ jdFile st' = Some (pdf "jd.pdf" "JD") /\
  map ProcessingFile.id (cvFiles st') = ["f1"; "f2"; "f3"]%string /\
  map ProcessingFile.file (cvFiles st') =
    map ProcessingFile.file second_unparsed /\
  scored_with (weights st') (results st').
Proof.
  apply (startAnalysis_ends_idle sample_decimal sample_ai
           (sample_state second_unparsed [jane] ∅) (pdf "jd.pdf" "JD")).
  - reflexivity.
  - discriminate.
Defined.

(** X17. When the job description cannot be read, the run gives up before
    the first file: no file changes status, the result list on screen is
    emptied all the same, and nothing is written to local storage. *)
Theorem unreadable_job_description
    (shortest_decimal : Q -> string) (ai : Collaborator)
    (st : AppState) (jd : File.t) :
  jdFile st = Some jd -> cvFiles st <> [] -> File.readAsDataURL jd = None ->
  let st' := startAnalysis shortest_decimal ai st in
  cvFiles st' = cvFiles st /\ results st' = [] /\
  localStorage st' = localStorage st /\ isProcessing st' = false.
Proof.
  intros Hjd Hne Hread st'.
  destruct (startAnalysis_outcome shortest_decimal ai st jd Hjd Hne)
    as (H1 & _ & _ & _ & H5).
  fold st' in H1, H5. unfold fileToBase64 in H5. rewrite Hread in H5.
  destruct H5 as (Hf & Hr & Hs). auto.
Qed.

Lemma unreadable_job_description_witness :
  let st := mkApp (Some (unreadable "jd.pdf")) second_unparsed DEFAULT_WEIGHTS
                  false [scored jane] (-1) session_storage in
  let st' := startAnalysis sample_decimal sample_ai st in
  cvFiles st' = second_unparsed /\ results st' = [] /\
  localStorage st' = session_storage /\ isProcessing st' = false.
Proof.
  apply (unreadable_job_description sample_decimal sample_ai
           (mkApp (Some (unreadable "jd.pdf")) second_unparsed DEFAULT_WEIGHTS
                  false [scored jane] (-1) session_storage)
           (unreadable "jd.pdf")).
  - reflexivity.
  - discriminate.
  - reflexivity.
Defined.

Lemma analyse_file_processed (ai : Collaborator) (w : ScoringWeights.t)
    (jdBase64 : option string) (jdMime : string) (cv : ProcessingFile.t) :
  analyse_file ai w jdBase64 jdMime (processed ai w jdBase64 jdMime cv) =
  analyse_file ai w jdBase64 jdMime cv.
Proof.
  destruct (processed_same_file ai w jdBase64 jdMime cv) as [Hi Hf].
  unfold analyse_file. now rewrite Hi, Hf.
Qed.

Lemma appended_processed (ai : Collaborator) (w : ScoringWeights.t)
    (jdBase64 : option string) (jdMime : string) (files : list ProcessingFile.t) :
  appended ai w jdBase64 jdMime (map (processed ai w jdBase64 jdMime) files) =
  appended ai w jdBase64 jdMime files.
Proof.
  induction files as [|cv files IH]; [reflexivity|].
  cbn [map appended]. rewrite analyse_file_processed, IH. reflexivity.
Qed.

(** X18. Running the analysis again with a collaborator that answers as
    before reproduces the same result list and the same statuses: what a run
    leaves depends on the files, the weights and the answers, not on the
    statuses or results that were there. *)
Theorem startAnalysis_rerun
    (shortest_decimal : Q -> string) (ai : Collaborator)
    (st : AppState) (jd : File.t) :
  jdFile st = Some jd -> cvFiles st <> [] ->
  let st1 := startAnalysis shortest_decimal ai st in
  let st2 := startAnalysis shortest_decimal ai st1 in
  results st2 = results st1 /\
  map ProcessingFile.status (cvFiles st2) = map ProcessingFile.status (cvFiles st1).
Proof.
  intros Hjd Hne st1 st2.
  destruct (startAnalysis_outcome shortest_decimal ai st jd Hjd Hne)
    as (_ & _ & W1 & J1 & O1).
  fold st1 in W1, J1, O1.
  assert (Hjd1 : jdFile st1 = Some jd) by congruence.
  assert (Hne1 : cvFiles st1 <> []).
  { destruct (fileToBase64 jd); destruct O1 as [F1 _]; rewrite F1;
      destruct (cvFiles st); try congruence; discriminate. }
  destruct (startAnalysis_outcome shortest_decimal ai st1 jd Hjd1 Hne1)
    as (_ & _ & _ & _ & O2).
  fold st2 in O2.
  destruct (fileToBase64 jd) as [jdBase64|e].
  - destruct O1 as [F1 R1]. destruct O2 as [F2 R2]. rewrite W1 in F2, R2.
    split.
    + rewrite R2, R1, F1. apply appended_processed.
    + rewrite F2, F1, !map_map. apply map_ext. intros cv.
      rewrite !processed_status. unfold status_after, throws.
      now destruct (processed_same_file ai (weights st) jdBase64 (mime_of jd) cv)
        as [_ ->].
  - destruct O1 as (F1 & R1 & _). destruct O2 as (F2 & R2 & _).
    split; congruence.
Qed.

Lemma startAnalysis_rerun_witness :
  let st1 := startAnalysis sample_decimal sample_ai
               (sample_state second_unreadable [jane] ∅) in
  let st2 := startAnalysis sample_decimal sample_ai st1 in
  results st2 = results st1 /\
  map ProcessingFile.status (cvFiles st2) = map ProcessingFile.status (cvFiles st1).
Proof.
  apply (startAnalysis_rerun sample_decimal sample_ai
           (sample_state second_unreadable [jane] ∅) (pdf "jd.pdf" "JD")).
  - reflexivity.
  - discriminate.
Defined.

(** ** Reloading the page *)

Section Reload.
Variable shortest_decimal : Q -> string.

Lemma mount_restores (storage : gmap string Blob)
    (w : ScoringWeights.t) (rs : list CandidateAnalysis) :
  storage !! weights_key = Some (WeightsJSON w) ->
  storage !! results_key = Some (ResultsJSON rs) ->
  scored_with w rs ->
  exists st,
    mount shortest_decimal storage = Some st /\
    weights st = w /\ results st = rs /\ cvFiles st = [] /\
    jdFile st = None /\ isProcessing st = false.
Proof.
  intros Hw Hr Hs. unfold mount. rewrite Hw, Hr.
  cbn [parse_weights parse_results mbind option_bind].
  eexists. split; [reflexivity|]. unfold first_render.
  set (st3 := effect_save_results _).
  assert (F : weights st3 = w /\ results st3 = rs /\ cvFiles st3 = [] /\
              jdFile st3 = None /\ isProcessing st3 = false).
  { subst st3. unfold effect_save_results. case_ifs; repeat split. }
  destruct F as (F1 & F2 & F3 & F4 & F5).
  rewrite effect_recalculate_fixed by (rewrite F1, F2; exact Hs).
  auto.
Qed.

Lemma mount_without_results (storage : gmap string Blob) (w : ScoringWeights.t) :
  storage !! weights_key = Some (WeightsJSON w) ->
  storage !! results_key = None ->
  exists st,
    mount shortest_decimal storage = Some st /\
    weights st = w /\ results st = [].
Proof.
  intros Hw Hr. unfold mount. rewrite Hw, Hr.
  cbn [parse_weights parse_results mbind option_bind].
  eexists. split; [reflexivity|]. split; reflexivity.
Qed.
End Reload.

(** X19. Reloading the page restores what was saved: when the storage
    agrees with a state whose non-empty result list carries the scores of its
    weights, the page loads, and its first render has these weights and this
    list again; the uploads and the job description are not restored. *)
Theorem reload_restores_session
    (shortest_decimal : Q -> string) (st : AppState) :
  persisted st -> results st <> [] -> scored_with (weights st) (results st) ->
  exists st',
    mount shortest_decimal (localStorage st) = Some st' /\
    weights st' = weights st /\ results st' = results st /\
    cvFiles st' = [] /\ jdFile st' = None /\ isProcessing st' = false.
Proof.
  intros [Pw Pr] Hne Hs. apply mount_restores; auto.
Qed.

Lemma reload_restores_session_witness :
  exists st',
    mount sample_decimal (localStorage restored_session) = Some st' /\
    weights st' = weights restored_session /\
    results st' = results restored_session /\
    cvFiles st' = [] /\ jdFile st' = None /\ isProcessing st' = false.
Proof.
  apply (reload_restores_session sample_decimal restored_session).
  - split; [reflexivity|intros _; reflexivity].
  - discriminate.
  - vm_compute. reflexivity.
Defined.

(** X20. After a confirmed [clearAllData] nothing of the results is left:
    the list, the uploads and the job description are gone, the stored item
    is removed, and a reload starts with an empty list and the weights that
    were in use. *)
Theorem clearAllData_then_reload
    (shortest_decimal : Q -> string) (st : AppState) :
  weights_saved st ->
  let st' := clearAllData shortest_decimal true st in
  results st' = [] /\ cvFiles st' = [] /\ jdFile st' = None /\
  localStorage st' !! results_key = None /\
  exists st'',
    mount shortest_decimal (localStorage st') = Some st'' /\
    weights st'' = weights st /\ results st'' = [].
Proof.
  intros Hw st'.
  destruct (clearAllData_spec shortest_decimal true st) as (S1 & S2 & _ & _ & _).
  fold st' in S1, S2.
  assert (Hr : results st' = []).
  { subst st'. unfold clearAllData.
    cbn [results with_localStorage with_jdFile with_cvFiles].
    now apply setResults_results. }
  assert (Hk : localStorage st' !! results_key = None).
  { subst st'. unfold clearAllData. cbn [localStorage with_localStorage].
    apply lookup_delete_eq. }
  split; [exact Hr|]. split; [reflexivity|]. split; [reflexivity|].
  split; [exact Hk|].
  apply mount_without_results; [|exact Hk].
  rewrite <- S1. apply S2, Hw.
Qed.

Lemma clearAllData_then_reload_witness :
  let st' := clearAllData sample_decimal true restored_session in
  results st' = [] /\ cvFiles st' = [] /\ jdFile st' = None /\
  localStorage st' !! results_key = None /\
  exists st'',
    mount sample_decimal (localStorage st') = Some st'' /\
    weights st'' = DEFAULT_WEIGHTS /\ results st'' = [].
Proof.
  apply (clearAllData_then_reload sample_decimal restored_session). reflexivity.
Defined.

(** X21. A run that ends with an empty result list leaves the stored list
    of the session before it in place, so that a reload brings that earlier
    list back although the screen showed none. *)
Theorem empty_run_then_reload
    (shortest_decimal : Q -> string) (ai : Collaborator) (st : AppState) :
  persisted st -> results st <> [] -> scored_with (weights st) (results st) ->
  results (startAnalysis shortest_decimal ai st) = [] ->
  exists st',
    mount shortest_decimal
          (localStorage (startAnalysis shortest_decimal ai st)) = Some st' /\
    results st' = results st.
Proof.
  intros Hp Hne Hs Hnil.
  destruct (startAnalysis_spec shortest_decimal ai st) as (_ & _ & _ & S4 & _).
  cbn zeta in S4. rewrite S4; [|congruence|exact Hnil].
  destruct Hp as [Pw Pr].
  destruct (mount_restores shortest_decimal (localStorage st) (weights st)
              (results st) Pw (Pr Hne) Hs) as (st' & Hm & _ & H & _).
  now exists st'.
Qed.

Lemma empty_run_then_reload_witness :
  results (startAnalysis sample_decimal sample_ai restored_session) = [] /\
  exists st',
    mount sample_decimal
          (localStorage (startAnalysis sample_decimal sample_ai restored_session)) =
    Some st' /\
    results st' = [scored jane].
Proof.
  split; [reflexivity|].
  apply (empty_run_then_reload sample_decimal sample_ai restored_session).
  - split; [reflexivity|intros _; reflexivity].
  - discriminate.
  - vm_compute. reflexivity.
  - reflexivity.
Defined.

(** ** The weight sliders *)

Lemma effect_recalculate_same_candidates (shortest_decimal : Q -> string)
    (st : AppState) :
  map raw (results (effect_recalculate shortest_decimal st)) = map raw (results st) /\
  map id (results (effect_recalculate shortest_decimal st)) = map id (results st).
Proof.
  unfold effect_recalculate.
  destruct (0 <? length (results st))%nat; [|split; reflexivity].
  destruct (negb _); [|split; reflexivity].
  destruct (effect_save_results_fields
              (with_results
                 (map (fun r => calculateFinalScore r (weights st)) (results st)) st))
    as (_ & _ & _ & _ & -> & _).
  cbn [results with_results]. rewrite !map_map.
  split; apply map_ext; intros c; unfold calculateFinalScore; now case_ifs.
Qed.

Lemma set_weight_spec (key : Axis) (value : Q) (w : ScoringWeights.t) :
  weight_of key (set_weight key value w) = value /\
  (forall k, k <> key -> weight_of k (set_weight key value w) = weight_of k w).
Proof.
  split; [now destruct key|].
  intros k Hk. destruct key, k; try reflexivity; congruence.
Qed.


Lemma handle_at_rest (shortest_decimal : Q -> string) (ev : Event) (st : AppState) :
  at_rest st -> at_rest (handle shortest_decimal ev st).
Proof.
  intros (Pw & Pk & Hi & Hx).
  destruct (handle_keeps_storage shortest_decimal ev st)
    as (_ & _ & _ & K4 & _ & K6 & _).
  split; [exact (K4 Pw)|]. split; [exact (K6 Pk)|]. clear K4 K6.
  destruct ev as [w|confirmed|files| |files|i|ai|today]; cbn [handle].
  - unfold setWeights.
    destruct (effect_recalculate_fields shortest_decimal
                (effect_save_weights (with_weights w st))) as (_ & _ & _ & F4 & F5).
    split; [rewrite F4; exact Hi|rewrite F5; exact Hx].
  - unfold clearAllData. destruct confirmed; [|auto].
    cbn [isProcessing currentProcessingIndex with_localStorage with_jdFile
         with_cvFiles].
    destruct (setResults_fields shortest_decimal [] st) as (_ & _ & _ & F4 & F5).
    split; congruence.
  - destruct files; split; auto.
  - split; auto.
  - split; auto.
  - split; auto.
  - destruct (jdFile st) as [jd|] eqn:Hjd.
    + destruct (cvFiles st) as [|f fs] eqn:Hcv.
      * rewrite startAnalysis_guard by auto. auto.
      * assert (Hne : cvFiles st <> []) by (rewrite Hcv; discriminate).
        rewrite (startAnalysis_run shortest_decimal ai st jd Hjd Hne).
        split; reflexivity.
    + rewrite startAnalysis_guard by auto. auto.
  - rewrite exportCSV_spec. split; auto.
Qed.




(** ** Reading files *)

Lemma split_comma_prefix (p rest : string) :
  no_comma p = true ->
  split_comma (p ++ String comma rest)%string = p :: split_comma rest.
Proof.
  induction p as [|c p IH]; intros Hp.
  - cbn. reflexivity.
  - cbn in Hp. apply andb_true_iff in Hp as [Hc Hp]. apply negb_true_iff in Hc.
    cbn [String.append split_comma]. rewrite Hc, (IH Hp). reflexivity.
Qed.

Lemma split_comma_plain (p : string) :
  no_comma p = true -> split_comma p = [p].
Proof.
  induction p as [|c p IH]; intros Hp; [reflexivity|].
  cbn in Hp. apply andb_true_iff in Hp as [Hc Hp]. apply negb_true_iff in Hc.
  cbn [split_comma]. rewrite Hc, (IH Hp). reflexivity.
Qed.

(** X24. [fileToBase64] resolves with the text between the first and the
    second comma of the data URL: for a URL made of a comma-free header, a
    comma and a comma-free payload that is the payload; anything after a
    further comma is dropped; a URL without a comma resolves with
    [undefined]; and a read error rejects. *)
Theorem fileToBase64_payload
    (name type header payload more : string) :
  no_comma header = true -> no_comma payload = true ->
  fileToBase64 (File.mk name type (Some (header ++ "," ++ payload)%string)) =
    Ok (Some payload) /\
  fileToBase64
    (File.mk name type (Some (header ++ "," ++ payload ++ "," ++ more)%string)) =
    Ok (Some payload) /\
  fileToBase64 (File.mk name type (Some header)) = Ok None /\
  (exists e, fileToBase64 (File.mk name type None) = Throw e).
Proof.
  intros Hh Hp. unfold fileToBase64. cbn [File.readAsDataURL].
  split; [|split; [|split]].
  - change (header ++ "," ++ payload)%string
      with (header ++ String comma payload)%string.
    rewrite (split_comma_prefix _ _ Hh), (split_comma_plain _ Hp). reflexivity.
  - change (header ++ "," ++ payload ++ "," ++ more)%string
      with (header ++ String comma (payload ++ String comma more))%string.
    rewrite (split_comma_prefix _ _ Hh), (split_comma_prefix _ _ Hp). reflexivity.
  - rewrite (split_comma_plain _ Hh). reflexivity.
  - eexists. reflexivity.
Qed.

Lemma fileToBase64_payload_witness :
  fileToBase64 (pdf "one.pdf" "T05F") = Ok (Some "T05F").
Proof.
  apply (fileToBase64_payload "one.pdf" "application/pdf"
           "data:application/pdf;base64" "T05F" ""); reflexivity.
Defined.

Lemma length_append (a b : string) :
  String.length (a ++ b)%string = (String.length a + String.length b)%nat.
Proof. induction a as [|c a IH]; [reflexivity|]. cbn. now rewrite IH. Qed.

Lemma substring_all (s : string) : substring 0 (String.length s) s = s.
Proof. induction s as [|c s IH]; [reflexivity|]. cbn. now rewrite IH. Qed.

Lemma substring_skip (p s : string) (m : nat) :
  substring (String.length p) m (p ++ s)%string = substring 0 m s.
Proof. induction p as [|c p IH]; [reflexivity|]. cbn. exact IH. Qed.

Lemma substring_split (s : string) :
  forall n, (n <= String.length s)%nat ->
    s = (substring 0 n s ++ substring n (String.length s - n) s)%string.
Proof.
  induction s as [|c s IH]; intros [|n] Hn; cbn in *; try lia.
  - reflexivity.
  - now rewrite substring_all.
  - rewrite <- (IH n) by lia. reflexivity.
Qed.

Lemma endsWith_iff (s suffix : string) :
  endsWith s suffix = true <-> exists p, s = (p ++ suffix)%string.
Proof.
  unfold endsWith. split.
  - intros H. apply andb_true_iff in H as [Hl He].
    apply Nat.leb_le in Hl. apply String.eqb_eq in He.
    exists (substring 0 (String.length s - String.length suffix) s).
    rewrite (substring_split s (String.length s - String.length suffix)) at 1 by lia.
    f_equal. rewrite <- He at 3. f_equal. lia.
  - intros [p ->]. rewrite length_append. apply andb_true_iff. split.
    + apply Nat.leb_le. lia.
    + replace (String.length p + String.length suffix - String.length suffix)%nat
        with (String.length p) by lia.
      rewrite substring_skip, substring_all. apply String.eqb_refl.
Qed.

(** X25. The media type sent for a file is never empty: it is the type the
    browser reports when there is one, and otherwise [application/pdf]
    exactly when the name ends in [.pdf] as written, lower case, and
    [text/plain] in every other case. *)
Theorem mime_of_never_empty (file : File.t) :
  mime_of file <> "" /\
  (File.type file <> "" -> mime_of file = File.type file) /\
  (File.type file = "" ->
   (mime_of file = "application/pdf" <->
    exists p, File.name file = (p ++ ".pdf")%string) /\
   (mime_of file = "application/pdf" \/ mime_of file = "text/plain")).
Proof.
  unfold mime_of, truthy.
  destruct (String.eqb_spec (File.type file) "") as [E|E]; cbn [negb].
  - split; [|split; [congruence|]].
    + destruct (endsWith _ _); discriminate.
    + intros _. rewrite <- endsWith_iff.
      destruct (endsWith (File.name file) ".pdf"); split; auto; try tauto.
      split; [discriminate|discriminate].
  - split; [exact E|]. split; [reflexivity|]. intros H. contradiction.
Qed.

(** An upper-case extension on a file without a reported type is sent as
    plain text. *)
Example mime_of_upper_case_extension :
  mime_of (File.mk "CV.PDF" "" (Some "data:;base64,QQ")) = "text/plain".
Proof. reflexivity. Qed.

(** ** The order of the report *)

Lemma distinct_scores_perm (l l' : list CandidateAnalysis) :
  Permutation l l' -> distinct_scores l -> distinct_scores l'.
Proof.
  induction 1 as [|x l l' P IH|x y l|l l' l'' P1 IH1 P2 IH2]; intros H.
  - exact H.
  - inversion H as [|? ? Hx Hl]; subst. constructor; [|auto].
    now rewrite <- P.
  - inversion H as [|? ? Hy Hl]; subst.
    inversion Hl as [|? ? Hx Hl']; subst.
    apply Forall_cons_1 in Hy as [Hyx Hy].
    constructor; [|constructor; assumption].
    constructor; [|assumption]. intros E. apply Hyx. now symmetry.
  - auto.
Qed.

Lemma sorted_distinct_unique (l1 : list CandidateAnalysis) :
  forall l2,
    StronglySorted score_desc l1 -> StronglySorted score_desc l2 ->
    Permutation l1 l2 -> distinct_scores l1 -> l1 = l2.
Proof.
  induction l1 as [|x l1 IH]; intros l2 S1 S2 P D.
  - now apply Permutation_nil in P.
  - destruct l2 as [|y l2]; [now apply Permutation_sym, Permutation_nil in P|].
    inversion S1 as [|? ? S1' A1]; subst. inversion S2 as [|? ? S2' A2]; subst.
    inversion D as [|? ? Dx D']; subst.
    assert (Hxy : x = y).
    { assert (Hx : In x (y :: l2)) by (eapply Permutation_in; [exact P|now left]).
      assert (Hy : In y (x :: l1))
        by (eapply Permutation_in; [symmetry; exact P|now left]).
      destruct Hx as [Hx|Hx]; [now symmetry|].
      destruct Hy as [Hy|Hy]; [exact Hy|]. exfalso.
      rewrite List.Forall_forall in A1, A2, Dx.
      pose proof (A1 y Hy) as H1. pose proof (A2 x Hx) as H2.
      apply (Dx y Hy). unfold score_desc in *. lra. }
    subst y. f_equal. apply IH; auto.
    now apply Permutation_cons_inv in P.
Qed.

(** X26. When no two candidates have the same score, the report does not
    depend on the order in which the candidates are held: any rearrangement
    of the array gives the same text, and the same array afterwards. *)
Theorem report_independent_of_order
    (shortest_decimal : Q -> string) (h h' : Heap) (candidates : nat)
    (cs cs' : list CandidateAnalysis) :
  h !! candidates = Some cs -> h' !! candidates = Some cs' ->
  Permutation cs cs' -> distinct_scores cs ->
  option_map fst (generateCSV shortest_decimal h candidates) =
  option_map fst (generateCSV shortest_decimal h' candidates) /\
  (h1 ← option_map snd (generateCSV shortest_decimal h candidates);
   h1 !! candidates) =
  (h2 ← option_map snd (generateCSV shortest_decimal h' candidates);
   h2 !! candidates).
Proof.
  intros Hcs Hcs' P D.
  assert (E : Array_sort by_score_desc cs = Array_sort by_score_desc cs').
  { apply sorted_distinct_unique.
    - apply Array_sort_sorted.
    - apply Array_sort_sorted.
    - rewrite <- (Array_sort_perm by_score_desc cs),
              <- (Array_sort_perm by_score_desc cs'). exact P.
    - apply (distinct_scores_perm cs); [apply Array_sort_perm|exact D]. }
  unfold generateCSV. rewrite Hcs, Hcs', E. cbn.
  rewrite !lookup_insert_eq. split; reflexivity.
Qed.

Lemma report_independent_of_order_witness :
  option_map fst (generateCSV sample_decimal sample_heap 0) =
  option_map fst
    (generateCSV sample_decimal
       (<[0%nat := [scored jane; scored rich]]> sample_heap) 0).
Proof.
  apply (report_independent_of_order sample_decimal sample_heap
           (<[0%nat := [scored jane; scored rich]]> sample_heap) 0
           [scored rich; scored jane] [scored jane; scored rich]).
  - reflexivity.
  - reflexivity.
  - apply perm_swap.
  - repeat constructor. intros H. vm_compute in H. discriminate H.
Defined.

(** ** Rows and tabs of the Dashboard *)

Lemma fetchQuestions_view (tm : TextModel) (c : CandidateAnalysis)
    (ds : DashboardState) :
  expandedId (fetchQuestions tm c ds) = expandedId ds /\
  activeTab (fetchQuestions tm c ds) = activeTab ds.
Proof.
  unfold fetchQuestions. destruct (questionsMap ds !! id c); split; reflexivity.
Qed.

Lemma fetchEmail_view (tm : TextModel) (c : CandidateAnalysis)
    (ds : DashboardState) :
  expandedId (fetchEmail tm c ds) = expandedId ds /\
  activeTab (fetchEmail tm c ds) = activeTab ds.
Proof.
  unfold fetchEmail. destruct (truthy (emailMap ds !! id c)); split; reflexivity.
Qed.

(** X28. Choosing a tab shows that tab and keeps the row, whether or not a
    request it starts succeeds; the Assessment tab starts no request and
    leaves both maps alone.  Clicking a row closes it when it was the open
    one and otherwise opens it on the Assessment tab, so that opening a row
    never starts a request; in both cases the maps are kept. *)
Theorem tabs_and_rows
    (tm : TextModel) (c : CandidateAnalysis) (tab : Tab.t) (i : string)
    (ds : DashboardState) :
  (activeTab (handleTabChange tm c tab ds) = tab /\
   expandedId (handleTabChange tm c tab ds) = expandedId ds) /\
  (questionsMap (handleTabChange tm c Tab.analysis ds) = questionsMap ds /\
   emailMap (handleTabChange tm c Tab.analysis ds) = emailMap ds) /\
  (expandedId (toggleExpand i ds) = None <-> expandedId ds = Some i) /\
  (expandedId (toggleExpand i ds) <> None ->
   expandedId (toggleExpand i ds) = Some i /\
   activeTab (toggleExpand i ds) = Tab.analysis) /\
  (questionsMap (toggleExpand i ds) = questionsMap ds /\
   emailMap (toggleExpand i ds) = emailMap ds).
Proof.
  split; [|split; [|split; [|split]]].
  - unfold handleTabChange. destruct tab; cbn zeta.
    + split; reflexivity.
    + destruct (fetchQuestions_view tm c
                  (mkDashboard (expandedId ds) Tab.questions (questionsMap ds)
                               (emailMap ds) (loadingAction ds))) as [-> ->].
      split; reflexivity.
    + destruct (fetchEmail_view tm c
                  (mkDashboard (expandedId ds) Tab.email (questionsMap ds)
                               (emailMap ds) (loadingAction ds))) as [-> ->].
      split; reflexivity.
  - split; reflexivity.
  - unfold toggleExpand. destruct (expandedId ds) as [e|]; [|split; discriminate].
    destruct (String.eqb_spec e i) as [->|Hne]; cbn; split; try congruence.
  - unfold toggleExpand. destruct (expandedId ds) as [e|]; [|split; reflexivity].
    destruct (String.eqb_spec e i); cbn; [congruence|split; reflexivity].
  - unfold toggleExpand. destruct (expandedId ds) as [e|]; [|split; reflexivity].
    destruct (String.eqb e i); split; reflexivity.
Qed.
